(** * z-wdt: a fixed-capacity software watchdog

    Shallow embedding of [z_wdt.c] (the channel table, the registry
    operations, suspend/resume and the expiry sweep) together with the parts
    of the OS layer [watchdog_os.c] the core calls: the clock, the mutex,
    the log sink and the start of the timer thread, and with the loop of
    that thread, which drives the sweep.

    The C program keeps one global [g_watchdog_ctx]; here every operation is
    a computation over an explicit [world] that holds that context, the
    state of the OS layer and two observation logs: the events a run emits
    (log lines, callback invocations) and the accesses it makes to the
    shared table and flag, each stamped with whether the mutex was held. *)

From Stdlib Require Import ZArith Lia String.
From stdpp Require Import base numbers list list_numbers strings.

Open Scope string_scope.
Open Scope list_scope.
Open Scope Z_scope.

(** ** Machine integers *)

Definition INT64_MAX : Z := 2 ^ 63 - 1.
Definition INT64_MIN : Z := - 2 ^ 63.
Definition UINT32_MAX : Z := 2 ^ 32 - 1.

(** Two's complement reduction of a mathematical integer to [int64_t]. *)
Definition wrap_i64 (z : Z) : Z := (z + 2 ^ 63) mod 2 ^ 64 - 2 ^ 63.

(** [a + b] on [int64_t].  Overflow of a signed addition is undefined in C;
    the model takes the wrap-around every supported target produces, and the
    theorems about deadlines say when the sum is the mathematical one. *)
Definition i64_add (a b : Z) : Z := wrap_i64 (a + b).

(** [#define WATCHDOG_MAX_CHANNELS 16] of the header [z_wdt.h]. *)
Definition WATCHDOG_MAX_CHANNELS : Z := 16.

(** ** Callbacks *)

(** The calls into the watchdog that the model follows a callback through:
    calls of [z_wdt_feed].  A callback is any C function, and this is a
    restriction: the callbacks represented here return, and reach the
    watchdog context through [z_wdt_feed] only (what they do to user memory
    is outside that context).  Not represented are callbacks that call
    [z_wdt_add], [z_wdt_delete], [z_wdt_suspend] or [z_wdt_resume], which
    on an initialized context wait for the mutex the timer thread holds
    while it runs them, and callbacks that call [z_wdt_cleanup] or
    [z_wdt_init], which take no lock and clear [initialized] or wipe the
    table under the sweep.  Every statement below about a run in which
    callbacks are invoked is a statement about callbacks of the
    represented kind. *)
Inductive api_call : Type :=
| CallFeed (channel_id : Z).

(** [typedef void ( *watchdog_callback_t)(int channel_id, void *user_data)]
    of [z_wdt.h]: a pointer to a function called with
    [(channel_id, user_data)], [NULL] standing for "no callback".  A callback
    is modelled by the calls of [z_wdt_feed] it makes, as a function of its
    two arguments. *)
Definition watchdog_callback_t : Type := Z -> Z -> list api_call.

(** ** Data model: [struct watchdog_channel], [struct watchdog_context] *)

Record watchdog_channel : Type := mk_channel {
  reload_period : Z;                         (* uint32_t, milliseconds *)
  timeout_abs_ticks : Z;                     (* int64_t, absolute deadline *)
  user_data : Z;                             (* void *, 0 is NULL *)
  callback : option watchdog_callback_t;     (* None is NULL *)
  active : bool
}.

Record watchdog_context : Type := mk_context {
  channels : list watchdog_channel;          (* WATCHDOG_MAX_CHANNELS slots *)
  current_ticks : Z;
  next_timeout_channel : Z;
  next_timeout_ticks : Z;
  initialized : bool;
  timer_running : bool
}.

(** The all-zero slot and context, as left by [= {0}] and by [memset]. *)
Definition zero_channel : watchdog_channel :=
  mk_channel 0 0 0 None false.

Definition zero_context : watchdog_context :=
  mk_context (replicate (Z.to_nat WATCHDOG_MAX_CHANNELS) zero_channel)
             0 0 0 false false.

Definition set_reload_period (v : Z) (c : watchdog_channel) : watchdog_channel :=
  mk_channel v (timeout_abs_ticks c) (user_data c) (callback c) (active c).
Definition set_timeout_abs_ticks (v : Z) (c : watchdog_channel) : watchdog_channel :=
  mk_channel (reload_period c) v (user_data c) (callback c) (active c).
Definition set_user_data (v : Z) (c : watchdog_channel) : watchdog_channel :=
  mk_channel (reload_period c) (timeout_abs_ticks c) v (callback c) (active c).
Definition set_callback (v : option watchdog_callback_t) (c : watchdog_channel)
  : watchdog_channel :=
  mk_channel (reload_period c) (timeout_abs_ticks c) (user_data c) v (active c).
Definition set_active (v : bool) (c : watchdog_channel) : watchdog_channel :=
  mk_channel (reload_period c) (timeout_abs_ticks c) (user_data c) (callback c) v.

(** [channels[id]] as an rvalue and as the target of a field assignment.
    No path of the program indexes the table out of [0, 16): the scans run
    over that range and the entry points check it first. *)
Definition chan_at (chs : list watchdog_channel) (id : Z) : watchdog_channel :=
  if id <? 0 then zero_channel else default zero_channel (chs !! Z.to_nat id).

Definition chan_upd (id : Z) (f : watchdog_channel -> watchdog_channel)
  (chs : list watchdog_channel) : list watchdog_channel :=
  if id <? 0 then chs else <[Z.to_nat id := f (chan_at chs id)]> chs.

Definition set_channels (v : list watchdog_channel) (c : watchdog_context) :=
  mk_context v (current_ticks c) (next_timeout_channel c) (next_timeout_ticks c)
             (initialized c) (timer_running c).
Definition set_next_timeout_channel (v : Z) (c : watchdog_context) :=
  mk_context (channels c) (current_ticks c) v (next_timeout_ticks c)
             (initialized c) (timer_running c).
Definition set_next_timeout_ticks (v : Z) (c : watchdog_context) :=
  mk_context (channels c) (current_ticks c) (next_timeout_channel c) v
             (initialized c) (timer_running c).
Definition set_initialized (v : bool) (c : watchdog_context) :=
  mk_context (channels c) (current_ticks c) (next_timeout_channel c)
             (next_timeout_ticks c) v (timer_running c).
Definition set_timer_running (v : bool) (c : watchdog_context) :=
  mk_context (channels c) (current_ticks c) (next_timeout_channel c)
             (next_timeout_ticks c) (initialized c) v.

(** ** Observations *)

Inductive event : Type :=
| EvLog (level format : string) (args : list Z)   (* watchdog_log(level, format, ...) *)
| EvCallback (channel_id : Z) (data : Z).         (* callback(channel_id, user_data) *)

(** The shared state the mutex is there for. *)
Inductive access : Type :=
| AccChannel (id : Z)        (* g_watchdog_ctx.channels[id] *)
| AccTimerRunning.           (* g_watchdog_ctx.timer_running *)

(** ** The world an operation runs in *)

Record world : Type := mk_world {
  g_watchdog_ctx : watchdog_context;
  ticks_now : Z;                   (* what watchdog_get_ticks returns; it moves
                                      between calls ([with_ticks]), not
                                      within one *)
  watchdog_mutex : bool;           (* held by the running thread *)
  timer_thread_running : bool;
  thread_create_ok : bool;         (* whether the OS can start the timer thread *)
  events : list event;
  accesses : list (access * bool)  (* access, mutex held at that point *)
}.

Definition with_ctx (f : watchdog_context -> watchdog_context) (w : world) : world :=
  mk_world (f (g_watchdog_ctx w)) (ticks_now w) (watchdog_mutex w)
           (timer_thread_running w) (thread_create_ok w) (events w) (accesses w).
Definition with_ticks (t : Z) (w : world) : world :=
  mk_world (g_watchdog_ctx w) t (watchdog_mutex w)
           (timer_thread_running w) (thread_create_ok w) (events w) (accesses w).
Definition with_mutex (b : bool) (w : world) : world :=
  mk_world (g_watchdog_ctx w) (ticks_now w) b
           (timer_thread_running w) (thread_create_ok w) (events w) (accesses w).
Definition with_timer_thread (b : bool) (w : world) : world :=
  mk_world (g_watchdog_ctx w) (ticks_now w) (watchdog_mutex w)
           b (thread_create_ok w) (events w) (accesses w).
Definition emit (e : event) (w : world) : world :=
  mk_world (g_watchdog_ctx w) (ticks_now w) (watchdog_mutex w)
           (timer_thread_running w) (thread_create_ok w) (events w ++ [e]) (accesses w).
Definition note (a : access) (w : world) : world :=
  mk_world (g_watchdog_ctx w) (ticks_now w) (watchdog_mutex w)
           (timer_thread_running w) (thread_create_ok w) (events w)
           (accesses w ++ [(a, watchdog_mutex w)]).

(** The table of a world, and one slot of it. *)
Abbreviation table w := (channels (g_watchdog_ctx w)).
Abbreviation slot w id := (chan_at (channels (g_watchdog_ctx w)) id).

(** ** Computations

    A call returns, ends the process through [exit], or never returns
    because it waits for a mutex its own thread holds, or for a thread that
    waits for that mutex. *)
Inductive outcome (A : Type) : Type :=
| Returned (a : A) (w : world)
| Exited (status : Z) (w : world)
| Deadlocked (w : world).
Arguments Returned {A} a w.
Arguments Exited {A} status w.
Arguments Deadlocked {A} w.

Definition M (A : Type) : Type := world -> outcome A.

Definition ret {A} (a : A) : M A := fun w => Returned a w.

Definition bind {A B} (m : M A) (k : A -> M B) : M B :=
  fun w => match m w with
           | Returned a w' => k a w'
           | Exited s w' => Exited s w'
           | Deadlocked w' => Deadlocked w'
           end.

Notation "x <- c ;; k" := (bind c (fun x => k))
  (at level 100, c at next level, right associativity).
Notation "c ;; k" := (bind c (fun _ => k))
  (at level 100, right associativity).

(** The world a call ends in, whichever way it ends. *)
Definition final_world {A} (o : outcome A) : world :=
  match o with Returned _ w | Exited _ w | Deadlocked w => w end.

(** [for (...) body], without [break] or [return] in the body; [s] is the
    state of the locals the body updates. *)
Fixpoint for_each {X S} (xs : list X) (body : X -> S -> M S) (s : S) : M S :=
  match xs with
  | [] => ret s
  | x :: rest => s' <- body x s ;; for_each rest body s'
  end.

(** [for (...) body] whose body may [return r] from the enclosing function:
    the body yields [Some r] for that and [None] to go on. *)
Fixpoint for_return {X R} (xs : list X) (body : X -> M (option R)) : M (option R) :=
  match xs with
  | [] => ret None
  | x :: rest =>
      r <- body x ;;
      match r with
      | Some v => ret (Some v)
      | None => for_return rest body
      end
  end.

(** [for (int id = 0; id < WATCHDOG_MAX_CHANNELS; id++)] *)
Definition channel_ids : list Z := seqZ 0 WATCHDOG_MAX_CHANNELS.

(** ** Primitive accesses to the context *)

Definition get_initialized : M bool :=
  fun w => Returned (initialized (g_watchdog_ctx w)) w.
Definition put_initialized (b : bool) : M unit :=
  fun w => Returned tt (with_ctx (set_initialized b) w).

Definition get_timer_running : M bool :=
  fun w => Returned (timer_running (g_watchdog_ctx w)) (note AccTimerRunning w).
Definition put_timer_running (b : bool) : M unit :=
  fun w => Returned tt (note AccTimerRunning (with_ctx (set_timer_running b) w)).

Definition chan_get (id : Z) : M watchdog_channel :=
  fun w => Returned (slot w id) (note (AccChannel id) w).
Definition chan_set (id : Z) (f : watchdog_channel -> watchdog_channel) : M unit :=
  fun w => Returned tt
    (note (AccChannel id) (with_ctx (fun c => set_channels (chan_upd id f (channels c)) c) w)).

Definition put_next_timeout_channel (v : Z) : M unit :=
  fun w => Returned tt (with_ctx (set_next_timeout_channel v) w).
Definition put_next_timeout_ticks (v : Z) : M unit :=
  fun w => Returned tt (with_ctx (set_next_timeout_ticks v) w).

(** Several accesses in a row. *)
Definition note_all (l : list access) (w : world) : world :=
  fold_left (fun acc a => note a acc) l w.

(** [memset(&g_watchdog_ctx, 0, sizeof(g_watchdog_ctx))] *)
Definition memset_ctx : M unit :=
  fun w => Returned tt
    (note_all (AccTimerRunning :: (AccChannel <$> channel_ids))
              (with_ctx (fun _ => zero_context) w)).

(** [exit(status)] *)
Definition exit {A} (status : Z) : M A := fun w => Exited status w.

(** ** The OS layer ([watchdog_os.c]) *)

Definition watchdog_get_ticks : M Z := fun w => Returned (ticks_now w) w.

Definition watchdog_log (level format : string) (args : list Z) : M unit :=
  fun w => Returned tt (emit (EvLog level format args) w).

(** [pthread_mutex_lock] on the default, non-recursive mutex: a thread that
    locks it a second time waits for itself. *)
Definition watchdog_mutex_lock : M unit :=
  fun w => if watchdog_mutex w then Deadlocked w else Returned tt (with_mutex true w).

Definition watchdog_mutex_unlock : M unit :=
  fun w => Returned tt (with_mutex false w).

Definition watchdog_os_init : M Z :=
  (fun w => Returned tt (with_timer_thread true w)) ;;
  ok <- (fun w => Returned (thread_create_ok w) w) ;;
  if negb ok then
    watchdog_log "ERROR" "Failed to create timer thread" [] ;;
    ret (-1)
  else ret 0.

(** [pthread_join(timer_thread, NULL)], called once [timer_thread_running]
    has been cleared: the caller waits until the timer thread has left its
    loop.  The thread leaves it when it next tests the flag, which is after
    the round it is in, and for that round it needs the mutex.  A caller
    that holds the mutex can so wait for a thread that waits for the
    caller: the join is taken not to end then, and to end otherwise.  (The
    join of a thread that was never created, after a failed
    [watchdog_os_init], is undefined in C and has no counterpart here.) *)
Definition pthread_join_timer_thread : M unit :=
  fun w => if watchdog_mutex w then Deadlocked w else Returned tt w.

Definition watchdog_os_cleanup : M unit :=
  running <- (fun w => Returned (timer_thread_running w) w) ;;
  if running then
    (fun w => Returned tt (with_timer_thread false w)) ;;
    pthread_join_timer_thread
  else ret tt.

(** ** The core ([z_wdt.c]) *)

Definition watchdog_ms_to_ticks (ms : Z) : Z := ms.

Definition watchdog_get_next_timeout_channel : M Z :=
  r <- for_each channel_ids
         (fun id '(next_channel, next_timeout) =>
            ch <- chan_get id ;;
            if active ch && (timeout_abs_ticks ch <? next_timeout)
            then ret (id, timeout_abs_ticks ch)
            else ret (next_channel, next_timeout))
         (-1, INT64_MAX) ;;
  ret (fst r).

Definition watchdog_schedule_next_timeout : M unit :=
  next_channel <- watchdog_get_next_timeout_channel ;;
  if 0 <=? next_channel then
    put_next_timeout_channel next_channel ;;
    ch <- chan_get next_channel ;;
    put_next_timeout_ticks (timeout_abs_ticks ch)
  else
    put_next_timeout_channel (-1) ;;
    put_next_timeout_ticks INT64_MAX.

Definition z_wdt_init : M Z :=
  init <- get_initialized ;;
  if init then
    watchdog_log "WARN" "Watchdog already initialized" [] ;;
    ret 0
  else
    memset_ctx ;;
    put_next_timeout_channel (-1) ;;
    put_next_timeout_ticks INT64_MAX ;;
    put_initialized true ;;
    put_timer_running true ;;
    r <- watchdog_os_init ;;
    if negb (r =? 0) then ret (-1)
    else
      watchdog_log "INFO" "Watchdog initialized successfully" [] ;;
      ret 0.

Definition z_wdt_feed (channel_id : Z) : M Z :=
  init <- get_initialized ;;
  if negb init then ret (-1)
  else if (channel_id <? 0) || (channel_id >=? WATCHDOG_MAX_CHANNELS) then ret (-1)
  else
    ch <- chan_get channel_id ;;
    if negb (active ch) then ret (-1)
    else
      ticks <- watchdog_get_ticks ;;
      ch <- chan_get channel_id ;;
      chan_set channel_id
        (set_timeout_abs_ticks
           (i64_add ticks (watchdog_ms_to_ticks (reload_period ch)))) ;;
      watchdog_schedule_next_timeout ;;
      ret 0.

(** The body of the scan in [z_wdt_add], for one [id]: an unused slot is
    taken and the function returns its index. *)
Definition add_at (period : Z) (cb : option watchdog_callback_t) (data : Z) (id : Z)
  : M (option Z) :=
  ch <- chan_get id ;;
  if negb (active ch) then
    chan_set id (set_reload_period period) ;;
    chan_set id (set_user_data data) ;;
    chan_set id (set_timeout_abs_ticks INT64_MAX) ;;
    chan_set id (set_callback cb) ;;
    chan_set id (set_active true) ;;
    z_wdt_feed id ;;
    watchdog_mutex_unlock ;;
    watchdog_log "INFO" "Added watchdog channel %d with period %ums" [id; period] ;;
    ret (Some id)
  else ret None.

Definition z_wdt_add (period : Z) (cb : option watchdog_callback_t) (data : Z) : M Z :=
  init <- get_initialized ;;
  if negb init then
    watchdog_log "ERROR" "Watchdog not initialized" [] ;;
    ret (-1)
  else if period =? 0 then
    watchdog_log "ERROR" "Invalid reload period: 0" [] ;;
    ret (-1)
  else
    watchdog_mutex_lock ;;
    found <- for_return channel_ids (add_at period cb data) ;;
    match found with
    | Some id => ret id
    | None =>
        watchdog_mutex_unlock ;;
        watchdog_log "ERROR" "No available watchdog channels" [] ;;
        ret (-1)
    end.

Definition z_wdt_delete (channel_id : Z) : M Z :=
  init <- get_initialized ;;
  if negb init then
    watchdog_log "ERROR" "Watchdog not initialized" [] ;;
    ret (-1)
  else if (channel_id <? 0) || (channel_id >=? WATCHDOG_MAX_CHANNELS) then
    watchdog_log "ERROR" "Invalid channel ID: %d" [channel_id] ;;
    ret (-1)
  else
    watchdog_mutex_lock ;;
    ch <- chan_get channel_id ;;
    if active ch then
      chan_set channel_id (set_active false) ;;
      chan_set channel_id (set_reload_period 0) ;;
      chan_set channel_id (set_callback None) ;;
      chan_set channel_id (set_user_data 0) ;;
      watchdog_schedule_next_timeout ;;
      watchdog_mutex_unlock ;;
      watchdog_log "INFO" "Deleted watchdog channel %d" [channel_id] ;;
      ret 0
    else
      watchdog_mutex_unlock ;;
      watchdog_log "WARN" "Channel %d not active" [channel_id] ;;
      ret (-1).

Definition z_wdt_suspend : M unit :=
  init <- get_initialized ;;
  if negb init then ret tt
  else
    watchdog_mutex_lock ;;
    put_timer_running false ;;
    watchdog_mutex_unlock ;;
    watchdog_log "INFO" "Watchdog suspended" [].

Definition z_wdt_resume : M unit :=
  init <- get_initialized ;;
  if negb init then ret tt
  else
    watchdog_mutex_lock ;;
    ticks <- watchdog_get_ticks ;;
    for_each channel_ids
      (fun id _ =>
         ch <- chan_get id ;;
         if active ch then
           ch <- chan_get id ;;
           chan_set id
             (set_timeout_abs_ticks
                (i64_add ticks (watchdog_ms_to_ticks (reload_period ch))))
         else ret tt) tt ;;
    put_timer_running true ;;
    watchdog_schedule_next_timeout ;;
    watchdog_mutex_unlock ;;
    watchdog_log "INFO" "Watchdog resumed" [].

(** Calling the function pointer: the invocation is observed, then the
    calls the callback makes run in order. *)
Definition invoke (f : watchdog_callback_t) (id data : Z) : M unit :=
  (fun w => Returned tt (emit (EvCallback id data) w)) ;;
  for_each (f id data)
    (fun call _ => match call with CallFeed i => z_wdt_feed i ;; ret tt end) tt.

(** The body of the scan in [z_wdt_process], for one [id]. *)
Definition process_channel (ticks : Z) (id : Z) : M unit :=
  ch <- chan_get id ;;
  if active ch && (timeout_abs_ticks ch <=? ticks) then
    watchdog_log "ERROR" "Watchdog channel %d timeout!" [id] ;;
    ch <- chan_get id ;;
    match callback ch with
    | Some f => invoke f id (user_data ch)
    | None =>
        watchdog_log "FATAL" "No callback for channel %d, system will exit" [id] ;;
        exit 1
    end ;;
    chan_set id (set_active false)
  else ret tt.

Definition process_sweep (ticks : Z) (ids : list Z) : M unit :=
  for_each ids (fun id _ => process_channel ticks id) tt.

Definition z_wdt_process : M unit :=
  init <- get_initialized ;;
  if negb init then ret tt
  else
    run <- get_timer_running ;;
    if negb run then ret tt
    else
      ticks <- watchdog_get_ticks ;;
      process_sweep ticks channel_ids ;;
      watchdog_schedule_next_timeout.

Definition z_wdt_cleanup : M unit :=
  init <- get_initialized ;;
  if init then
    watchdog_os_cleanup ;;
    put_initialized false ;;
    watchdog_log "INFO" "Watchdog cleaned up" []
  else ret tt.

(** One round of [timer_thread_func]: the sweep under the mutex.  The
    100 ms sleep between rounds is the passage of time, [with_ticks]. *)
Definition timer_thread_round : M unit :=
  watchdog_mutex_lock ;;
  z_wdt_process ;;
  watchdog_mutex_unlock.

(** [usleep(us)] as the timer thread sees it on the millisecond clock: the
    thread runs again [us / 1000] ms later, or [late] ms after that. *)
Definition usleep (us late : Z) : M unit :=
  fun w => Returned tt (with_ticks (ticks_now w + us / 1000 + late) w).

(** [timer_thread_func]: for as long as [timer_thread_running] is set, a
    round of the sweep under the mutex and a sleep of 100 ms.  The thread is
    followed for one round per entry of [lates], the entry saying by how
    much that round's sleep overran. *)
Fixpoint timer_thread_func (lates : list Z) : M unit :=
  match lates with
  | [] => ret tt
  | late :: rest =>
      running <- (fun w => Returned (timer_thread_running w) w) ;;
      if running then
        timer_thread_round ;;
        usleep 100000 late ;;
        timer_thread_func rest
      else ret tt
  end.

(** * Vocabulary of the statements

    Relations between worlds, the effect of the operations as functions on
    the table, the conditions the theorems put on a world, and sample runs. *)

(** ** What a call leaves alone *)

(** [frame w w']: [w'] differs from [w] at most in the table, the two
    scheduling hints, the events and the accesses; the accesses only grow,
    by entries stamped with the state of the mutex. *)
Record frame (w w' : world) : Prop := mk_frame {
  fr_ticks : ticks_now w' = ticks_now w;
  fr_mutex : watchdog_mutex w' = watchdog_mutex w;
  fr_thread : timer_thread_running w' = timer_thread_running w;
  fr_create : thread_create_ok w' = thread_create_ok w;
  fr_init : initialized (g_watchdog_ctx w') = initialized (g_watchdog_ctx w);
  fr_run : timer_running (g_watchdog_ctx w') = timer_running (g_watchdog_ctx w);
  fr_cur : current_ticks (g_watchdog_ctx w') = current_ticks (g_watchdog_ctx w);
  fr_acc : exists acc, accesses w' = accesses w ++ acc
                       /\ Forall (fun a => a.2 = watchdog_mutex w) acc
}.

(** [quiet w w']: only the accesses and the two scheduling hints moved. *)
Definition quiet (w w' : world) : Prop :=
  frame w w' /\ table w' = table w /\ events w' = events w.

(** [stamped b w w']: from [w] to [w'] the accesses grew by entries that all
    carry the stamp [b]. *)
Definition stamped (b : bool) (w w' : world) : Prop :=
  exists acc, accesses w' = accesses w ++ acc /\ Forall (fun a => a.2 = b) acc.

(** ** The registry operations, as functions on the table *)

(** [id] indexes the table: the test [id < 0 || id >= WATCHDOG_MAX_CHANNELS]
    of [z_wdt_delete] and [z_wdt_feed], negated. *)
Definition in_range (id : Z) : bool := (0 <=? id) && (id <? WATCHDOG_MAX_CHANNELS).

(** [z_wdt_feed] of [i] passes its checks on the table [chs]. *)
Definition feedable (chs : list watchdog_channel) (i : Z) : bool :=
  (0 <=? i) && (i <? WATCHDOG_MAX_CHANNELS) && active (chan_at chs i).

(** The table after [z_wdt_feed] of [i] at time [now], on an initialized
    context. *)
Definition feed_chs (now i : Z) (chs : list watchdog_channel) : list watchdog_channel :=
  if feedable chs i
  then chan_upd i (set_timeout_abs_ticks (i64_add now (reload_period (chan_at chs i)))) chs
  else chs.

(** A callback body calls [z_wdt_feed] of [k]. *)
Definition feeds (k : Z) (calls : list api_call) : bool :=
  existsb (fun c => match c with CallFeed i => i =? k end) calls.

(** The table after the calls of a callback body. *)
Definition calls_chs (now : Z) (calls : list api_call) (chs : list watchdog_channel)
  : list watchdog_channel :=
  fold_left (fun acc c => match c with CallFeed i => feed_chs now i acc end) calls chs.

(** The five assignments with which [z_wdt_add] fills a slot. *)
Definition populate (period : Z) (cb : option watchdog_callback_t) (data : Z)
  (c : watchdog_channel) : watchdog_channel :=
  set_active true
    (set_callback cb
       (set_timeout_abs_ticks INT64_MAX
          (set_user_data data (set_reload_period period c)))).

(** What [z_wdt_delete] writes into the slot it frees: [active],
    [reload_period], [callback], [user_data]. *)
Definition deleted (c : watchdog_channel) : watchdog_channel :=
  set_user_data 0 (set_callback None (set_reload_period 0 (set_active false c))).

(** ** The sweep, as a function on the table and the events *)

(** The test of the scan in [z_wdt_process]: [active && timeout <= ticks]. *)
Definition expired (now : Z) (c : watchdog_channel) : bool :=
  active c && (timeout_abs_ticks c <=? now).

(** The two log lines of the scan. *)
Definition ev_timeout (id : Z) : event :=
  EvLog "ERROR" "Watchdog channel %d timeout!" [id].
Definition ev_fatal (id : Z) : event :=
  EvLog "FATAL" "No callback for channel %d, system will exit" [id].

(** Result of a scan: whether it ended in [exit], the table, the events. *)
Record sweep_state : Type := mk_sweep {
  sw_exited : bool;
  sw_chs : list watchdog_channel;
  sw_evs : list event
}.

(** The scan of [ids] at time [now].  The clock does not move during a call,
    so [now] is both the [current_ticks] the scan compares with and the time
    at which a callback feeds. *)
Fixpoint sweep_pure (now : Z) (ids : list Z) (chs : list watchdog_channel)
  (evs : list event) : sweep_state :=
  match ids with
  | [] => mk_sweep false chs evs
  | id :: rest =>
      let ch := chan_at chs id in
      if expired now ch then
        match callback ch with
        | Some f =>
            sweep_pure now rest
              (chan_upd id (set_active false)
                 (calls_chs now (f id (user_data ch)) chs))
              (evs ++ [ev_timeout id; EvCallback id (user_data ch)])
        | None => mk_sweep true chs (evs ++ [ev_timeout id; ev_fatal id])
        end
      else sweep_pure now rest chs evs
  end.

(** The [user_data] arguments with which the callback of channel [k] was
    invoked, in order. *)
Fixpoint fired (k : Z) (evs : list event) : list Z :=
  match evs with
  | [] => []
  | EvCallback i d :: rest => if i =? k then d :: fired k rest else fired k rest
  | EvLog _ _ _ :: rest => fired k rest
  end.

(** ** Well-formed worlds

    The table has its 16 slots, every live slot carries a period that
    [z_wdt_add] accepts (a non-zero [uint32_t]), and the clock is far enough
    from the end of [int64_t] for a deadline to be computed. *)

Definition period_ok (c : watchdog_channel) : bool :=
  negb (active c) || ((0 <? reload_period c) && (reload_period c <=? UINT32_MAX)).

Definition clock_ok (now : Z) : bool :=
  (INT64_MIN <=? now) && (now <=? INT64_MAX - UINT32_MAX).

Definition wf_world (w : world) : bool :=
  (length (table w) =? Z.to_nat WATCHDOG_MAX_CHANNELS)%nat
  && clock_ok (ticks_now w)
  && forallb period_ok (table w).

(** The part of [wf_world] that concerns the table, as a proposition. *)
Definition wf_table (chs : list watchdog_channel) : Prop :=
  length chs = Z.to_nat WATCHDOG_MAX_CHANNELS /\ Forall (fun c => period_ok c = true) chs.

(** A feed re-arms a live slot to a deadline that lies ahead. *)
Definition rearm_ok (now : Z) (chs : list watchdog_channel) : Prop :=
  forall j, active (chan_at chs j) = true ->
            now < i64_add now (reload_period (chan_at chs j)).

(** ** Conditions on a sweep, as checks on the world it starts from *)

(** Slot [j] is due: the scan, were it to reach the slot as it is now, would
    treat it as expired. *)
Definition due (w : world) (j : Z) : bool := expired (ticks_now w) (slot w j).

Definition has_callback (w : world) (j : Z) : bool :=
  match callback (slot w j) with Some _ => true | None => false end.

(** The callback of slot [j], if there is one, does not feed channel [k]. *)
Definition spares (k : Z) (w : world) (j : Z) : bool :=
  match callback (slot w j) with
  | Some g => negb (feeds k (g j (user_data (slot w j))))
  | None => true
  end.

(** Every due channel below [k] has a callback, and none of these feeds [k]. *)
Definition due_below_ok (k : Z) (w : world) : bool :=
  forallb (fun j => negb (due w j) || (has_callback w j && spares k w j)) (seqZ 0 k).

(** No callback of a due channel below [k] feeds [k]. *)
Definition unfed_from_below (k : Z) (w : world) : bool :=
  forallb (fun j => negb (due w j) || spares k w j) (seqZ 0 k).



(** ** Sample runs *)

(** The program at start-up: static storage zeroed, the clock at 0, the OS
    able to start the timer thread. *)
Definition boot : world := mk_world zero_context 0 false false true [] [].

Definition after {A} (m : M A) (w : world) : world := final_world (m w).

Definition booted : world := after z_wdt_init boot.

(** Callbacks: one that only marks the timeout in user memory, as
    [watchdog_timeout_callback] of the test program does, one that feeds its
    own channel, one that feeds the next channel. *)
Definition cb_mark : watchdog_callback_t := fun _ _ => [].
Definition cb_refeed : watchdog_callback_t := fun id _ => [CallFeed id].
Definition cb_feed_next : watchdog_callback_t := fun id _ => [CallFeed (id + 1)].

(** Two channels with callbacks, added at time 0, both overdue at 2000. *)
Definition two_overdue : world :=
  with_ticks 2000
    (after (z_wdt_add 1500 (Some cb_refeed) 7)
       (after (z_wdt_add 1000 (Some cb_mark) 5) booted)).


(** Channel 0 feeds channel 1 from its callback; both overdue at 1500. *)
Definition rescuer : world :=
  with_ticks 1500
    (after (z_wdt_add 1000 (Some cb_mark) 8)
       (after (z_wdt_add 1000 (Some cb_feed_next) 7) booted)).

(** A channel with a callback below a channel without, both overdue. *)
Definition orphan_second : world :=
  with_ticks 2000
    (after (z_wdt_add 1500 None 0)
       (after (z_wdt_add 1000 (Some cb_mark) 5) booted)).

(** The table filled by 16 adds at time 0. *)
Definition full_table : world :=
  foldl (fun w i => after (z_wdt_add (1000 + i) (Some cb_mark) 0) w) booted channel_ids.

(** The program at start-up on a system that cannot start the timer thread. *)
Definition boot_no_thread : world := mk_world zero_context 0 false false false [] [].

(** ** The test program ([watchdog_test.c]) and the scenario of the
    specification, as computations *)

(** [test_basic_functionality]: the values its assertions inspect. *)
Definition test_basic_functionality : M (list Z) :=
  r0 <- z_wdt_init ;;
  channel1 <- z_wdt_add 1000 (Some cb_mark) 100 ;;
  channel2 <- z_wdt_add 2000 (Some cb_mark) 101 ;;
  r1 <- z_wdt_feed channel1 ;;
  r2 <- z_wdt_feed channel2 ;;
  r3 <- z_wdt_delete channel2 ;;
  r4 <- z_wdt_feed channel2 ;;
  r5 <- z_wdt_delete channel1 ;;
  ret [r0; channel1; channel2; r1; r2; r3; r4; r5].

(** [test_error_conditions] *)
Definition test_error_conditions : M (list Z) :=
  z_wdt_cleanup ;;
  r0 <- z_wdt_add 1000 None 0 ;;
  r1 <- z_wdt_feed 0 ;;
  r2 <- z_wdt_delete 0 ;;
  r3 <- z_wdt_init ;;
  r4 <- z_wdt_feed (-1) ;;
  r5 <- z_wdt_feed WATCHDOG_MAX_CHANNELS ;;
  r6 <- z_wdt_delete (-1) ;;
  r7 <- z_wdt_delete WATCHDOG_MAX_CHANNELS ;;
  r8 <- z_wdt_add 0 None 0 ;;
  r9 <- z_wdt_feed 0 ;;
  ret [r0; r1; r2; r3; r4; r5; r6; r7; r8; r9].

(** [test_maximum_channels] *)
Definition test_maximum_channels : M (list Z * Z * list Z) :=
  channels <- for_each channel_ids
                (fun i acc => c <- z_wdt_add (1000 + i) (Some cb_mark) 0 ;; ret (acc ++ [c]))
                [] ;;
  extra_channel <- z_wdt_add 1000 (Some cb_mark) 0 ;;
  deleted <- for_each channels
               (fun c acc => r <- z_wdt_delete c ;; ret (acc ++ [r])) [] ;;
  ret (channels, extra_channel, deleted).

(** The scenario of the specification: one channel of period 1500 fed at 0,
    a sweep every 100 ms; the callback runs once, in the sweep at 1500, and a
    feed after that fails. *)
Definition scenario : M (list Z * Z) :=
  z_wdt_init ;;
  id <- z_wdt_add 1500 (Some cb_mark) 42 ;;
  z_wdt_feed id ;;
  for_each (seqZ 1 20)
    (fun n (_ : unit) => (fun w => Returned tt (with_ticks (100 * n) w)) ;; z_wdt_process) tt ;;
  r <- z_wdt_feed id ;;
  evs <- (fun w => Returned (events w) w) ;;
  ret (fired id evs, r).

(** ** Registrations and invocations *)

(** What [z_wdt_add] wrote into a slot and only [z_wdt_delete] or a new
    [z_wdt_add] may change: [c'] carries the period, the callback and the
    user data of [c], and is in use only if [c] was. *)
Definition same_registration (c c' : watchdog_channel) : Prop :=
  reload_period c' = reload_period c
  /\ callback c' = callback c
  /\ user_data c' = user_data c
  /\ (active c' = true -> active c = true).

(** Slot [k] is in use in [w'] as it was in [w], with the same period. *)
Definition slot_kept (k : Z) (w w' : world) : Prop :=
  active (slot w' k) = active (slot w k)
  /\ reload_period (slot w' k) = reload_period (slot w k).

(** The channels whose callbacks were invoked, in the order of invocation. *)
Fixpoint callback_ids (evs : list event) : list Z :=
  match evs with
  | [] => []
  | EvCallback i _ :: rest => i :: callback_ids rest
  | EvLog _ _ _ :: rest => callback_ids rest
  end.

(** ** The timer thread at work *)

(** The clock values at which the rounds of [timer_thread_func lates] run,
    the first at [now]. *)
Fixpoint round_times (now : Z) (lates : list Z) : list Z :=
  match lates with
  | [] => []
  | late :: rest => now :: round_times (now + 100 + late) rest
  end.

(** Every channel in use has a callback, and no callback but [k]'s own
    feeds channel [k]. *)
Definition left_alone (k : Z) (w : world) : bool :=
  forallb (fun j => negb (active (slot w j))
                    || (has_callback w j && ((j =? k) || spares k w j)))
          channel_ids.

(** What the timer thread relies on from one round to the next. *)
Definition steady (k : Z) (w : world) : Prop :=
  wf_table (table w)
  /\ initialized (g_watchdog_ctx w) = true
  /\ timer_running (g_watchdog_ctx w) = true
  /\ timer_thread_running w = true
  /\ watchdog_mutex w = false
  /\ left_alone k w = true.

(** The clock value [t] lies before [now + period] for every channel in use,
    [now] being the time of [w]. *)
Definition within_periods (t : Z) (w : world) : bool :=
  forallb (fun j => negb (active (slot w j))
                    || (t <? ticks_now w + reload_period (slot w j)))
          channel_ids.

(** ** The scheduling hint *)

(** One turn of the loop of [watchdog_get_next_timeout_channel] on the pair
    [(next_channel, next_timeout)]. *)
Definition next_step (chs : list watchdog_channel) (s : Z * Z) (id : Z) : Z * Z :=
  if active (chan_at chs id) && (timeout_abs_ticks (chan_at chs id) <? snd s)
  then (id, timeout_abs_ticks (chan_at chs id))
  else s.

(** What the loop of [watchdog_get_next_timeout_channel] has found after the
    slots below [n]. *)
Definition earliest_below (chs : list watchdog_channel) (n : Z) (s : Z * Z) : Prop :=
  (s = (-1, INT64_MAX)
   /\ forall j, 0 <= j < n -> active (chan_at chs j) = true ->
                INT64_MAX <= timeout_abs_ticks (chan_at chs j))
  \/ (0 <= fst s < n
      /\ active (chan_at chs (fst s)) = true
      /\ snd s = timeout_abs_ticks (chan_at chs (fst s))
      /\ snd s < INT64_MAX
      /\ forall j, 0 <= j < n -> active (chan_at chs j) = true ->
                   snd s <= timeout_abs_ticks (chan_at chs j)
                   /\ (timeout_abs_ticks (chan_at chs j) = snd s -> fst s <= j)).

(** The two hint fields agree with the table: they name the channel in use
    with the earliest deadline, the lowest index among equals, or are
    [(-1, INT64_MAX)] when no channel in use has a deadline below
    [INT64_MAX]. *)
Definition hint_ok (c : watchdog_context) : bool :=
  let chs := channels c in
  let r := next_timeout_channel c in
  let t := next_timeout_ticks c in
  if r <? 0 then
    (r =? -1) && (t =? INT64_MAX)
    && forallb (fun j => negb (active (chan_at chs j))
                         || (INT64_MAX <=? timeout_abs_ticks (chan_at chs j)))
               channel_ids
  else
    (r <? WATCHDOG_MAX_CHANNELS) && active (chan_at chs r)
    && (t =? timeout_abs_ticks (chan_at chs r)) && (t <? INT64_MAX)
    && forallb (fun j => negb (active (chan_at chs j))
                         || (t <? timeout_abs_ticks (chan_at chs j))
                         || ((t =? timeout_abs_ticks (chan_at chs j)) && (r <=? j)))
               channel_ids.

(** ** Tasks beside the timer thread *)

(** A task that feeds channel [k] and the timer thread, taking turns: for
    each pair [(tf, ts)] the task calls [z_wdt_feed] when the clock is at
    [tf], then the thread runs a round when it is at [ts]. *)
Definition fed_and_swept (k : Z) (turns : list (Z * Z)) : M unit :=
  for_each turns
    (fun '(tf, ts) _ =>
       (fun w => Returned tt (with_ticks tf w)) ;;
       z_wdt_feed k ;;
       (fun w => Returned tt (with_ticks ts w)) ;;
       timer_thread_round) tt.

(** Every round of [turns] comes less than [period] after the feed before
    it, and the clock is in range throughout. *)
Definition fed_in_time (period : Z) (turns : list (Z * Z)) : bool :=
  forallb (fun '(tf, ts) => clock_ok tf && clock_ok ts && (ts <? tf + period)) turns.

(** [z_wdt_add] for each request [(period, callback, user_data)] in turn,
    as the loop of [test_maximum_channels] does; the ids returned. *)
Fixpoint add_all (reqs : list (Z * option watchdog_callback_t * Z)) : M (list Z) :=
  match reqs with
  | [] => ret []
  | (period, cb, data) :: rest =>
      id <- z_wdt_add period cb data ;;
      ids <- add_all rest ;;
      ret (id :: ids)
  end.

(** No request asks for the period 0. *)
Definition periods_nonzero (reqs : list (Z * option watchdog_callback_t * Z)) : bool :=
  forallb (fun '(period, _, _) => negb (period =? 0)) reqs.

(** ** Further sample runs *)

(** Three requests for a channel, one of them without callback. *)
Definition three_requests : list (Z * option watchdog_callback_t * Z) :=
  [(1000, Some cb_mark, 1); (2000, None, 2); (500, Some cb_refeed, 3)].

(** [sleep(seconds)] in the main thread, as far as the watchdog goes: the
    timer thread runs its rounds meanwhile, ten to the second. *)
Definition sleep (seconds : Z) : M unit :=
  timer_thread_func (replicate (Z.to_nat (10 * seconds)) 0).

(** [test_timeout_functionality]: the values it inspects, and the result of
    its last call, which it ignores. *)
Definition test_timeout_functionality : M (list Z * list Z) :=
  channel <- z_wdt_add 1500 (Some cb_mark) 100 ;;
  r0 <- z_wdt_feed channel ;;
  sleep 3 ;;
  evs <- (fun w => Returned (events w) w) ;;
  r1 <- z_wdt_delete channel ;;
  ret ([channel; r0; r1], fired channel evs).

(** [test_suspend_resume]: the same, with the invocations seen at the end
    of the suspension and at the end of the test. *)
Definition test_suspend_resume : M (list Z * list Z * list Z) :=
  channel <- z_wdt_add 2000 (Some cb_mark) 100 ;;
  r0 <- z_wdt_feed channel ;;
  z_wdt_suspend ;;
  sleep 3 ;;
  evs0 <- (fun w => Returned (events w) w) ;;
  z_wdt_resume ;;
  r1 <- z_wdt_feed channel ;;
  sleep 3 ;;
  evs1 <- (fun w => Returned (events w) w) ;;
  r2 <- z_wdt_delete channel ;;
  ret ([channel; r0; r1; r2], fired channel evs0, fired channel evs1).

(** * Reasoning layer *)

(** ** Slots of the table *)

Lemma chan_at_active_range chs id :
  active (chan_at chs id) = true -> 0 <= id /\ (Z.to_nat id < length chs)%nat.
Proof.
  unfold chan_at. destruct (id <? 0) eqn:E; [discriminate|].
  destruct (chs !! Z.to_nat id) eqn:L; [|discriminate].
  intros _. split; [lia|]. eapply lookup_lt_Some; eauto.
Qed.

Lemma chan_at_upd_eq chs id f :
  0 <= id -> (Z.to_nat id < length chs)%nat ->
  chan_at (chan_upd id f chs) id = f (chan_at chs id).
Proof.
  intros Hid Hlen. unfold chan_upd.
  destruct (id <? 0) eqn:E; [lia|].
  unfold chan_at at 1. rewrite E.
  rewrite list_lookup_insert_eq by exact Hlen. reflexivity.
Qed.

Lemma chan_at_upd_ne chs id j f :
  id <> j -> chan_at (chan_upd id f chs) j = chan_at chs j.
Proof.
  intros Hne. unfold chan_upd.
  destruct (id <? 0) eqn:E; [reflexivity|].
  unfold chan_at at 1 3. destruct (j <? 0) eqn:Ej; [reflexivity|].
  rewrite list_lookup_insert_ne by lia. reflexivity.
Qed.

Lemma length_chan_upd chs id f : length (chan_upd id f chs) = length chs.
Proof. unfold chan_upd. destruct (id <? 0); [reflexivity|]. apply length_insert. Qed.

(** Updating a slot that is not in the table changes nothing. *)
Lemma chan_at_upd_out chs id j f :
  ~ (Z.to_nat id < length chs)%nat -> chan_at (chan_upd id f chs) j = chan_at chs j.
Proof.
  intros Hout. unfold chan_upd. destruct (id <? 0); [reflexivity|].
  rewrite list_insert_ge by lia. reflexivity.
Qed.

(** ** Arithmetic of deadlines *)

Lemma i64_add_exact a b :
  INT64_MIN <= a + b <= INT64_MAX -> i64_add a b = a + b.
Proof.
  unfold i64_add, wrap_i64, INT64_MIN, INT64_MAX. intros H.
  rewrite Z.mod_small by lia. lia.
Qed.

Lemma frame_refl w : frame w w.
Proof.
  constructor; try reflexivity. exists []. split; [by rewrite app_nil_r | constructor].
Qed.

Lemma frame_trans w1 w2 w3 : frame w1 w2 -> frame w2 w3 -> frame w1 w3.
Proof.
  intros [t1 m1 h1 c1 i1 r1 u1 (a1 & e1 & f1)] [t2 m2 h2 c2 i2 r2 u2 (a2 & e2 & f2)].
  constructor; try congruence.
  exists (a1 ++ a2). split.
  - rewrite e2, e1, app_assoc. reflexivity.
  - apply Forall_app. split; [exact f1|].
    rewrite m1 in f2. exact f2.
Qed.

Lemma frame_note a w : frame w (note a w).
Proof.
  constructor; try reflexivity.
  exists [(a, watchdog_mutex w)]. split; [reflexivity|]. by repeat constructor.
Qed.

Lemma frame_emit e w : frame w (emit e w).
Proof.
  constructor; try reflexivity. exists []. split; [by rewrite app_nil_r | constructor].
Qed.

Lemma quiet_refl w : quiet w w.
Proof. split; [apply frame_refl | split; reflexivity]. Qed.

Lemma quiet_trans w1 w2 w3 : quiet w1 w2 -> quiet w2 w3 -> quiet w1 w3.
Proof.
  intros (f1 & t1 & e1) (f2 & t2 & e2).
  split; [eapply frame_trans; eauto | split; congruence].
Qed.

Lemma quiet_note a w : quiet w (note a w).
Proof. split; [apply frame_note | split; reflexivity]. Qed.

Lemma stamped_refl b w : stamped b w w.
Proof. exists []. split; [by rewrite app_nil_r|constructor]. Qed.

Lemma stamped_trans b w1 w2 w3 : stamped b w1 w2 -> stamped b w2 w3 -> stamped b w1 w3.
Proof.
  intros (a1 & e1 & f1) (a2 & e2 & f2). exists (a1 ++ a2). split.
  - rewrite e2, e1, app_assoc. reflexivity.
  - apply Forall_app. split; assumption.
Qed.

Lemma stamped_same b w w' : accesses w' = accesses w -> stamped b w w'.
Proof. intros H. exists []. split; [by rewrite app_nil_r|constructor]. Qed.

Lemma frame_stamped w w' : frame w w' -> stamped (watchdog_mutex w) w w'.
Proof. intros H. exact (fr_acc _ _ H). Qed.

Lemma stamped_note a w : stamped (watchdog_mutex w) w (note a w).
Proof. apply frame_stamped, frame_note. Qed.

(** ** Monad laws used to step through a body *)

Lemma bind_returned {A B} (m : M A) (k : A -> M B) w a w' :
  m w = Returned a w' -> bind m k w = k a w'.
Proof. intros H. unfold bind. rewrite H. reflexivity. Qed.

Lemma for_each_app {X S} (xs ys : list X) (body : X -> S -> M S) s w :
  for_each (xs ++ ys) body s w
  = match for_each xs body s w with
    | Returned s' w' => for_each ys body s' w'
    | Exited st w' => Exited st w'
    | Deadlocked w' => Deadlocked w'
    end.
Proof.
  revert s w. induction xs as [|x xs IH]; intros s w; simpl.
  - reflexivity.
  - unfold bind. destruct (body x s w) as [s1 w1| |]; [apply IH|reflexivity|reflexivity].
Qed.

(** ** The scheduling hint *)

Lemma watchdog_get_next_timeout_channel_quiet w :
  exists r w', watchdog_get_next_timeout_channel w = Returned r w' /\ quiet w w'
               /\ g_watchdog_ctx w' = g_watchdog_ctx w.
Proof.
  unfold watchdog_get_next_timeout_channel.
  generalize (-1, INT64_MAX). generalize channel_ids.
  intros ids. revert w. induction ids as [|id ids IH]; intros w s.
  - exists (fst s), w. split; [reflexivity|]. split; [apply quiet_refl|reflexivity].
  - destruct s as [nc nt].
    set (w1 := note (AccChannel id) w).
    set (s1 := if active (slot w id) && (timeout_abs_ticks (slot w id) <? nt)
               then (id, timeout_abs_ticks (slot w id)) else (nc, nt)).
    destruct (IH w1 s1) as (r & w' & Heq & Hq & Hc).
    exists r, w'. split.
    + rewrite <- Heq. unfold bind; simpl. unfold bind, chan_get; simpl.
      fold w1. subst s1.
      destruct (active (slot w id) && (timeout_abs_ticks (slot w id) <? nt));
        reflexivity.
    + split; [|exact Hc].
      eapply quiet_trans; [apply (quiet_note (AccChannel id) w)|exact Hq].
Qed.

Lemma watchdog_schedule_next_timeout_quiet w :
  exists w', watchdog_schedule_next_timeout w = Returned tt w' /\ quiet w w'.
Proof.
  unfold watchdog_schedule_next_timeout.
  destruct (watchdog_get_next_timeout_channel_quiet w) as (r & w1 & Heq & Hq & Hc).
  rewrite (bind_returned _ _ _ _ _ Heq).
  destruct (0 <=? r).
  - eexists. split; [reflexivity|].
    eapply quiet_trans; [exact Hq|].
    split; [|split; reflexivity].
    constructor; try reflexivity.
    exists [(AccChannel r, watchdog_mutex w1)]. split; [reflexivity|]. by repeat constructor.
  - eexists. split; [reflexivity|].
    eapply quiet_trans; [exact Hq|].
    split; [|split; reflexivity].
    constructor; try reflexivity.
    exists []. split; [by rewrite app_nil_r | constructor].
Qed.

Arguments watchdog_schedule_next_timeout : simpl never.
Arguments watchdog_get_next_timeout_channel : simpl never.
Arguments chan_at : simpl never.
Arguments chan_upd : simpl never.
Arguments i64_add : simpl never.
Arguments WATCHDOG_MAX_CHANNELS : simpl never.
Arguments INT64_MAX : simpl never.
Arguments channel_ids : simpl never.

(** ** Feeding, as a function on the table *)

Lemma z_wdt_feed_uninit w i :
  initialized (g_watchdog_ctx w) = false -> z_wdt_feed i w = Returned (-1) w.
Proof.
  intros H. unfold z_wdt_feed, bind, get_initialized. rewrite H. reflexivity.
Qed.

Lemma z_wdt_feed_spec w i :
  initialized (g_watchdog_ctx w) = true ->
  exists w', z_wdt_feed i w = Returned (if feedable (table w) i then 0 else -1) w'
             /\ frame w w' /\ events w' = events w
             /\ table w' = feed_chs (ticks_now w) i (table w).
Proof.
  intros Hinit. unfold feed_chs, feedable.
  unfold z_wdt_feed, bind, get_initialized, chan_get, chan_set, watchdog_get_ticks, ret.
  rewrite Hinit. cbn.
  destruct (i <? 0) eqn:Elo.
  { exists w. replace (0 <=? i) with false by lia. cbn.
    split; [reflexivity|]. split; [apply frame_refl|]. split; reflexivity. }
  destruct (i >=? WATCHDOG_MAX_CHANNELS) eqn:Ehi.
  { exists w. replace (i <? WATCHDOG_MAX_CHANNELS) with false by lia.
    rewrite andb_false_r. cbn.
    split; [reflexivity|]. split; [apply frame_refl|]. split; reflexivity. }
  replace (0 <=? i) with true by lia.
  replace (i <? WATCHDOG_MAX_CHANNELS) with true by lia.
  cbn.
  destruct (active (slot w i)) eqn:Eact; cbn.
  - match goal with
    | |- context [watchdog_schedule_next_timeout ?x] => set (w2 := x)
    end.
    destruct (watchdog_schedule_next_timeout_quiet w2) as (w3 & Heq & Hf & Ht & He).
    exists w3. rewrite Heq. split; [reflexivity|].
    split; [|split].
    + eapply frame_trans; [|exact Hf]. subst w2.
      eapply frame_trans; [apply (frame_note (AccChannel i))|].
      eapply frame_trans; [apply (frame_note (AccChannel i))|].
      constructor; try reflexivity.
      eexists [_]. split; [reflexivity|]. by repeat constructor.
    + rewrite He. reflexivity.
    + rewrite Ht. reflexivity.
  - exists (note (AccChannel i) w).
    split; [reflexivity|]. split; [apply frame_note|]. split; reflexivity.
Qed.

Lemma length_feed_chs now i chs : length (feed_chs now i chs) = length chs.
Proof. unfold feed_chs. destruct (feedable chs i); [apply length_chan_upd|reflexivity]. Qed.

Lemma chan_at_feed_chs now i chs j :
  chan_at (feed_chs now i chs) j
  = if (i =? j) && feedable chs j
    then set_timeout_abs_ticks (i64_add now (reload_period (chan_at chs j))) (chan_at chs j)
    else chan_at chs j.
Proof.
  unfold feed_chs. destruct (i =? j) eqn:E.
  - assert (i = j) by lia. subst j. simpl.
    destruct (feedable chs i) eqn:F; [|reflexivity].
    unfold feedable in F. apply andb_prop in F as [_ F].
    apply chan_at_active_range in F as [? ?].
    apply chan_at_upd_eq; assumption.
  - simpl. destruct (feedable chs i); [|reflexivity].
    apply chan_at_upd_ne. lia.
Qed.

(** ** What a callback does to the table *)

Lemma length_calls_chs now calls chs : length (calls_chs now calls chs) = length chs.
Proof.
  revert chs. induction calls as [|[i] calls IH]; intros chs; [reflexivity|].
  change (calls_chs now (CallFeed i :: calls) chs)
    with (calls_chs now calls (feed_chs now i chs)).
  rewrite IH. apply length_feed_chs.
Qed.

Lemma feedable_feed_chs now i chs j : feedable (feed_chs now i chs) j = feedable chs j.
Proof.
  unfold feedable. rewrite chan_at_feed_chs.
  destruct ((i =? j) && _); reflexivity.
Qed.

(** However often and in whatever order a callback feeds, a slot ends
    either untouched or re-armed from the current time. *)
Lemma chan_at_calls_chs now calls chs j :
  chan_at (calls_chs now calls chs) j
  = if feeds j calls && feedable chs j
    then set_timeout_abs_ticks (i64_add now (reload_period (chan_at chs j))) (chan_at chs j)
    else chan_at chs j.
Proof.
  revert chs. induction calls as [|[i] calls IH]; intros chs; [reflexivity|].
  change (calls_chs now (CallFeed i :: calls) chs)
    with (calls_chs now calls (feed_chs now i chs)).
  rewrite IH, feedable_feed_chs, chan_at_feed_chs.
  change (feeds j (CallFeed i :: calls)) with ((i =? j) || feeds j calls).
  destruct (i =? j), (feeds j calls), (feedable chs j); reflexivity.
Qed.

Lemma run_calls_spec calls w :
  initialized (g_watchdog_ctx w) = true ->
  exists w',
    for_each calls
      (fun call _ => match call with CallFeed i => z_wdt_feed i ;; ret tt end) tt w
    = Returned tt w'
    /\ frame w w' /\ events w' = events w
    /\ table w' = calls_chs (ticks_now w) calls (table w).
Proof.
  revert w. induction calls as [|[i] calls IH]; intros w Hinit.
  - exists w. split; [reflexivity|]. split; [apply frame_refl|]. split; reflexivity.
  - destruct (z_wdt_feed_spec w i Hinit) as (w1 & Heq & Hf & He & Ht).
    destruct (IH w1) as (w2 & Heq2 & Hf2 & He2 & Ht2).
    { rewrite (fr_init _ _ Hf). exact Hinit. }
    exists w2. split.
    + simpl. unfold bind at 1. unfold bind at 1. rewrite Heq. exact Heq2.
    + split; [eapply frame_trans; eauto|]. split; [congruence|].
      rewrite Ht2, Ht, (fr_ticks _ _ Hf). reflexivity.
Qed.

Lemma invoke_spec f id data w :
  initialized (g_watchdog_ctx w) = true ->
  exists w', invoke f id data w = Returned tt w'
             /\ frame w w' /\ events w' = events w ++ [EvCallback id data]
             /\ table w' = calls_chs (ticks_now w) (f id data) (table w).
Proof.
  intros Hinit.
  destruct (run_calls_spec (f id data) (emit (EvCallback id data) w) Hinit)
    as (w' & Heq & Hf & He & Ht).
  exists w'. split; [exact Heq|].
  split; [eapply frame_trans; [apply frame_emit|exact Hf]|].
  split; [exact He|exact Ht].
Qed.

Arguments invoke : simpl never.

Lemma process_sweep_spec ids w :
  initialized (g_watchdog_ctx w) = true ->
  exists w',
    process_sweep (ticks_now w) ids w
    = (if sw_exited (sweep_pure (ticks_now w) ids (table w) (events w))
       then Exited 1 w' else Returned tt w')
    /\ frame w w'
    /\ table w' = sw_chs (sweep_pure (ticks_now w) ids (table w) (events w))
    /\ events w' = sw_evs (sweep_pure (ticks_now w) ids (table w) (events w)).
Proof.
  revert w. induction ids as [|id ids IH]; intros w Hinit.
  - exists w. split; [reflexivity|]. split; [apply frame_refl|]. split; reflexivity.
  - unfold process_sweep. simpl for_each. simpl sweep_pure.
    unfold bind at 1. unfold process_channel at 1.
    unfold bind at 1. unfold chan_get at 1.
    unfold expired.
    destruct (active (slot w id) && (timeout_abs_ticks (slot w id) <=? ticks_now w)) eqn:Ex.
    + unfold bind at 1. unfold bind at 1. unfold watchdog_log at 1.
      unfold bind at 1. unfold chan_get at 1. cbn [callback].
      change (slot (emit (EvLog "ERROR" "Watchdog channel %d timeout!" [id])
                         (note (AccChannel id) w)) id)
        with (slot w id).
      change (EvLog "ERROR" "Watchdog channel %d timeout!" [id]) with (ev_timeout id).
      destruct (callback (slot w id)) as [f|] eqn:Ecb.
      * set (w3 := note (AccChannel id) (emit (ev_timeout id) (note (AccChannel id) w))).
        destruct (invoke_spec f id (user_data (slot w id)) w3 Hinit)
          as (w4 & Heq4 & Hf4 & He4 & Ht4).
        rewrite Heq4. unfold chan_set at 1.
        set (w5 := note (AccChannel id) _).
        assert (Hf5 : frame w w5).
        { eapply frame_trans; [apply (frame_note (AccChannel id))|].
          eapply frame_trans; [apply frame_emit|].
          eapply frame_trans; [apply (frame_note (AccChannel id))|].
          eapply frame_trans; [exact Hf4|].
          constructor; try reflexivity.
          eexists [_]. split; [reflexivity|]. by repeat constructor. }
        destruct (IH w5) as (w6 & Heq6 & Hf6 & Ht6 & He6).
        { rewrite (fr_init _ _ Hf5). exact Hinit. }
        rewrite (fr_ticks _ _ Hf5) in Heq6, Ht6, He6.
        assert (Ht5 : table w5
                      = chan_upd id (set_active false)
                          (calls_chs (ticks_now w) (f id (user_data (slot w id))) (table w))).
        { subst w5. cbn. rewrite Ht4. reflexivity. }
        assert (He5 : events w5
                      = events w ++ [ev_timeout id; EvCallback id (user_data (slot w id))]).
        { subst w5. cbn. rewrite He4. subst w3. cbn.
          rewrite <- app_assoc. reflexivity. }
        rewrite Ht5, He5 in Heq6, Ht6, He6.
        exists w6. split; [exact Heq6|].
        split; [eapply frame_trans; eauto|]. split; assumption.
      * eexists. split; [reflexivity|]. cbn.
        split; [|split; [reflexivity|]].
        -- eapply frame_trans; [apply (frame_note (AccChannel id))|].
           eapply frame_trans; [apply frame_emit|].
           eapply frame_trans; [apply (frame_note (AccChannel id))|].
           apply frame_emit.
        -- rewrite <- app_assoc. reflexivity.
    + set (w1 := note (AccChannel id) w).
      destruct (IH w1 Hinit) as (w2 & Heq2 & Hf2 & Ht2 & He2).
      exists w2. split; [exact Heq2|].
      split; [|split; assumption].
      eapply frame_trans; [apply (frame_note (AccChannel id))|exact Hf2].
Qed.

Lemma sweep_pure_app now xs ys chs evs :
  sweep_pure now (xs ++ ys) chs evs
  = if sw_exited (sweep_pure now xs chs evs)
    then sweep_pure now xs chs evs
    else sweep_pure now ys (sw_chs (sweep_pure now xs chs evs))
                           (sw_evs (sweep_pure now xs chs evs)).
Proof.
  revert chs evs. induction xs as [|x xs IH]; intros chs evs; simpl; [reflexivity|].
  destruct (expired now (chan_at chs x)); [|apply IH].
  destruct (callback (chan_at chs x)); [apply IH|reflexivity].
Qed.

Lemma z_wdt_process_off w :
  initialized (g_watchdog_ctx w) = false -> z_wdt_process w = Returned tt w.
Proof.
  intros H. unfold z_wdt_process, bind, get_initialized. rewrite H. reflexivity.
Qed.

Lemma z_wdt_process_suspended w :
  initialized (g_watchdog_ctx w) = true ->
  timer_running (g_watchdog_ctx w) = false ->
  z_wdt_process w = Returned tt (note AccTimerRunning w).
Proof.
  intros Hi Hr. unfold z_wdt_process, bind, get_initialized, get_timer_running.
  rewrite Hi. cbn. rewrite Hr. reflexivity.
Qed.

Lemma z_wdt_process_spec w :
  initialized (g_watchdog_ctx w) = true ->
  timer_running (g_watchdog_ctx w) = true ->
  exists w',
    z_wdt_process w
    = (if sw_exited (sweep_pure (ticks_now w) channel_ids (table w) (events w))
       then Exited 1 w' else Returned tt w')
    /\ frame w w'
    /\ table w' = sw_chs (sweep_pure (ticks_now w) channel_ids (table w) (events w))
    /\ events w' = sw_evs (sweep_pure (ticks_now w) channel_ids (table w) (events w)).
Proof.
  intros Hi Hr.
  unfold z_wdt_process, bind, get_initialized, get_timer_running, watchdog_get_ticks.
  rewrite Hi. cbn. rewrite Hr. cbn.
  destruct (process_sweep_spec channel_ids (note AccTimerRunning w) Hi)
    as (w1 & Heq & Hf & Ht & He).
  cbn in Heq, Ht, He. rewrite Heq.
  destruct (sw_exited _).
  - exists w1. split; [reflexivity|].
    split; [eapply frame_trans; [apply (frame_note AccTimerRunning)|exact Hf]|].
    split; assumption.
  - destruct (watchdog_schedule_next_timeout_quiet w1) as (w2 & Heq2 & Hf2 & Ht2 & He2).
    exists w2. rewrite Heq2. split; [reflexivity|].
    split; [|split; congruence].
    eapply frame_trans; [apply (frame_note AccTimerRunning)|].
    eapply frame_trans; eauto.
Qed.

(** ** Invariants of the sweep *)

Lemma fired_app k xs ys : fired k (xs ++ ys) = fired k xs ++ fired k ys.
Proof.
  induction xs as [|[l f a|i d] xs IH]; simpl; [reflexivity|exact IH|].
  destruct (i =? k); simpl; rewrite IH; reflexivity.
Qed.

(** Once a slot is inactive, no sweep fires it or touches it. *)
Lemma sweep_pure_inactive now k ids : forall chs evs,
  active (chan_at chs k) = false ->
  chan_at (sw_chs (sweep_pure now ids chs evs)) k = chan_at chs k
  /\ fired k (sw_evs (sweep_pure now ids chs evs)) = fired k evs.
Proof.
  induction ids as [|id ids IH]; intros chs evs Hk; simpl; [split; reflexivity|].
  destruct (expired now (chan_at chs id)) eqn:Ex; [|apply IH; exact Hk].
  assert (Hne : id <> k).
  { intros ->. unfold expired in Ex. rewrite Hk in Ex. discriminate. }
  destruct (callback (chan_at chs id)) as [f|]; simpl.
  - set (chs' := chan_upd id _ _).
    assert (Hk' : chan_at chs' k = chan_at chs k).
    { subst chs'. rewrite chan_at_upd_ne by exact Hne.
      rewrite chan_at_calls_chs. unfold feedable. rewrite Hk.
      rewrite !andb_false_r. reflexivity. }
    destruct (IH chs' (evs ++ [ev_timeout id; EvCallback id (user_data (chan_at chs id))]))
      as [H1 H2]; [congruence|].
    split; [congruence|].
    rewrite H2, fired_app. simpl.
    replace (id =? k) with false by lia. apply app_nil_r.
  - split; [reflexivity|]. rewrite fired_app. simpl. apply app_nil_r.
Qed.

(** What one firing does to any slot: nothing, or it leaves it unexpired. *)
Lemma fire_settles now id calls chs j :
  rearm_ok now chs ->
  let chs' := chan_upd id (set_active false) (calls_chs now calls chs) in
  chan_at chs' j = chan_at chs j
  \/ (expired now (chan_at chs' j) = false
      /\ reload_period (chan_at chs' j) = reload_period (chan_at chs j)
      /\ (active (chan_at chs' j) = true -> active (chan_at chs j) = true)).
Proof.
  intros Hok chs'.
  assert (Hcalls :
    chan_at (calls_chs now calls chs) j = chan_at chs j
    \/ (expired now (chan_at (calls_chs now calls chs) j) = false
        /\ reload_period (chan_at (calls_chs now calls chs) j) = reload_period (chan_at chs j)
        /\ (active (chan_at (calls_chs now calls chs) j) = true
            -> active (chan_at chs j) = true))).
  { rewrite chan_at_calls_chs.
    destruct (feeds j calls && feedable chs j) eqn:E; [right|left; reflexivity].
    apply andb_prop in E as [_ E]. unfold feedable in E. apply andb_prop in E as [_ E].
    specialize (Hok j E). unfold expired. simpl.
    split; [|split; [reflexivity|intros _; exact E]].
    rewrite E. simpl. lia. }
  destruct (decide (id = j)) as [->|Hne].
  - destruct (decide (0 <= j /\ (Z.to_nat j < length (calls_chs now calls chs))%nat))
      as [[H0 Hlen]|Hout].
    + right. subst chs'. rewrite chan_at_upd_eq by assumption.
      unfold expired. simpl. split; [reflexivity|].
      split; [|discriminate].
      destruct Hcalls as [->|(_ & -> & _)]; reflexivity.
    + assert (Hsame : chan_at chs' j = chan_at (calls_chs now calls chs) j).
      { subst chs'. unfold chan_upd. destruct (j <? 0) eqn:Ej; [reflexivity|].
        rewrite list_insert_ge; [reflexivity|]. lia. }
      rewrite Hsame. exact Hcalls.
  - subst chs'. rewrite chan_at_upd_ne by exact Hne. exact Hcalls.
Qed.

Lemma fire_rearm_ok now id calls chs :
  rearm_ok now chs ->
  rearm_ok now (chan_upd id (set_active false) (calls_chs now calls chs)).
Proof.
  intros Hok j Hact.
  destruct (fire_settles now id calls chs j Hok) as [E|(_ & Ep & Ea)].
  - rewrite E in *. apply Hok. exact Hact.
  - rewrite Ep. apply Hok. apply Ea. exact Hact.
Qed.

(** A live slot [k] that no firing callback feeds, and that is not itself
    due, comes out of a sweep as it went in. *)
Lemma sweep_pure_live now k ids : forall chs evs,
  rearm_ok now chs ->
  (k ∈ ids -> expired now (chan_at chs k) = false) ->
  (forall j g, j ∈ ids -> expired now (chan_at chs j) = true ->
               callback (chan_at chs j) = Some g ->
               feeds k (g j (user_data (chan_at chs j))) = false) ->
  chan_at (sw_chs (sweep_pure now ids chs evs)) k = chan_at chs k
  /\ fired k (sw_evs (sweep_pure now ids chs evs)) = fired k evs
  /\ rearm_ok now (sw_chs (sweep_pure now ids chs evs)).
Proof.
  induction ids as [|id ids IH]; intros chs evs Hok Hk Hcb; simpl.
  { split; [reflexivity|]. split; [reflexivity|exact Hok]. }
  destruct (expired now (chan_at chs id)) eqn:Ex.
  - assert (Hne : id <> k).
    { intros ->. rewrite Hk in Ex; [discriminate|]. apply elem_of_cons. by left. }
    destruct (callback (chan_at chs id)) as [f|] eqn:Ecb; simpl.
    + set (chs' := chan_upd id _ _).
      assert (Hk' : chan_at chs' k = chan_at chs k).
      { subst chs'. rewrite chan_at_upd_ne by exact Hne.
        rewrite chan_at_calls_chs.
        rewrite (Hcb id f); [reflexivity| |exact Ex|exact Ecb].
        apply elem_of_cons. by left. }
      destruct (IH chs' (evs ++ [ev_timeout id; EvCallback id (user_data (chan_at chs id))]))
        as (H1 & H2 & H3).
      * apply fire_rearm_ok. exact Hok.
      * intros Hin. rewrite Hk'. apply Hk. apply elem_of_cons. by right.
      * intros j g Hin Hexp Hg.
        destruct (fire_settles now id (f id (user_data (chan_at chs id))) chs j Hok)
          as [E|(E & _)].
        -- fold chs' in E. rewrite E in Hexp, Hg |- *.
           apply Hcb; [apply elem_of_cons; by right|exact Hexp|exact Hg].
        -- fold chs' in E. congruence.
      * split; [congruence|]. split; [|exact H3].
        rewrite H2, fired_app. simpl.
        replace (id =? k) with false by lia. apply app_nil_r.
    + split; [reflexivity|]. split; [|exact Hok].
      rewrite fired_app. simpl. apply app_nil_r.
  - apply IH; [exact Hok| |].
    + intros Hin. apply Hk. apply elem_of_cons. by right.
    + intros j g Hin. apply Hcb. apply elem_of_cons. by right.
Qed.

(** A sweep in which every due slot has a callback runs to its end. *)
Lemma sweep_pure_no_exit now ids : forall chs evs,
  rearm_ok now chs ->
  (forall j, j ∈ ids -> expired now (chan_at chs j) = true ->
             callback (chan_at chs j) <> None) ->
  sw_exited (sweep_pure now ids chs evs) = false.
Proof.
  induction ids as [|id ids IH]; intros chs evs Hok Hcb; simpl; [reflexivity|].
  destruct (expired now (chan_at chs id)) eqn:Ex.
  - destruct (callback (chan_at chs id)) as [f|] eqn:Ecb.
    + apply IH; [apply fire_rearm_ok; exact Hok|].
      intros j Hin Hexp.
      destruct (fire_settles now id (f id (user_data (chan_at chs id))) chs j Hok)
        as [E|(E & _)]; [|congruence].
      rewrite E in Hexp |- *. apply Hcb; [apply elem_of_cons; by right|exact Hexp].
    + exfalso. apply (Hcb id); [apply elem_of_cons; by left|exact Ex|exact Ecb].
  - apply IH; [exact Hok|]. intros j Hin. apply Hcb. apply elem_of_cons. by right.
Qed.

Lemma channel_ids_split k :
  0 <= k < WATCHDOG_MAX_CHANNELS ->
  channel_ids = seqZ 0 k ++ k :: seqZ (k + 1) (WATCHDOG_MAX_CHANNELS - k - 1).
Proof.
  intros Hk. unfold channel_ids.
  replace WATCHDOG_MAX_CHANNELS with (k + (WATCHDOG_MAX_CHANNELS - k)) at 1 by lia.
  rewrite seqZ_app by lia. f_equal.
  rewrite seqZ_cons by lia.
  replace (0 + k) with k by lia.
  replace (Z.succ k) with (k + 1) by lia.
  replace (Z.pred (WATCHDOG_MAX_CHANNELS - k)) with (WATCHDOG_MAX_CHANNELS - k - 1) by lia.
  reflexivity.
Qed.

(** The scan reaches a due slot [k] that has a callback: the callback runs
    once, whatever it feeds the slot is deactivated, and the rest of the
    scan leaves the slot alone. *)
Lemma sweep_pure_fires now k f chs evs :
  rearm_ok now chs ->
  0 <= k < WATCHDOG_MAX_CHANNELS ->
  expired now (chan_at chs k) = true ->
  callback (chan_at chs k) = Some f ->
  (forall j g, j ∈ seqZ 0 k -> expired now (chan_at chs j) = true ->
               callback (chan_at chs j) = Some g ->
               feeds k (g j (user_data (chan_at chs j))) = false) ->
  sw_exited (sweep_pure now (seqZ 0 k) chs evs) = false ->
  chan_at (sw_chs (sweep_pure now channel_ids chs evs)) k
  = set_active false
      (if feeds k (f k (user_data (chan_at chs k)))
       then set_timeout_abs_ticks (i64_add now (reload_period (chan_at chs k)))
                                  (chan_at chs k)
       else chan_at chs k)
  /\ fired k (sw_evs (sweep_pure now channel_ids chs evs))
     = fired k evs ++ [user_data (chan_at chs k)].
Proof.
  intros Hok Hk Hexp Hcb Hlow Hpre.
  destruct (sweep_pure_live now k (seqZ 0 k) chs evs Hok) as (Hs & Hf & Hok').
  { intros Hin. apply elem_of_seqZ in Hin. lia. }
  { exact Hlow. }
  rewrite (channel_ids_split k Hk), sweep_pure_app, Hpre.
  set (chs1 := sw_chs (sweep_pure now (seqZ 0 k) chs evs)) in *.
  set (evs1 := sw_evs (sweep_pure now (seqZ 0 k) chs evs)) in *.
  simpl sweep_pure. rewrite Hs, Hexp, Hcb.
  set (chs2 := chan_upd k (set_active false) _).
  assert (Hact : active (chan_at chs1 k) = true).
  { rewrite Hs. unfold expired in Hexp. apply andb_prop in Hexp as [? _]. assumption. }
  assert (H2 : chan_at chs2 k
               = set_active false
                   (if feeds k (f k (user_data (chan_at chs k)))
                    then set_timeout_abs_ticks
                           (i64_add now (reload_period (chan_at chs k))) (chan_at chs k)
                    else chan_at chs k)).
  { subst chs2. destruct (chan_at_active_range _ _ Hact) as [H0 Hlen].
    rewrite chan_at_upd_eq; [|exact H0|rewrite length_calls_chs; exact Hlen].
    rewrite chan_at_calls_chs. unfold feedable. rewrite Hact, Hs.
    replace (0 <=? k) with true by lia.
    replace (k <? WATCHDOG_MAX_CHANNELS) with true by lia.
    rewrite andb_true_r. reflexivity. }
  destruct (sweep_pure_inactive now k (seqZ (k + 1) (WATCHDOG_MAX_CHANNELS - k - 1)) chs2
              (evs1 ++ [ev_timeout k; EvCallback k (user_data (chan_at chs k))]))
    as [H3 H4].
  { rewrite H2. reflexivity. }
  split; [congruence|].
  rewrite H4, fired_app, Hf. simpl. rewrite Z.eqb_refl. reflexivity.
Qed.

(** The scan reaches a due slot [k] that has no callback: it stops there. *)
Lemma sweep_pure_fatal now k chs evs :
  rearm_ok now chs ->
  0 <= k < WATCHDOG_MAX_CHANNELS ->
  expired now (chan_at chs k) = true ->
  callback (chan_at chs k) = None ->
  (forall j g, j ∈ seqZ 0 k -> expired now (chan_at chs j) = true ->
               callback (chan_at chs j) = Some g ->
               feeds k (g j (user_data (chan_at chs j))) = false) ->
  sw_exited (sweep_pure now (seqZ 0 k) chs evs) = false ->
  sw_exited (sweep_pure now channel_ids chs evs) = true
  /\ sw_chs (sweep_pure now channel_ids chs evs)
     = sw_chs (sweep_pure now (seqZ 0 k) chs evs)
  /\ sw_evs (sweep_pure now channel_ids chs evs)
     = sw_evs (sweep_pure now (seqZ 0 k) chs evs) ++ [ev_timeout k; ev_fatal k]
  /\ chan_at (sw_chs (sweep_pure now channel_ids chs evs)) k = chan_at chs k
  /\ fired k (sw_evs (sweep_pure now channel_ids chs evs)) = fired k evs.
Proof.
  intros Hok Hk Hexp Hcb Hlow Hpre.
  destruct (sweep_pure_live now k (seqZ 0 k) chs evs Hok) as (Hs & Hf & Hok').
  { intros Hin. apply elem_of_seqZ in Hin. lia. }
  { exact Hlow. }
  rewrite (channel_ids_split k Hk), sweep_pure_app, Hpre.
  simpl sweep_pure. rewrite Hs, Hexp, Hcb. simpl.
  split; [reflexivity|]. split; [reflexivity|]. split; [reflexivity|].
  split; [exact Hs|].
  rewrite fired_app, Hf. simpl. apply app_nil_r.
Qed.

Lemma chan_at_active_In chs j :
  active (chan_at chs j) = true -> In (chan_at chs j) chs.
Proof.
  unfold chan_at. destruct (j <? 0); [discriminate|].
  destruct (chs !! Z.to_nat j) eqn:L; [|discriminate].
  intros _. apply list_elem_of_In. eapply list_elem_of_lookup_2. exact L.
Qed.

Lemma wf_world_length w :
  wf_world w = true -> length (table w) = Z.to_nat WATCHDOG_MAX_CHANNELS.
Proof.
  unfold wf_world. intros H.
  apply andb_prop in H as [H _]. apply andb_prop in H as [H _].
  apply Nat.eqb_eq. exact H.
Qed.

Lemma wf_world_period w j :
  wf_world w = true -> active (slot w j) = true ->
  0 < reload_period (slot w j) <= UINT32_MAX.
Proof.
  unfold wf_world. intros H Hact.
  apply andb_prop in H as [_ H].
  pose proof (proj1 (forallb_forall _ _) H _ (chan_at_active_In _ _ Hact)) as Hp.
  unfold period_ok in Hp. rewrite Hact in Hp. simpl in Hp. lia.
Qed.

Lemma wf_world_clock w :
  wf_world w = true -> INT64_MIN <= ticks_now w <= INT64_MAX - UINT32_MAX.
Proof.
  unfold wf_world, clock_ok. intros H.
  apply andb_prop in H as [H _]. apply andb_prop in H as [_ H]. lia.
Qed.

Lemma wf_world_deadline w j :
  wf_world w = true -> active (slot w j) = true ->
  i64_add (ticks_now w) (reload_period (slot w j))
  = ticks_now w + reload_period (slot w j).
Proof.
  intros H Hact. apply i64_add_exact.
  pose proof (wf_world_period w j H Hact). pose proof (wf_world_clock w H).
  unfold INT64_MIN, INT64_MAX, UINT32_MAX in *. lia.
Qed.

Lemma wf_world_rearm_ok w : wf_world w = true -> rearm_ok (ticks_now w) (table w).
Proof.
  intros H j Hact. rewrite (wf_world_deadline w j H Hact).
  pose proof (wf_world_period w j H Hact). lia.
Qed.

(** ** The registry operations *)

Lemma chan_upd_upd id f g chs :
  chan_upd id f (chan_upd id g chs) = chan_upd id (fun c => f (g c)) chs.
Proof.
  unfold chan_upd. destruct (id <? 0) eqn:E; [reflexivity|].
  destruct (decide (Z.to_nat id < length chs)%nat) as [Hlt|Hge].
  - unfold chan_at at 1. rewrite E.
    rewrite list_lookup_insert_eq by exact Hlt. simpl.
    apply list_insert_insert_eq.
  - rewrite !list_insert_ge by (rewrite ?length_insert; lia). reflexivity.
Qed.

Lemma z_wdt_delete_uninit w id :
  initialized (g_watchdog_ctx w) = false ->
  z_wdt_delete id w = Returned (-1) (emit (EvLog "ERROR" "Watchdog not initialized" []) w).
Proof.
  intros H. unfold z_wdt_delete, bind, get_initialized. rewrite H. reflexivity.
Qed.

Lemma z_wdt_delete_bad_id w id :
  initialized (g_watchdog_ctx w) = true -> in_range id = false ->
  z_wdt_delete id w = Returned (-1) (emit (EvLog "ERROR" "Invalid channel ID: %d" [id]) w).
Proof.
  intros H Hr. unfold z_wdt_delete, bind, get_initialized. rewrite H. cbn.
  replace ((id <? 0) || (id >=? WATCHDOG_MAX_CHANNELS)) with true; [reflexivity|].
  unfold in_range in Hr. lia.
Qed.

Lemma z_wdt_delete_inactive w id :
  initialized (g_watchdog_ctx w) = true -> in_range id = true ->
  watchdog_mutex w = false -> active (slot w id) = false ->
  z_wdt_delete id w
  = Returned (-1)
      (emit (EvLog "WARN" "Channel %d not active" [id])
         (with_mutex false (note (AccChannel id) (with_mutex true w)))).
Proof.
  intros H Hr Hm Ha.
  unfold z_wdt_delete, bind, get_initialized, watchdog_mutex_lock, chan_get.
  rewrite H. cbn.
  replace ((id <? 0) || (id >=? WATCHDOG_MAX_CHANNELS)) with false
    by (unfold in_range in Hr; lia).
  rewrite Hm. cbn. rewrite Ha. reflexivity.
Qed.

Lemma z_wdt_delete_active w id :
  initialized (g_watchdog_ctx w) = true -> in_range id = true ->
  watchdog_mutex w = false -> active (slot w id) = true ->
  exists w', z_wdt_delete id w = Returned 0 w'
    /\ table w' = chan_upd id deleted (table w)
    /\ events w' = events w ++ [EvLog "INFO" "Deleted watchdog channel %d" [id]]
    /\ initialized (g_watchdog_ctx w') = true
    /\ timer_running (g_watchdog_ctx w') = timer_running (g_watchdog_ctx w)
    /\ watchdog_mutex w' = false
    /\ ticks_now w' = ticks_now w
    /\ stamped true w w'.
Proof.
  intros H Hr Hm Ha.
  unfold z_wdt_delete, bind, get_initialized, watchdog_mutex_lock, chan_get, chan_set.
  rewrite H. cbn.
  replace ((id <? 0) || (id >=? WATCHDOG_MAX_CHANNELS)) with false
    by (unfold in_range in Hr; lia).
  rewrite Hm. cbn. rewrite Ha.
  match goal with
  | |- context [watchdog_schedule_next_timeout ?x] => set (w2 := x)
  end.
  destruct (watchdog_schedule_next_timeout_quiet w2) as (w3 & Heq & Hf & Ht & He).
  destruct (fr_acc _ _ Hf) as (acc & Hacc & Htag).
  rewrite Heq. eexists. split; [reflexivity|]. cbn.
  rewrite Ht, He, (fr_init _ _ Hf), (fr_run _ _ Hf), (fr_ticks _ _ Hf).
  subst w2. cbn in *. rewrite !chan_upd_upd.
  repeat split; try reflexivity; [exact H|].
  unfold stamped. cbn. rewrite Hacc.
  eexists. rewrite <- !app_assoc. split; [reflexivity|].
  repeat (apply Forall_cons; split; [reflexivity|]). exact Htag.
Qed.

Lemma chan_at_deleted chs id j :
  active (chan_at chs id) = true ->
  chan_at (chan_upd id deleted chs) j
  = if j =? id then mk_channel 0 (timeout_abs_ticks (chan_at chs id)) 0 None false
    else chan_at chs j.
Proof.
  intros Ha. destruct (chan_at_active_range _ _ Ha) as [H0 Hlen].
  destruct (j =? id) eqn:E.
  - assert (j = id) by lia. subst j. rewrite chan_at_upd_eq by assumption. reflexivity.
  - apply chan_at_upd_ne. lia.
Qed.

(** ** Suspend and resume *)

Lemma z_wdt_suspend_uninit w :
  initialized (g_watchdog_ctx w) = false -> z_wdt_suspend w = Returned tt w.
Proof.
  intros H. unfold z_wdt_suspend, bind, get_initialized. rewrite H. reflexivity.
Qed.

Lemma z_wdt_suspend_init w :
  initialized (g_watchdog_ctx w) = true -> watchdog_mutex w = false ->
  z_wdt_suspend w
  = Returned tt
      (emit (EvLog "INFO" "Watchdog suspended" [])
         (with_mutex false
            (note AccTimerRunning
               (with_ctx (set_timer_running false) (with_mutex true w))))).
Proof.
  intros H Hm. unfold z_wdt_suspend, bind, get_initialized, watchdog_mutex_lock.
  rewrite H. cbn. rewrite Hm. reflexivity.
Qed.

Lemma z_wdt_resume_uninit w :
  initialized (g_watchdog_ctx w) = false -> z_wdt_resume w = Returned tt w.
Proof.
  intros H. unfold z_wdt_resume, bind, get_initialized. rewrite H. reflexivity.
Qed.

(** The loop of [z_wdt_resume] feeds every slot of its range. *)
Lemma resume_loop_spec now ids w :
  (forall j, j ∈ ids -> in_range j = true) ->
  exists w',
    for_each ids
      (fun id _ =>
         ch <- chan_get id ;;
         if active ch then
           ch <- chan_get id ;;
           chan_set id
             (set_timeout_abs_ticks (i64_add now (watchdog_ms_to_ticks (reload_period ch))))
         else ret tt) tt w
    = Returned tt w'
    /\ frame w w' /\ events w' = events w
    /\ table w' = calls_chs now (CallFeed <$> ids) (table w).
Proof.
  revert w. induction ids as [|id ids IH]; intros w Hids.
  - exists w. split; [reflexivity|]. split; [apply frame_refl|]. split; reflexivity.
  - assert (Hid : in_range id = true) by (apply Hids, elem_of_cons; by left).
    assert (Hrest : forall j, j ∈ ids -> in_range j = true)
      by (intros j Hj; apply Hids, elem_of_cons; by right).
    simpl for_each. unfold bind at 1. unfold bind at 1. unfold chan_get at 1.
    change (CallFeed <$> id :: ids) with (CallFeed id :: (CallFeed <$> ids)).
    change (calls_chs now (CallFeed id :: (CallFeed <$> ids)) (table w))
      with (calls_chs now (CallFeed <$> ids) (feed_chs now id (table w))).
    unfold feed_chs, feedable. fold (in_range id). rewrite Hid. simpl andb.
    destruct (active (slot w id)) eqn:Ea.
    + unfold bind at 1. unfold chan_get at 1. unfold chan_set at 1.
      set (w1 := note (AccChannel id) _).
      destruct (IH w1 Hrest) as (w2 & Heq & Hf & He & Ht).
      exists w2. split; [exact Heq|].
      split; [|split; [rewrite He; reflexivity|rewrite Ht; reflexivity]].
      eapply frame_trans; [|exact Hf]. subst w1.
      eapply frame_trans; [apply (frame_note (AccChannel id))|].
      eapply frame_trans; [apply (frame_note (AccChannel id))|].
      constructor; try reflexivity.
      eexists [_]. split; [reflexivity|]. by repeat constructor.
    + destruct (IH (note (AccChannel id) w) Hrest) as (w2 & Heq & Hf & He & Ht).
      exists w2. split; [exact Heq|].
      split; [|split; assumption].
      eapply frame_trans; [apply (frame_note (AccChannel id))|exact Hf].
Qed.

Lemma feeds_channel_ids j : feeds j (CallFeed <$> channel_ids) = in_range j.
Proof.
  unfold feeds, in_range. apply eq_true_iff_eq. rewrite existsb_exists. split.
  - intros (c & Hin & Hc). apply list_elem_of_In, list_elem_of_fmap in Hin as (i & -> & Hi).
    apply elem_of_seqZ in Hi. lia.
  - intros Hr. exists (CallFeed j). split; [|lia].
    apply list_elem_of_In, list_elem_of_fmap. exists j. split; [reflexivity|].
    apply elem_of_seqZ. lia.
Qed.

Lemma z_wdt_resume_init w :
  initialized (g_watchdog_ctx w) = true -> watchdog_mutex w = false ->
  exists w', z_wdt_resume w = Returned tt w'
    /\ table w' = calls_chs (ticks_now w) (CallFeed <$> channel_ids) (table w)
    /\ events w' = events w ++ [EvLog "INFO" "Watchdog resumed" []]
    /\ initialized (g_watchdog_ctx w') = true
    /\ timer_running (g_watchdog_ctx w') = true
    /\ watchdog_mutex w' = false
    /\ ticks_now w' = ticks_now w.
Proof.
  intros H Hm.
  unfold z_wdt_resume. unfold bind at 1. unfold get_initialized. rewrite H. cbn [negb].
  unfold bind at 1. unfold watchdog_mutex_lock. rewrite Hm.
  unfold bind at 1. unfold watchdog_get_ticks at 1.
  destruct (resume_loop_spec (ticks_now w) channel_ids (with_mutex true w))
    as (w1 & Heq & Hf & He & Ht).
  { intros j Hj. apply elem_of_seqZ in Hj. unfold in_range. lia. }
  unfold bind at 1. cbn [ticks_now with_mutex]. rewrite Heq.
  unfold bind at 1. unfold put_timer_running at 1.
  unfold bind at 1.
  set (w2 := note AccTimerRunning _).
  destruct (watchdog_schedule_next_timeout_quiet w2) as (w3 & Heq3 & Hf3 & Ht3 & He3).
  rewrite Heq3. eexists. split; [reflexivity|]. cbn.
  rewrite Ht3, He3, (fr_init _ _ Hf3), (fr_run _ _ Hf3), (fr_ticks _ _ Hf3).
  subst w2. cbn. rewrite Ht, He, (fr_init _ _ Hf), (fr_ticks _ _ Hf). cbn.
  repeat split; try reflexivity. exact H.
Qed.

(** ** Adding a channel *)

Lemma z_wdt_add_uninit w period cb data :
  initialized (g_watchdog_ctx w) = false ->
  z_wdt_add period cb data w
  = Returned (-1) (emit (EvLog "ERROR" "Watchdog not initialized" []) w).
Proof.
  intros H. unfold z_wdt_add, bind, get_initialized. rewrite H. reflexivity.
Qed.

Lemma z_wdt_add_zero_period w cb data :
  initialized (g_watchdog_ctx w) = true ->
  z_wdt_add 0 cb data w
  = Returned (-1) (emit (EvLog "ERROR" "Invalid reload period: 0" []) w).
Proof.
  intros H. unfold z_wdt_add, bind, get_initialized. rewrite H. reflexivity.
Qed.

(** Slots in use are passed over; the scan only reads them. *)
Lemma add_scan_skip period cb data pre rest : forall w,
  (forall j, j ∈ pre -> active (slot w j) = true) ->
  exists w',
    for_return (pre ++ rest) (add_at period cb data) w
    = for_return rest (add_at period cb data) w'
    /\ frame w w' /\ g_watchdog_ctx w' = g_watchdog_ctx w /\ events w' = events w.
Proof.
  induction pre as [|id pre IH]; intros w Hact.
  - exists w. split; [reflexivity|]. split; [apply frame_refl|]. split; reflexivity.
  - destruct (IH (note (AccChannel id) w)) as (w' & Heq & Hf & Hc & He).
    { intros j Hj. apply Hact, elem_of_cons. by right. }
    exists w'. split.
    + rewrite <- Heq. simpl. unfold bind at 1. unfold add_at at 1.
      unfold bind at 1. unfold chan_get at 1.
      rewrite (Hact id) by (apply elem_of_cons; by left). reflexivity.
    + split; [|split; assumption].
      eapply frame_trans; [apply (frame_note (AccChannel id))|exact Hf].
Qed.

(** A free slot is filled, fed, and its index returned. *)
Lemma add_at_free period cb data id w :
  initialized (g_watchdog_ctx w) = true ->
  active (slot w id) = false ->
  exists w',
    add_at period cb data id w = Returned (Some id) w'
    /\ table w' = feed_chs (ticks_now w) id (chan_upd id (populate period cb data) (table w))
    /\ events w'
       = events w ++ [EvLog "INFO" "Added watchdog channel %d with period %ums" [id; period]]
    /\ initialized (g_watchdog_ctx w') = true
    /\ timer_running (g_watchdog_ctx w') = timer_running (g_watchdog_ctx w)
    /\ watchdog_mutex w' = false
    /\ ticks_now w' = ticks_now w
    /\ stamped (watchdog_mutex w) w w'.
Proof.
  intros H Ha. unfold add_at. unfold bind at 1. unfold chan_get at 1. rewrite Ha.
  cbn [negb]. unfold bind at 1 2 3 4 5. unfold chan_set. unfold bind at 1.
  set (w1 := note (AccChannel id) _).
  destruct (z_wdt_feed_spec w1 id) as (w2 & Heq & Hf & He & Ht); [exact H|].
  destruct (fr_acc _ _ Hf) as (acc & Hacc & Htag).
  rewrite Heq. eexists. split; [reflexivity|]. cbn.
  rewrite Ht, He, (fr_init _ _ Hf), (fr_run _ _ Hf), (fr_ticks _ _ Hf).
  subst w1. cbn in *. rewrite !chan_upd_upd.
  repeat split; try reflexivity; [exact H|].
  unfold stamped. cbn. rewrite Hacc.
  eexists. rewrite <- !app_assoc. split; [reflexivity|].
  repeat (apply Forall_cons; split; [reflexivity|]). exact Htag.
Qed.

Lemma chan_at_added now period cb data id chs j :
  in_range id = true -> (Z.to_nat id < length chs)%nat ->
  chan_at (feed_chs now id (chan_upd id (populate period cb data) chs)) j
  = if j =? id then mk_channel period (i64_add now period) data cb true
    else chan_at chs j.
Proof.
  intros Hr Hlen. rewrite chan_at_feed_chs.
  assert (H0 : 0 <= id) by (unfold in_range in Hr; lia).
  destruct (j =? id) eqn:E.
  - assert (j = id) by lia. subst j. rewrite Z.eqb_refl.
    unfold feedable. fold (in_range id). rewrite Hr.
    rewrite chan_at_upd_eq by assumption. reflexivity.
  - replace (id =? j) with false by lia. simpl. apply chan_at_upd_ne. lia.
Qed.

(** [z_wdt_add] on a usable context, by what the scan meets. *)
Lemma z_wdt_add_full w period cb data :
  initialized (g_watchdog_ctx w) = true -> period <> 0 -> watchdog_mutex w = false ->
  (forall j, j ∈ channel_ids -> active (slot w j) = true) ->
  exists w', z_wdt_add period cb data w = Returned (-1) w'
    /\ g_watchdog_ctx w' = g_watchdog_ctx w
    /\ events w' = events w ++ [EvLog "ERROR" "No available watchdog channels" []]
    /\ watchdog_mutex w' = false
    /\ ticks_now w' = ticks_now w
    /\ stamped true w w'.
Proof.
  intros H Hp Hm Hall.
  unfold z_wdt_add. unfold bind at 1. unfold get_initialized. rewrite H. cbn [negb].
  replace (period =? 0) with false by lia.
  unfold bind at 1. unfold watchdog_mutex_lock. rewrite Hm.
  destruct (add_scan_skip period cb data channel_ids [] (with_mutex true w) Hall)
    as (w1 & Heq & Hf & Hc & He).
  rewrite app_nil_r in Heq. unfold bind at 1. rewrite Heq. simpl for_return.
  eexists. split; [reflexivity|]. cbn. rewrite Hc, He.
  repeat split; [exact (fr_ticks _ _ Hf)|exact (fr_acc _ _ Hf)].
Qed.

Lemma z_wdt_add_free w period cb data id :
  initialized (g_watchdog_ctx w) = true -> period <> 0 -> watchdog_mutex w = false ->
  in_range id = true ->
  (forall j, 0 <= j < id -> active (slot w j) = true) ->
  active (slot w id) = false ->
  exists w', z_wdt_add period cb data w = Returned id w'
    /\ table w' = feed_chs (ticks_now w) id (chan_upd id (populate period cb data) (table w))
    /\ events w'
       = events w ++ [EvLog "INFO" "Added watchdog channel %d with period %ums" [id; period]]
    /\ initialized (g_watchdog_ctx w') = true
    /\ timer_running (g_watchdog_ctx w') = timer_running (g_watchdog_ctx w)
    /\ watchdog_mutex w' = false
    /\ ticks_now w' = ticks_now w
    /\ stamped true w w'.
Proof.
  intros H Hp Hm Hr Hlow Ha.
  assert (Hid : 0 <= id < WATCHDOG_MAX_CHANNELS) by (unfold in_range in Hr; lia).
  unfold z_wdt_add. unfold bind at 1. unfold get_initialized. rewrite H. cbn [negb].
  replace (period =? 0) with false by lia.
  unfold bind at 1. unfold watchdog_mutex_lock. rewrite Hm.
  rewrite (channel_ids_split id Hid).
  destruct (add_scan_skip period cb data (seqZ 0 id)
              (id :: seqZ (id + 1) (WATCHDOG_MAX_CHANNELS - id - 1)) (with_mutex true w))
    as (w1 & Heq & Hf & Hc & He).
  { intros j Hj. apply elem_of_seqZ in Hj. apply Hlow. lia. }
  unfold bind at 1. rewrite Heq. simpl for_return. unfold bind at 1.
  destruct (add_at_free period cb data id w1)
    as (w2 & Heq2 & Ht & He2 & Hi & Hrun & Hm2 & Htk & Hst).
  { rewrite Hc. exact H. }
  { rewrite Hc. exact Ha. }
  rewrite Heq2. exists w2. split; [reflexivity|].
  rewrite Ht, He2, Hrun, Htk, Hc, He, (fr_ticks _ _ Hf). cbn.
  repeat split; try assumption.
  rewrite (fr_mutex _ _ Hf) in Hst.
  eapply stamped_trans; [exact (fr_acc _ _ Hf)|exact Hst].
Qed.

(** ** Conditions on a sweep, as checks on the world it starts from *)

Lemma spares_feeds k w j g :
  spares k w j = true -> callback (slot w j) = Some g ->
  feeds k (g j (user_data (slot w j))) = false.
Proof.
  unfold spares. intros H Hg. rewrite Hg in H.
  destruct (feeds k _); [discriminate|reflexivity].
Qed.


Lemma unfed_from_below_spec k w :
  unfed_from_below k w = true ->
  forall j g, j ∈ seqZ 0 k -> expired (ticks_now w) (slot w j) = true ->
              callback (slot w j) = Some g ->
              feeds k (g j (user_data (slot w j))) = false.
Proof.
  unfold unfed_from_below. rewrite forallb_forall.
  intros H j g Hj Hdue Hg. specialize (H j (proj1 (list_elem_of_In _ _) Hj)).
  unfold due in H. rewrite Hdue in H. simpl in H.
  eapply spares_feeds; eauto.
Qed.

Lemma due_below_ok_callbacks k w :
  due_below_ok k w = true ->
  forall j, j ∈ seqZ 0 k -> expired (ticks_now w) (slot w j) = true ->
            callback (slot w j) <> None.
Proof.
  unfold due_below_ok. rewrite forallb_forall.
  intros H j Hj Hdue Hnone. specialize (H j (proj1 (list_elem_of_In _ _) Hj)).
  unfold due in H. rewrite Hdue in H. simpl in H.
  apply andb_prop in H as [H _]. unfold has_callback in H. rewrite Hnone in H.
  discriminate.
Qed.



Lemma sweep_pure_evs_extends now ids : forall chs evs,
  exists more, sw_evs (sweep_pure now ids chs evs) = evs ++ more.
Proof.
  induction ids as [|id ids IH]; intros chs evs; simpl.
  - exists []. symmetry. apply app_nil_r.
  - destruct (expired now (chan_at chs id)); [|apply IH].
    destruct (callback (chan_at chs id)) as [f|].
    + destruct (IH (chan_upd id (set_active false)
                      (calls_chs now (f id (user_data (chan_at chs id))) chs))
                   (evs ++ [ev_timeout id; EvCallback id (user_data (chan_at chs id))]))
        as (more & ->).
      eexists. rewrite <- app_assoc. reflexivity.
    + eexists. reflexivity.
Qed.

(** The world [z_wdt_process] ends in, returned or exited, in terms of the
    sweep. *)
Lemma z_wdt_process_final w :
  initialized (g_watchdog_ctx w) = true ->
  timer_running (g_watchdog_ctx w) = true ->
  table (final_world (z_wdt_process w))
  = sw_chs (sweep_pure (ticks_now w) channel_ids (table w) (events w))
  /\ events (final_world (z_wdt_process w))
     = sw_evs (sweep_pure (ticks_now w) channel_ids (table w) (events w)).
Proof.
  intros Hi Hr. destruct (z_wdt_process_spec w Hi Hr) as (w' & Heq & _ & Ht & He).
  rewrite Heq. destruct (sw_exited _); cbn [final_world]; split; assumption.
Qed.

Lemma z_wdt_process_inactive w k :
  active (slot w k) = false ->
  slot (final_world (z_wdt_process w)) k = slot w k
  /\ fired k (events (final_world (z_wdt_process w))) = fired k (events w).
Proof.
  intros Hk.
  destruct (initialized (g_watchdog_ctx w)) eqn:Hi.
  - destruct (timer_running (g_watchdog_ctx w)) eqn:Hr.
    + destruct (z_wdt_process_final w Hi Hr) as [-> ->].
      apply sweep_pure_inactive. exact Hk.
    + rewrite (z_wdt_process_suspended w Hi Hr). split; reflexivity.
  - rewrite (z_wdt_process_off w Hi). split; reflexivity.
Qed.

Lemma expired_true now c :
  active c = true -> timeout_abs_ticks c <= now -> expired now c = true.
Proof. intros Ha Ht. unfold expired. rewrite Ha. simpl. lia. Qed.

Lemma expired_false now c : now < timeout_abs_ticks c -> expired now c = false.
Proof. intros Ht. unfold expired. destruct (active c); simpl; lia. Qed.

(** If the whole scan ran to its end, so did its part below [k]. *)
Lemma sweep_pure_prefix_no_exit now k chs evs :
  0 <= k < WATCHDOG_MAX_CHANNELS ->
  sw_exited (sweep_pure now channel_ids chs evs) = false ->
  sw_exited (sweep_pure now (seqZ 0 k) chs evs) = false.
Proof.
  intros Hk. rewrite (channel_ids_split k Hk), sweep_pure_app.
  destruct (sw_exited (sweep_pure now (seqZ 0 k) chs evs)) eqn:E; [|reflexivity].
  rewrite E. discriminate.
Qed.

Lemma sweep_pure_prefix_exit now k chs evs :
  0 <= k < WATCHDOG_MAX_CHANNELS ->
  sw_exited (sweep_pure now (seqZ 0 k) chs evs) = true ->
  sw_exited (sweep_pure now channel_ids chs evs) = true.
Proof.
  intros Hk E. rewrite (channel_ids_split k Hk), sweep_pure_app, E. exact E.
Qed.

Lemma z_wdt_process_returned w w' :
  initialized (g_watchdog_ctx w) = true ->
  timer_running (g_watchdog_ctx w) = true ->
  z_wdt_process w = Returned tt w' ->
  sw_exited (sweep_pure (ticks_now w) channel_ids (table w) (events w)) = false
  /\ table w' = sw_chs (sweep_pure (ticks_now w) channel_ids (table w) (events w))
  /\ events w' = sw_evs (sweep_pure (ticks_now w) channel_ids (table w) (events w)).
Proof.
  intros Hi Hr Hret. destruct (z_wdt_process_spec w Hi Hr) as (w1 & Heq & _ & Ht & He).
  rewrite Hret in Heq. destruct (sw_exited _); [discriminate|].
  injection Heq as <-. repeat split; assumption.
Qed.

(** The scan at a due slot without callback: it exits, whatever is left to
    scan. *)
Lemma process_sweep_fatal_step v ticks id rest :
  active (slot v id) = true ->
  timeout_abs_ticks (slot v id) <= ticks ->
  callback (slot v id) = None ->
  process_sweep ticks (id :: rest) v
  = Exited 1 (emit (ev_fatal id)
                (note (AccChannel id) (emit (ev_timeout id) (note (AccChannel id) v)))).
Proof.
  intros Ha Ht Hc. unfold process_sweep. simpl for_each.
  unfold bind at 1. unfold process_channel. unfold bind at 1. unfold chan_get at 1.
  rewrite Ha. replace (timeout_abs_ticks (slot v id) <=? ticks) with true by lia.
  cbn [andb]. unfold bind at 1. unfold bind at 1. unfold watchdog_log at 1.
  unfold bind at 1. unfold chan_get at 1.
  change (slot (emit (EvLog "ERROR" "Watchdog channel %d timeout!" [id])
                  (note (AccChannel id) v)) id) with (slot v id).
  rewrite Hc. reflexivity.
Qed.


(** Closing goals about a sample run: by running it. *)
Ltac run := vm_compute; reflexivity.
Ltac run_le := vm_compute; discriminate.
Ltac in_table := unfold WATCHDOG_MAX_CHANNELS; lia.

(** Either every slot below [n] is in use, or there is a lowest free one. *)
Lemma lowest_free chs n :
  0 <= n ->
  (forall j, 0 <= j < n -> active (chan_at chs j) = true)
  \/ (exists id, 0 <= id < n /\ active (chan_at chs id) = false
                 /\ forall j, 0 <= j < id -> active (chan_at chs j) = true).
Proof.
  intros Hn. pattern n. apply natlike_ind; [| |exact Hn].
  - left. intros j Hj. lia.
  - intros m Hm [Hall|(id & Hid & Hfree & Hlow)].
    + destruct (active (chan_at chs m)) eqn:E.
      * left. intros j Hj. destruct (decide (j = m)) as [->|Hne]; [exact E|].
        apply Hall. lia.
      * right. exists m. split; [lia|]. split; [exact E|exact Hall].
    + right. exists id. split; [lia|]. split; assumption.
Qed.

Lemma z_wdt_feed_result w id :
  exists r w', z_wdt_feed id w = Returned r w'
    /\ (r = -1 <-> (initialized (g_watchdog_ctx w) = false \/ id < 0
                    \/ id >= WATCHDOG_MAX_CHANNELS \/ active (slot w id) = false))
    /\ (r = -1 \/ r = 0).
Proof.
  destruct (initialized (g_watchdog_ctx w)) eqn:Hi.
  - destruct (z_wdt_feed_spec w id Hi) as (w' & Heq & _).
    eexists _, w'. split; [exact Heq|].
    unfold feedable.
    destruct (0 <=? id) eqn:E0; simpl.
    + destruct (id <? WATCHDOG_MAX_CHANNELS) eqn:E1; simpl.
      * destruct (active (slot w id)).
        -- split; [|right; reflexivity].
           split; [discriminate|]. intros [?|[?|[?|?]]]; (discriminate || lia).
        -- split; [|left; reflexivity]. split; auto.
      * split; [|left; reflexivity]. split; [|reflexivity].
        intros _. right. right. left. lia.
    + split; [|left; reflexivity]. split; [|reflexivity].
      intros _. right. left. lia.
  - exists (-1), w. split; [apply z_wdt_feed_uninit; exact Hi|].
    split; [|left; reflexivity]. split; auto.
Qed.

Lemma z_wdt_delete_result w id :
  watchdog_mutex w = false ->
  exists r w', z_wdt_delete id w = Returned r w'
    /\ (r = -1 <-> (initialized (g_watchdog_ctx w) = false \/ id < 0
                    \/ id >= WATCHDOG_MAX_CHANNELS \/ active (slot w id) = false))
    /\ (r = -1 \/ r = 0)
    /\ (r = 0 -> initialized (g_watchdog_ctx w') = true /\ watchdog_mutex w' = false
                 /\ 0 <= id < WATCHDOG_MAX_CHANNELS /\ active (slot w' id) = false).
Proof.
  intros Hm.
  destruct (initialized (g_watchdog_ctx w)) eqn:Hi.
  - destruct (in_range id) eqn:Hr.
    + assert (Hid : 0 <= id < WATCHDOG_MAX_CHANNELS) by (unfold in_range in Hr; lia).
      destruct (active (slot w id)) eqn:Ha.
      * destruct (z_wdt_delete_active w id Hi Hr Hm Ha)
          as (w' & Heq & Ht & _ & Hi' & _ & Hm' & _).
        exists 0, w'. split; [exact Heq|]. split; [|split; [right; reflexivity|]].
        -- split; [discriminate|]. intros [?|[?|[?|?]]]; (discriminate || lia).
        -- intros _. repeat split; try assumption; try lia.
           rewrite Ht, chan_at_deleted, Z.eqb_refl by exact Ha. reflexivity.
      * eexists (-1), _. split; [apply z_wdt_delete_inactive; assumption|].
        split; [split; auto|]. split; [left; reflexivity|discriminate].
    + eexists (-1), _. split; [apply z_wdt_delete_bad_id; assumption|].
      split; [|split; [left; reflexivity|discriminate]].
      split; [|reflexivity]. intros _. unfold in_range in Hr. lia.
  - eexists (-1), _. split; [apply z_wdt_delete_uninit; exact Hi|].
    split; [split; auto|]. split; [left; reflexivity|discriminate].
Qed.

Lemma z_wdt_add_result w period cb data :
  watchdog_mutex w = false ->
  exists r w', z_wdt_add period cb data w = Returned r w'
    /\ (r = -1 <-> (initialized (g_watchdog_ctx w) = false \/ period = 0
                    \/ forall j, 0 <= j < WATCHDOG_MAX_CHANNELS -> active (slot w j) = true))
    /\ (r = -1 \/ 0 <= r < WATCHDOG_MAX_CHANNELS)
    /\ (r = -1 ->
        exists msg, events w' = events w ++ [EvLog "ERROR" msg []]
          /\ msg = (if negb (initialized (g_watchdog_ctx w)) then "Watchdog not initialized"
                    else if period =? 0 then "Invalid reload period: 0"
                    else "No available watchdog channels")).
Proof.
  intros Hm.
  destruct (initialized (g_watchdog_ctx w)) eqn:Hi.
  - destruct (decide (period = 0)) as [->|Hp].
    + eexists (-1), _. split; [apply z_wdt_add_zero_period; exact Hi|].
      split; [split; auto|]. split; [left; reflexivity|].
      intros _. eexists. split; reflexivity.
    + destruct (lowest_free (table w) WATCHDOG_MAX_CHANNELS)
        as [Hall|(id & Hid & Hf & Hlow)]; [unfold WATCHDOG_MAX_CHANNELS; lia| |].
      * destruct (z_wdt_add_full w period cb data Hi Hp Hm) as (w' & Heq & _ & He & _).
        { intros j Hj. apply elem_of_seqZ in Hj. apply Hall. lia. }
        exists (-1), w'. split; [exact Heq|].
        split; [split; auto|]. split; [left; reflexivity|].
        intros _. eexists. split; [exact He|].
        simpl. replace (period =? 0) with false by lia. reflexivity.
      * assert (Hr : in_range id = true) by (unfold in_range; lia).
        destruct (z_wdt_add_free w period cb data id Hi Hp Hm Hr Hlow Hf) as (w' & Heq & _).
        exists id, w'. split; [exact Heq|].
        split; [|split; [right; exact Hid|intros ->; lia]].
        split; [intros ->; lia|].
        intros [?|[?|Hall]]; [discriminate|contradiction|].
        rewrite (Hall id Hid) in Hf. discriminate.
  - eexists (-1), _. split; [apply z_wdt_add_uninit; exact Hi|].
    split; [split; auto|]. split; [left; reflexivity|].
    intros _. eexists. split; reflexivity.
Qed.

(** ** Initialization *)

Lemma note_all_fields l w :
  g_watchdog_ctx (note_all l w) = g_watchdog_ctx w
  /\ thread_create_ok (note_all l w) = thread_create_ok w
  /\ events (note_all l w) = events w
  /\ ticks_now (note_all l w) = ticks_now w.
Proof.
  revert w. induction l as [|a l IH]; intros w; [repeat split|].
  destruct (IH (note a w)) as (H1 & H2 & H3 & H4).
  change (note_all (a :: l) w) with (note_all l (note a w)).
  rewrite H1, H2, H3, H4. repeat split.
Qed.

Arguments note_all : simpl never.

Lemma z_wdt_init_again w :
  initialized (g_watchdog_ctx w) = true ->
  z_wdt_init w = Returned 0 (emit (EvLog "WARN" "Watchdog already initialized" []) w).
Proof.
  intros Hi. unfold z_wdt_init, bind, get_initialized. rewrite Hi. reflexivity.
Qed.

(** Peeling one step off a sequence. *)
Ltac step := erewrite bind_returned; [|reflexivity]; cbv beta.

Lemma watchdog_os_init_fails v :
  thread_create_ok v = false ->
  watchdog_os_init v
  = Returned (-1) (emit (EvLog "ERROR" "Failed to create timer thread" [])
                        (with_timer_thread true v)).
Proof.
  intros H. unfold watchdog_os_init, bind, watchdog_log, ret. cbn. rewrite H. reflexivity.
Qed.

Lemma thread_create_ok_note a w : thread_create_ok (note a w) = thread_create_ok w.
Proof. reflexivity. Qed.
Lemma thread_create_ok_with_ctx f w : thread_create_ok (with_ctx f w) = thread_create_ok w.
Proof. reflexivity. Qed.
Lemma ctx_note a w : g_watchdog_ctx (note a w) = g_watchdog_ctx w.
Proof. reflexivity. Qed.
Lemma ctx_emit e w : g_watchdog_ctx (emit e w) = g_watchdog_ctx w.
Proof. reflexivity. Qed.
Lemma ctx_with_timer_thread b w : g_watchdog_ctx (with_timer_thread b w) = g_watchdog_ctx w.
Proof. reflexivity. Qed.
Lemma ctx_with_ctx f w : g_watchdog_ctx (with_ctx f w) = f (g_watchdog_ctx w).
Proof. reflexivity. Qed.
Lemma ticks_note a w : ticks_now (note a w) = ticks_now w.
Proof. reflexivity. Qed.
Lemma ticks_emit e w : ticks_now (emit e w) = ticks_now w.
Proof. reflexivity. Qed.
Lemma ticks_with_timer_thread b w : ticks_now (with_timer_thread b w) = ticks_now w.
Proof. reflexivity. Qed.
Lemma ticks_with_ctx f w : ticks_now (with_ctx f w) = ticks_now w.
Proof. reflexivity. Qed.

Lemma z_wdt_init_no_thread w :
  initialized (g_watchdog_ctx w) = false ->
  thread_create_ok w = false ->
  exists w', z_wdt_init w = Returned (-1) w'
    /\ g_watchdog_ctx w'
       = set_timer_running true
           (set_initialized true
              (set_next_timeout_ticks INT64_MAX
                 (set_next_timeout_channel (-1) zero_context))).
Proof.
  intros Hi Hc.
  destruct (note_all_fields (AccTimerRunning :: (AccChannel <$> channel_ids))
              (with_ctx (fun _ => zero_context) w)) as (Hctx & Hok & _).
  rewrite ctx_with_ctx in Hctx. rewrite thread_create_ok_with_ctx in Hok.
  unfold z_wdt_init. step. rewrite Hi. cbv iota.
  step. step. step. step. step.
  erewrite bind_returned;
    [|apply watchdog_os_init_fails;
      rewrite thread_create_ok_note, !thread_create_ok_with_ctx, Hok; exact Hc].
  eexists. split; [reflexivity|].
  rewrite ctx_emit, ctx_with_timer_thread, ctx_note, !ctx_with_ctx, Hctx. reflexivity.
Qed.

(** ** The mutex *)

Lemma z_wdt_delete_stamped w id :
  watchdog_mutex w = false ->
  exists r w', z_wdt_delete id w = Returned r w' /\ stamped true w w'.
Proof.
  intros Hm.
  destruct (initialized (g_watchdog_ctx w)) eqn:Hi.
  - destruct (in_range id) eqn:Hr.
    + destruct (active (slot w id)) eqn:Ha.
      * destruct (z_wdt_delete_active w id Hi Hr Hm Ha) as (w' & Heq & Hrest).
        exists 0, w'. split; [exact Heq|]. apply Hrest.
      * eexists _, _. split; [apply z_wdt_delete_inactive; assumption|].
        exists [(AccChannel id, true)]. split; [reflexivity|]. by repeat constructor.
    + eexists _, _. split; [apply z_wdt_delete_bad_id; assumption|].
      apply stamped_same. reflexivity.
  - eexists _, _. split; [apply z_wdt_delete_uninit; exact Hi|].
    apply stamped_same. reflexivity.
Qed.

Lemma z_wdt_add_stamped w period cb data :
  watchdog_mutex w = false ->
  exists r w', z_wdt_add period cb data w = Returned r w' /\ stamped true w w'.
Proof.
  intros Hm.
  destruct (initialized (g_watchdog_ctx w)) eqn:Hi.
  - destruct (decide (period = 0)) as [->|Hp].
    + eexists _, _. split; [apply z_wdt_add_zero_period; exact Hi|].
      apply stamped_same. reflexivity.
    + destruct (lowest_free (table w) WATCHDOG_MAX_CHANNELS)
        as [Hall|(id & Hid & Hf & Hlow)]; [unfold WATCHDOG_MAX_CHANNELS; lia| |].
      * destruct (z_wdt_add_full w period cb data Hi Hp Hm) as (w' & Heq & Hrest).
        { intros j Hj. apply elem_of_seqZ in Hj. apply Hall. lia. }
        exists (-1), w'. split; [exact Heq|]. apply Hrest.
      * assert (Hr : in_range id = true) by (unfold in_range; lia).
        destruct (z_wdt_add_free w period cb data id Hi Hp Hm Hr Hlow Hf)
          as (w' & Heq & Hrest).
        exists id, w'. split; [exact Heq|]. apply Hrest.
  - eexists _, _. split; [apply z_wdt_add_uninit; exact Hi|].
    apply stamped_same. reflexivity.
Qed.

Lemma timer_thread_round_stamped w :
  watchdog_mutex w = false ->
  stamped true w (final_world (timer_thread_round w)).
Proof.
  intros Hm. unfold timer_thread_round. unfold bind at 1.
  unfold watchdog_mutex_lock. rewrite Hm. unfold bind at 1.
  set (w0 := with_mutex true w).
  assert (Hst : stamped true w0 (final_world (z_wdt_process w0))).
  { destruct (initialized (g_watchdog_ctx w0)) eqn:Hi.
    - destruct (timer_running (g_watchdog_ctx w0)) eqn:Hr.
      + destruct (z_wdt_process_spec w0 Hi Hr) as (w1 & Heq & Hf & _).
        rewrite Heq. destruct (sw_exited _); exact (fr_acc _ _ Hf).
      + rewrite (z_wdt_process_suspended w0 Hi Hr).
        exists [(AccTimerRunning, true)]. split; [reflexivity|]. by repeat constructor.
    - rewrite (z_wdt_process_off w0 Hi). apply stamped_refl. }
  destruct (z_wdt_process w0) as [[] w1|s w1|w1]; exact Hst.
Qed.

(** The other paths of C9: [z_wdt_add], [z_wdt_delete] and a round of the
    timer thread make every access to the table and to [timer_running] with
    the mutex held, the [z_wdt_feed] inside [z_wdt_add] included. *)
Lemma locked_paths_hold_the_mutex (w : world) :
  watchdog_mutex w = false ->
  (forall period cb data,
     exists r w', z_wdt_add period cb data w = Returned r w' /\ stamped true w w')
  /\ (forall id, exists r w', z_wdt_delete id w = Returned r w' /\ stamped true w w')
  /\ stamped true w (final_world (timer_thread_round w)).
Proof.
  intros Hm. split; [|split].
  - intros. apply z_wdt_add_stamped. exact Hm.
  - intros. apply z_wdt_delete_stamped. exact Hm.
  - apply timer_thread_round_stamped. exact Hm.
Qed.

(** ** Error paths and the context *)

Lemma z_wdt_feed_error w id :
  initialized (g_watchdog_ctx w) = true ->
  feedable (table w) id = false ->
  z_wdt_feed id w = Returned (-1) w
  \/ z_wdt_feed id w = Returned (-1) (note (AccChannel id) w).
Proof.
  intros Hi Hf. unfold feedable in Hf.
  unfold z_wdt_feed, bind, get_initialized, chan_get, ret. rewrite Hi. cbn.
  destruct (id <? 0) eqn:Elo; [left; reflexivity|].
  destruct (id >=? WATCHDOG_MAX_CHANNELS) eqn:Ehi; [left; reflexivity|].
  replace (0 <=? id) with true in Hf by lia.
  replace (id <? WATCHDOG_MAX_CHANNELS) with true in Hf by lia.
  cbn in Hf. cbn. rewrite Hf. right. reflexivity.
Qed.

(** The error paths of the three registry operations leave the context as
    it was (the part of C8 that holds). *)
Lemma registry_errors_keep_context (w : world) :
  watchdog_mutex w = false ->
  (forall period cb data w',
     z_wdt_add period cb data w = Returned (-1) w' ->
     g_watchdog_ctx w' = g_watchdog_ctx w)
  /\ (forall id w',
        z_wdt_delete id w = Returned (-1) w' -> g_watchdog_ctx w' = g_watchdog_ctx w)
  /\ (forall id w',
        z_wdt_feed id w = Returned (-1) w' -> g_watchdog_ctx w' = g_watchdog_ctx w).
Proof.
  intros Hm. split; [|split].
  - intros period cb data w' Hret.
    destruct (initialized (g_watchdog_ctx w)) eqn:Hi.
    + destruct (decide (period = 0)) as [->|Hp].
      * rewrite (z_wdt_add_zero_period w cb data Hi) in Hret.
        injection Hret as <-. reflexivity.
      * destruct (lowest_free (table w) WATCHDOG_MAX_CHANNELS)
          as [Hall|(id & Hid & Hf & Hlow)]; [unfold WATCHDOG_MAX_CHANNELS; lia| |].
        -- destruct (z_wdt_add_full w period cb data Hi Hp Hm) as (w1 & Heq & Hc & _).
           { intros j Hj. apply elem_of_seqZ in Hj. apply Hall. lia. }
           rewrite Heq in Hret. injection Hret as <-. exact Hc.
        -- assert (Hr : in_range id = true) by (unfold in_range; lia).
           destruct (z_wdt_add_free w period cb data id Hi Hp Hm Hr Hlow Hf)
             as (w1 & Heq & _).
           rewrite Heq in Hret. injection Hret as Hid' _. lia.
    + rewrite (z_wdt_add_uninit w period cb data Hi) in Hret.
      injection Hret as <-. reflexivity.
  - intros id w' Hret.
    destruct (initialized (g_watchdog_ctx w)) eqn:Hi.
    + destruct (in_range id) eqn:Hr.
      * destruct (active (slot w id)) eqn:Ha.
        -- destruct (z_wdt_delete_active w id Hi Hr Hm Ha) as (w1 & Heq & _).
           rewrite Heq in Hret. discriminate.
        -- rewrite (z_wdt_delete_inactive w id Hi Hr Hm Ha) in Hret.
           injection Hret as <-. reflexivity.
      * rewrite (z_wdt_delete_bad_id w id Hi Hr) in Hret.
        injection Hret as <-. reflexivity.
    + rewrite (z_wdt_delete_uninit w id Hi) in Hret.
      injection Hret as <-. reflexivity.
  - intros id w' Hret.
    destruct (initialized (g_watchdog_ctx w)) eqn:Hi.
    + destruct (feedable (table w) id) eqn:Hf.
      * destruct (z_wdt_feed_spec w id Hi) as (w1 & Heq & _).
        rewrite Hf, Hret in Heq. discriminate.
      * destruct (z_wdt_feed_error w id Hi Hf) as [Heq|Heq];
          rewrite Heq in Hret; injection Hret as <-; reflexivity.
    + rewrite (z_wdt_feed_uninit w id Hi) in Hret. injection Hret as <-. reflexivity.
Qed.

(** ** The test program ([watchdog_test.c]), run on the model *)

Example test_basic_functionality_passes :
  exists w, test_basic_functionality boot = Returned [0; 0; 1; 0; 0; 0; -1; 0] w.
Proof. eexists. vm_compute. reflexivity. Qed.

Example test_error_conditions_passes :
  exists w,
    (test_basic_functionality ;; test_error_conditions) boot
    = Returned [-1; -1; -1; 0; -1; -1; -1; -1; -1; -1] w.
Proof. eexists. vm_compute. reflexivity. Qed.

Example test_maximum_channels_passes :
  exists w,
    (z_wdt_init ;; test_maximum_channels) boot
    = Returned ([0; 1; 2; 3; 4; 5; 6; 7; 8; 9; 10; 11; 12; 13; 14; 15], -1,
                [0; 0; 0; 0; 0; 0; 0; 0; 0; 0; 0; 0; 0; 0; 0; 0]) w.
Proof. eexists. vm_compute. reflexivity. Qed.

Example scenario_fires_once :
  exists w, scenario boot = Returned ([42], -1) w
            /\ ticks_now w = 2000 /\ active (slot w 0) = false.
Proof. eexists. vm_compute. repeat split. Qed.

(** ** Well-formedness is kept

    Every operation takes a well-formed world to a well-formed world, so the
    hypothesis [wf_world] of the theorems holds in every state the program
    reaches from a successful start, as long as the clock stays in range. *)

Lemma wf_world_iff w :
  wf_world w = true <-> wf_table (table w) /\ clock_ok (ticks_now w) = true.
Proof.
  unfold wf_world, wf_table. rewrite !andb_true_iff, Nat.eqb_eq, forallb_forall, Forall_forall.
  split.
  - intros [[Hl Hc] Hp]. repeat split; [exact Hl| |exact Hc].
    intros c Hc'. apply Hp, list_elem_of_In, Hc'.
  - intros [[Hl Hp] Hc]. repeat split; [exact Hl|exact Hc|].
    intros c Hc'. apply Hp, list_elem_of_In, Hc'.
Qed.

Lemma wf_table_chan_upd id f chs :
  wf_table chs ->
  (forall c, period_ok c = true -> period_ok (f c) = true) ->
  wf_table (chan_upd id f chs).
Proof.
  intros [Hl Hp] Hf. split; [rewrite length_chan_upd; exact Hl|].
  unfold chan_upd. destruct (id <? 0) eqn:E; [exact Hp|].
  apply Forall_insert; [exact Hp|]. apply Hf.
  unfold chan_at. rewrite E.
  destruct (chs !! Z.to_nat id) eqn:L; [|reflexivity].
  simpl. exact (proj1 (Forall_lookup _ _) Hp _ _ L).
Qed.

Lemma wf_table_feed_chs now i chs : wf_table chs -> wf_table (feed_chs now i chs).
Proof.
  intros H. unfold feed_chs. destruct (feedable chs i); [|exact H].
  apply wf_table_chan_upd; [exact H|]. intros c Hc. exact Hc.
Qed.

Lemma wf_table_calls_chs now calls : forall chs,
  wf_table chs -> wf_table (calls_chs now calls chs).
Proof.
  induction calls as [|[i] calls IH]; intros chs H; [exact H|].
  apply (IH (feed_chs now i chs)), wf_table_feed_chs, H.
Qed.

Lemma wf_table_sweep_pure now ids : forall chs evs,
  wf_table chs -> wf_table (sw_chs (sweep_pure now ids chs evs)).
Proof.
  induction ids as [|id ids IH]; intros chs evs H; simpl; [exact H|].
  destruct (expired now (chan_at chs id)); [|apply IH; exact H].
  destruct (callback (chan_at chs id)) as [f|]; [|exact H].
  apply IH, wf_table_chan_upd; [apply wf_table_calls_chs; exact H|].
  intros c _. reflexivity.
Qed.

Lemma wf_world_kept (w : world) :
  wf_world w = true ->
  (forall id, wf_world (final_world (z_wdt_feed id w)) = true)
  /\ (forall id, watchdog_mutex w = false ->
                 wf_world (final_world (z_wdt_delete id w)) = true)
  /\ (forall period cb data, watchdog_mutex w = false -> 0 <= period <= UINT32_MAX ->
        wf_world (final_world (z_wdt_add period cb data w)) = true)
  /\ wf_world (final_world (z_wdt_suspend w)) = true
  /\ wf_world (final_world (z_wdt_resume w)) = true
  /\ wf_world (final_world (z_wdt_process w)) = true.
Proof.
  intros Hwf. pose proof (proj1 (wf_world_iff w) Hwf) as [Ht Hc].
  split; [|split; [|split; [|split; [|split]]]].
  - intros id. destruct (initialized (g_watchdog_ctx w)) eqn:Hi.
    + destruct (z_wdt_feed_spec w id Hi) as (w' & Heq & Hf & _ & Htab).
      rewrite Heq. apply wf_world_iff. cbn [final_world].
      rewrite Htab, (fr_ticks _ _ Hf). split; [apply wf_table_feed_chs; exact Ht|exact Hc].
    + rewrite (z_wdt_feed_uninit w id Hi). exact Hwf.
  - intros id Hm. destruct (initialized (g_watchdog_ctx w)) eqn:Hi.
    + destruct (in_range id) eqn:Hr.
      * destruct (active (slot w id)) eqn:Ha.
        -- destruct (z_wdt_delete_active w id Hi Hr Hm Ha)
             as (w' & Heq & Htab & _ & _ & _ & _ & Htk & _).
           rewrite Heq. apply wf_world_iff. cbn [final_world]. rewrite Htab, Htk.
           split; [|exact Hc]. apply wf_table_chan_upd; [exact Ht|].
           intros c _. reflexivity.
        -- rewrite (z_wdt_delete_inactive w id Hi Hr Hm Ha). exact Hwf.
      * rewrite (z_wdt_delete_bad_id w id Hi Hr). exact Hwf.
    + rewrite (z_wdt_delete_uninit w id Hi). exact Hwf.
  - intros period cb data Hm Hp. destruct (initialized (g_watchdog_ctx w)) eqn:Hi.
    + destruct (decide (period = 0)) as [->|Hp0].
      * rewrite (z_wdt_add_zero_period w cb data Hi). exact Hwf.
      * destruct (lowest_free (table w) WATCHDOG_MAX_CHANNELS)
          as [Hall|(id & Hid & Hf & Hlow)]; [unfold WATCHDOG_MAX_CHANNELS; lia| |].
        -- destruct (z_wdt_add_full w period cb data Hi Hp0 Hm)
             as (w' & Heq & Hctx & _ & _ & Htk & _).
           { intros j Hj. apply elem_of_seqZ in Hj. apply Hall. lia. }
           rewrite Heq. apply wf_world_iff. cbn [final_world]. rewrite Hctx, Htk.
           split; assumption.
        -- assert (Hr : in_range id = true) by (unfold in_range; lia).
           destruct (z_wdt_add_free w period cb data id Hi Hp0 Hm Hr Hlow Hf)
             as (w' & Heq & Htab & _ & _ & _ & _ & Htk & _).
           rewrite Heq. apply wf_world_iff. cbn [final_world]. rewrite Htab, Htk.
           split; [|exact Hc]. apply wf_table_feed_chs, wf_table_chan_upd; [exact Ht|].
           intros c _. unfold period_ok, populate. cbn. lia.
    + rewrite (z_wdt_add_uninit w period cb data Hi). exact Hwf.
  - destruct (initialized (g_watchdog_ctx w)) eqn:Hi.
    + destruct (watchdog_mutex w) eqn:Hm.
      * unfold z_wdt_suspend, bind, get_initialized, watchdog_mutex_lock.
        rewrite Hi. cbn. rewrite Hm. exact Hwf.
      * rewrite (z_wdt_suspend_init w Hi Hm). exact Hwf.
    + rewrite (z_wdt_suspend_uninit w Hi). exact Hwf.
  - destruct (initialized (g_watchdog_ctx w)) eqn:Hi.
    + destruct (watchdog_mutex w) eqn:Hm.
      * unfold z_wdt_resume, bind, get_initialized, watchdog_mutex_lock.
        rewrite Hi. cbn. rewrite Hm. exact Hwf.
      * destruct (z_wdt_resume_init w Hi Hm) as (w' & Heq & Htab & _ & _ & _ & _ & Htk).
        rewrite Heq. apply wf_world_iff. cbn [final_world]. rewrite Htab, Htk.
        split; [apply wf_table_calls_chs; exact Ht|exact Hc].
    + rewrite (z_wdt_resume_uninit w Hi). exact Hwf.
  - destruct (initialized (g_watchdog_ctx w)) eqn:Hi.
    + destruct (timer_running (g_watchdog_ctx w)) eqn:Hr.
      * destruct (z_wdt_process_spec w Hi Hr) as (w' & Heq & Hf & Htab & _).
        apply wf_world_iff.
        assert (Hfin : final_world (z_wdt_process w) = w')
          by (rewrite Heq; destruct (sw_exited _); reflexivity).
        rewrite Hfin, Htab, (fr_ticks _ _ Hf).
        split; [apply wf_table_sweep_pure; exact Ht|exact Hc].
      * rewrite (z_wdt_process_suspended w Hi Hr). exact Hwf.
    + rewrite (z_wdt_process_off w Hi). exact Hwf.
Qed.

Lemma wf_world_init (w : world) :
  initialized (g_watchdog_ctx w) = false -> clock_ok (ticks_now w) = true ->
  thread_create_ok w = true ->
  exists w', z_wdt_init w = Returned 0 w' /\ wf_world w' = true
             /\ initialized (g_watchdog_ctx w') = true
             /\ timer_running (g_watchdog_ctx w') = true.
Proof.
  intros Hi Hc Hok.
  destruct (note_all_fields (AccTimerRunning :: (AccChannel <$> channel_ids))
              (with_ctx (fun _ => zero_context) w)) as (Hctx & Hok' & _ & Htk).
  rewrite ctx_with_ctx in Hctx. rewrite thread_create_ok_with_ctx in Hok'.
  unfold z_wdt_init. step. rewrite Hi. cbv iota.
  step. step. step. step. step.
  assert (Hos : forall v, thread_create_ok v = true ->
                          watchdog_os_init v = Returned 0 (with_timer_thread true v)).
  { intros v Hv. unfold watchdog_os_init, bind, ret. cbn. rewrite Hv. reflexivity. }
  erewrite bind_returned;
    [|apply Hos; rewrite thread_create_ok_note, !thread_create_ok_with_ctx, Hok'; exact Hok].
  eexists. split; [reflexivity|].
  split; [|split].
  - unfold wf_world.
    rewrite ticks_emit, ticks_with_timer_thread, ticks_note, !ticks_with_ctx, Htk,
      ticks_with_ctx, Hc.
    rewrite ctx_emit, ctx_with_timer_thread, ctx_note, !ctx_with_ctx, Hctx.
    reflexivity.
  - rewrite ctx_emit, ctx_with_timer_thread, ctx_note, !ctx_with_ctx, Hctx. reflexivity.
  - rewrite ctx_emit, ctx_with_timer_thread, ctx_note, !ctx_with_ctx, Hctx. reflexivity.
Qed.

(** * The claims

    One theorem for each claim of the specification, in the order of the
    claims, with the run that instantiates it and, where the claim fails as
    stated, the run on which it fails. *)




(** C2.  On an initialized context, [z_wdt_feed] of an active channel
    returns 0 and sets the deadline of that channel to [now + period], the
    period being the one stored in the slot, whatever the previous deadline
    was; nothing else in the slot, no other slot and no flag changes.  The
    sum is taken on [int64_t]; it is the mathematical sum in every
    well-formed world. *)
Theorem feed_resets_deadline (w : world) (id : Z) :
  initialized (g_watchdog_ctx w) = true ->
  0 <= id < WATCHDOG_MAX_CHANNELS ->
  active (slot w id) = true ->
  exists w', z_wdt_feed id w = Returned 0 w'
    /\ slot w' id
       = set_timeout_abs_ticks (i64_add (ticks_now w) (reload_period (slot w id))) (slot w id)
    /\ (wf_world w = true ->
        timeout_abs_ticks (slot w' id) = ticks_now w + reload_period (slot w id))
    /\ (forall j, j <> id -> slot w' j = slot w j)
    /\ frame w w' /\ events w' = events w.
Proof.
  intros Hi Hid Ha.
  destruct (z_wdt_feed_spec w id Hi) as (w' & Heq & Hf & He & Ht).
  assert (Hfd : feedable (table w) id = true).
  { unfold feedable. rewrite Ha. replace (0 <=? id) with true by lia.
    replace (id <? WATCHDOG_MAX_CHANNELS) with true by lia. reflexivity. }
  rewrite Hfd in Heq. exists w'. split; [exact Heq|].
  assert (Hs : slot w' id
               = set_timeout_abs_ticks (i64_add (ticks_now w) (reload_period (slot w id)))
                                       (slot w id)).
  { rewrite Ht, chan_at_feed_chs, Z.eqb_refl, Hfd. reflexivity. }
  split; [exact Hs|]. split; [|split; [|split; assumption]].
  - intros Hwf. rewrite Hs. simpl. apply wf_world_deadline; assumption.
  - intros j Hne. rewrite Ht, chan_at_feed_chs.
    replace (id =? j) with false by lia. reflexivity.
Qed.

Lemma feed_resets_deadline_witness :
  exists w', z_wdt_feed 1 two_overdue = Returned 0 w'
    /\ timeout_abs_ticks (slot w' 1) = 2000 + 1500.
Proof.
  destruct (feed_resets_deadline two_overdue 1) as (w' & Heq & _ & Hd & _);
    [run|in_table|run|].
  exists w'. split; [exact Heq|]. apply Hd. run.
Defined.

(** C3 (the failing paths).  Deactivation does not clear the slot:
    - a successful [z_wdt_delete] clears [active], [reload_period],
      [callback] and [user_data] and keeps the deadline;
    - the sweep, when it expires a channel, clears [active] only: callback,
      user data and period stay in the inactive slot, and so does the
      deadline (the old one, or [now + period] if the callback fed the
      channel). *)
Theorem deactivation_keeps_stale_fields :
  (forall w id,
     initialized (g_watchdog_ctx w) = true ->
     0 <= id < WATCHDOG_MAX_CHANNELS ->
     watchdog_mutex w = false ->
     active (slot w id) = true ->
     exists w', z_wdt_delete id w = Returned 0 w'
       /\ slot w' id = mk_channel 0 (timeout_abs_ticks (slot w id)) 0 None false)
  /\ (forall w w' id f,
        wf_world w = true ->
        initialized (g_watchdog_ctx w) = true ->
        timer_running (g_watchdog_ctx w) = true ->
        0 <= id < WATCHDOG_MAX_CHANNELS ->
        active (slot w id) = true ->
        timeout_abs_ticks (slot w id) <= ticks_now w ->
        callback (slot w id) = Some f ->
        unfed_from_below id w = true ->
        z_wdt_process w = Returned tt w' ->
        active (slot w' id) = false
        /\ callback (slot w' id) = Some f
        /\ user_data (slot w' id) = user_data (slot w id)
        /\ reload_period (slot w' id) = reload_period (slot w id)
        /\ timeout_abs_ticks (slot w' id)
           = if feeds id (f id (user_data (slot w id)))
             then ticks_now w + reload_period (slot w id)
             else timeout_abs_ticks (slot w id)).
Proof.
  split.
  - intros w id Hi Hid Hm Ha.
    assert (Hr : in_range id = true) by (unfold in_range; lia).
    destruct (z_wdt_delete_active w id Hi Hr Hm Ha) as (w' & Heq & Ht & _).
    exists w'. split; [exact Heq|].
    rewrite Ht, chan_at_deleted, Z.eqb_refl by exact Ha. reflexivity.
  - intros w w' id f Hwf Hi Hr Hid Hact Hdl Hcb Hlow Hret.
    pose proof (wf_world_rearm_ok w Hwf) as Hok.
    destruct (z_wdt_process_returned w w' Hi Hr Hret) as (Hex & Ht & _).
    assert (Hdue : expired (ticks_now w) (slot w id) = true)
      by (apply expired_true; assumption).
    destruct (sweep_pure_fires (ticks_now w) id f (table w) (events w) Hok Hid Hdue Hcb)
      as [Hs _].
    + apply unfed_from_below_spec. exact Hlow.
    + apply sweep_pure_prefix_no_exit; assumption.
    + rewrite (wf_world_deadline w id Hwf Hact) in Hs.
      rewrite Ht, Hs.
      destruct (feeds id (f id (user_data (slot w id)))); cbn; repeat split; assumption.
Qed.

(** The two failing inputs of C3: channel 1 of [two_overdue] after the sweep
    that expires it, and after a delete instead. *)
Lemma deactivation_keeps_stale_fields_witness :
  (exists w', z_wdt_delete 1 two_overdue = Returned 0 w'
     /\ slot w' 1 = mk_channel 0 1500 0 None false)
  /\ callback (slot (final_world (z_wdt_process two_overdue)) 1) = Some cb_refeed
  /\ user_data (slot (final_world (z_wdt_process two_overdue)) 1) = 7
  /\ reload_period (slot (final_world (z_wdt_process two_overdue)) 1) = 1500
  /\ timeout_abs_ticks (slot (final_world (z_wdt_process two_overdue)) 1) = 3500
  /\ active (slot (final_world (z_wdt_process two_overdue)) 1) = false.
Proof.
  destruct deactivation_keeps_stale_fields as [Hdel Hsweep].
  split.
  - destruct (Hdel two_overdue 1) as (w' & Heq & Hs); [run|in_table|run|run|].
    exists w'. split; [exact Heq|]. rewrite Hs. run.
  - destruct (Hsweep two_overdue (final_world (z_wdt_process two_overdue)) 1 cb_refeed)
      as (Ha & Hc & Hu & Hp & Ht); [run|run|run|in_table|run|run_le|run|run|run|].
    split; [exact Hc|]. split; [rewrite Hu; run|]. split; [rewrite Hp; run|].
    split; [rewrite Ht; run|exact Ha].
Defined.

(** C4.  On an initialized context with at least one inactive slot,
    [z_wdt_add] with a period in [1, UINT32_MAX] takes the inactive slot of
    lowest index, stores period, callback and user data in it, sets its
    deadline to [now + period], marks it active and returns its index, a
    value in [0, 16); the other slots and the flags are untouched. *)
Theorem add_takes_lowest_free_slot (w : world) (period data k : Z)
  (cb : option watchdog_callback_t) :
  wf_world w = true ->
  initialized (g_watchdog_ctx w) = true ->
  watchdog_mutex w = false ->
  0 < period <= UINT32_MAX ->
  0 <= k < WATCHDOG_MAX_CHANNELS ->
  active (slot w k) = false ->
  exists id w', z_wdt_add period cb data w = Returned id w'
    /\ 0 <= id < WATCHDOG_MAX_CHANNELS
    /\ active (slot w id) = false
    /\ (forall j, 0 <= j < id -> active (slot w j) = true)
    /\ slot w' id = mk_channel period (ticks_now w + period) data cb true
    /\ (forall j, j <> id -> slot w' j = slot w j)
    /\ initialized (g_watchdog_ctx w') = true
    /\ timer_running (g_watchdog_ctx w') = timer_running (g_watchdog_ctx w)
    /\ watchdog_mutex w' = false.
Proof.
  intros Hwf Hi Hm Hp Hk Hfree.
  destruct (lowest_free (table w) WATCHDOG_MAX_CHANNELS) as [Hall|(id & Hid & Hf & Hlow)];
    [unfold WATCHDOG_MAX_CHANNELS; lia| |].
  { rewrite (Hall k Hk) in Hfree. discriminate. }
  assert (Hr : in_range id = true) by (unfold in_range; lia).
  destruct (z_wdt_add_free w period cb data id Hi) as (w' & Heq & Ht & _ & Hi' & Hr' & Hm' & _);
    [lia|exact Hm|exact Hr|exact Hlow|exact Hf|].
  assert (Hlen : (Z.to_nat id < length (table w))%nat).
  { rewrite (wf_world_length w Hwf). lia. }
  exists id, w'. split; [exact Heq|]. split; [exact Hid|]. split; [exact Hf|].
  split; [exact Hlow|]. split; [|split; [|repeat split; assumption]].
  - rewrite Ht, chan_at_added, Z.eqb_refl by assumption.
    rewrite i64_add_exact; [reflexivity|].
    pose proof (wf_world_clock w Hwf). unfold INT64_MIN, INT64_MAX, UINT32_MAX in *. lia.
  - intros j Hne. rewrite Ht, chan_at_added by assumption.
    replace (j =? id) with false by lia. reflexivity.
Qed.

Lemma add_takes_lowest_free_slot_witness :
  exists w', z_wdt_add 250 (Some cb_mark) 9 two_overdue = Returned 2 w'
    /\ slot w' 2 = mk_channel 250 2250 9 (Some cb_mark) true.
Proof.
  destruct (add_takes_lowest_free_slot two_overdue 250 9 5 (Some cb_mark))
    as (id & w' & Heq & _ & _ & _ & Hs & _);
    [run|run|run|unfold UINT32_MAX; lia|in_table|run|].
  assert (Hid : id = 2).
  { apply (f_equal (fun o => match o with Returned a _ => a | _ => -1 end)) in Heq.
    vm_compute in Heq. symmetry. exact Heq. }
  subst id. exists w'. split; [exact Heq|exact Hs].
Defined.

(** C5.  Called by a thread that does not hold the mutex, in any world:
    - [z_wdt_add] returns; it returns the error value -1 if and only if the
      context is uninitialized, or the period is 0, or all 16 slots are
      active, and otherwise an index in [0, 16); the error it logs names the
      first of these conditions that holds;
    - [z_wdt_delete] and [z_wdt_feed] return; each returns -1 if and only if
      the context is uninitialized, or the id is outside [0, 16), or the slot
      is inactive, and otherwise 0;
    - so with 16 channels active a further add fails, and after a delete
      that returned 0 an add with a non-zero period succeeds. *)
Theorem registry_error_conditions (w : world) :
  watchdog_mutex w = false ->
  (forall period cb data,
     exists r w', z_wdt_add period cb data w = Returned r w'
       /\ (r = -1 <-> (initialized (g_watchdog_ctx w) = false \/ period = 0
                       \/ forall j, 0 <= j < WATCHDOG_MAX_CHANNELS ->
                                    active (slot w j) = true))
       /\ (r = -1 \/ 0 <= r < WATCHDOG_MAX_CHANNELS)
       /\ (r = -1 ->
           exists msg, events w' = events w ++ [EvLog "ERROR" msg []]
             /\ msg = (if negb (initialized (g_watchdog_ctx w))
                       then "Watchdog not initialized"
                       else if period =? 0 then "Invalid reload period: 0"
                       else "No available watchdog channels")))
  /\ (forall id,
        exists r w', z_wdt_delete id w = Returned r w'
          /\ (r = -1 <-> (initialized (g_watchdog_ctx w) = false \/ id < 0
                          \/ id >= WATCHDOG_MAX_CHANNELS \/ active (slot w id) = false))
          /\ (r = -1 \/ r = 0))
  /\ (forall id,
        exists r w', z_wdt_feed id w = Returned r w'
          /\ (r = -1 <-> (initialized (g_watchdog_ctx w) = false \/ id < 0
                          \/ id >= WATCHDOG_MAX_CHANNELS \/ active (slot w id) = false))
          /\ (r = -1 \/ r = 0))
  /\ (forall id w1 period cb data,
        z_wdt_delete id w = Returned 0 w1 -> period <> 0 ->
        exists r w2, z_wdt_add period cb data w1 = Returned r w2
                     /\ 0 <= r < WATCHDOG_MAX_CHANNELS).
Proof.
  intros Hm. split; [|split; [|split]].
  - intros period cb data. apply z_wdt_add_result. exact Hm.
  - intros id. destruct (z_wdt_delete_result w id Hm) as (r & w' & Heq & Hiff & Hr & _).
    exists r, w'. repeat split; try assumption; apply Hiff.
  - intros id. apply z_wdt_feed_result.
  - intros id w1 period cb data Hdel Hp.
    destruct (z_wdt_delete_result w id Hm) as (r & w' & Heq & _ & _ & Hok).
    rewrite Hdel in Heq. injection Heq as <- <-.
    destruct (Hok eq_refl) as (Hi1 & Hm1 & Hid & Hfree).
    destruct (z_wdt_add_result w1 period cb data Hm1) as (r & w2 & Heq2 & Hiff & Hr & _).
    exists r, w2. split; [exact Heq2|].
    destruct Hr as [->|Hr]; [|exact Hr].
    exfalso. destruct (proj1 Hiff eq_refl) as [?|[?|Hall]].
    + congruence.
    + contradiction.
    + rewrite (Hall id Hid) in Hfree. discriminate.
Qed.

Lemma registry_error_conditions_witness :
  (exists w', z_wdt_add 1000 (Some cb_mark) 0 full_table = Returned (-1) w')
  /\ (exists w1 r w2, z_wdt_delete 9 full_table = Returned 0 w1
                      /\ z_wdt_add 1000 (Some cb_mark) 0 w1 = Returned r w2
                      /\ 0 <= r < WATCHDOG_MAX_CHANNELS).
Proof.
  destruct (registry_error_conditions full_table) as (Hadd & _ & _ & Hagain); [run|].
  split.
  - destruct (Hadd 1000 (Some cb_mark) 0) as (r & w' & Heq & Hiff & _).
    exists w'. rewrite Heq. f_equal. apply Hiff. right. right.
    intros j Hj.
    assert (Hcases : j ∈ channel_ids) by (apply elem_of_seqZ; lia).
    revert Hcases. generalize j. apply Forall_forall. vm_compute.
    repeat constructor.
  - exists (after (z_wdt_delete 9) full_table).
    destruct (Hagain 9 (after (z_wdt_delete 9) full_table) 1000 (Some cb_mark) 0)
      as (r & w2 & Heq & Hr); [run|lia|].
    exists r, w2. split; [run|]. split; assumption.
Defined.

(** C6.  On an initialized context, called without the mutex held:
    - [z_wdt_suspend] returns and changes nothing in the context but
      [timer_running], which it clears: every slot keeps deadline, period,
      activity, callback and user data;
    - while [timer_running] is clear, [z_wdt_process] returns at once,
      whatever the clock says: no event is emitted, so no callback runs, and
      the context is untouched;
    - [z_wdt_resume] returns, gives every active slot the deadline
      [now + period] (on [int64_t]; the mathematical sum in a well-formed
      world), leaves the inactive slots alone and sets [timer_running].
    On an uninitialized context both calls return without any effect. *)
Theorem suspend_resume_semantics (w : world) :
  initialized (g_watchdog_ctx w) = true ->
  watchdog_mutex w = false ->
  (exists w', z_wdt_suspend w = Returned tt w'
     /\ g_watchdog_ctx w' = set_timer_running false (g_watchdog_ctx w))
  /\ (forall v, initialized (g_watchdog_ctx v) = true ->
                timer_running (g_watchdog_ctx v) = false ->
        exists v', z_wdt_process v = Returned tt v'
          /\ g_watchdog_ctx v' = g_watchdog_ctx v /\ events v' = events v)
  /\ (exists w', z_wdt_resume w = Returned tt w'
        /\ timer_running (g_watchdog_ctx w') = true
        /\ initialized (g_watchdog_ctx w') = true
        /\ (forall j, 0 <= j < WATCHDOG_MAX_CHANNELS ->
              slot w' j
              = if active (slot w j)
                then set_timeout_abs_ticks
                       (i64_add (ticks_now w) (reload_period (slot w j))) (slot w j)
                else slot w j)
        /\ (wf_world w = true ->
            forall j, 0 <= j < WATCHDOG_MAX_CHANNELS -> active (slot w j) = true ->
              timeout_abs_ticks (slot w' j) = ticks_now w + reload_period (slot w j)))
  /\ (forall u, initialized (g_watchdog_ctx u) = false ->
        z_wdt_suspend u = Returned tt u /\ z_wdt_resume u = Returned tt u).
Proof.
  intros Hi Hm. split; [|split; [|split]].
  - eexists. split; [apply z_wdt_suspend_init; assumption|reflexivity].
  - intros v Hiv Hrv. eexists. split; [apply z_wdt_process_suspended; assumption|].
    split; reflexivity.
  - destruct (z_wdt_resume_init w Hi Hm) as (w' & Heq & Ht & _ & Hi' & Hr' & _).
    assert (Hslot : forall j, 0 <= j < WATCHDOG_MAX_CHANNELS ->
              slot w' j
              = if active (slot w j)
                then set_timeout_abs_ticks
                       (i64_add (ticks_now w) (reload_period (slot w j))) (slot w j)
                else slot w j).
    { intros j Hj. rewrite Ht, chan_at_calls_chs, feeds_channel_ids.
      unfold feedable. fold (in_range j).
      replace (in_range j) with true by (unfold in_range; lia). reflexivity. }
    exists w'. split; [exact Heq|]. split; [exact Hr'|]. split; [exact Hi'|].
    split; [exact Hslot|].
    intros Hwf j Hj Ha. rewrite (Hslot j Hj), Ha. simpl.
    apply wf_world_deadline; assumption.
  - intros u Hu. split; [apply z_wdt_suspend_uninit|apply z_wdt_resume_uninit]; exact Hu.
Qed.

Lemma suspend_resume_semantics_witness :
  (exists w', z_wdt_suspend two_overdue = Returned tt w'
     /\ table w' = table two_overdue
     /\ exists v', z_wdt_process (with_ticks 99999 w') = Returned tt v'
                   /\ events v' = events w')
  /\ (exists w', z_wdt_resume two_overdue = Returned tt w'
        /\ timeout_abs_ticks (slot w' 0) = 2000 + 1000
        /\ timeout_abs_ticks (slot w' 1) = 2000 + 1500).
Proof.
  assert (Hi : initialized (g_watchdog_ctx two_overdue) = true) by run.
  assert (Hwf : wf_world two_overdue = true) by run.
  assert (Ha0 : active (slot two_overdue 0) = true) by run.
  assert (Ha1 : active (slot two_overdue 1) = true) by run.
  assert (Hd0 : ticks_now two_overdue + reload_period (slot two_overdue 0) = 2000 + 1000)
    by run.
  assert (Hd1 : ticks_now two_overdue + reload_period (slot two_overdue 1) = 2000 + 1500)
    by run.
  destruct (suspend_resume_semantics two_overdue Hi) as (Hs & Hp & Hres & _); [run|].
  revert Hi Hwf Ha0 Ha1 Hd0 Hd1 Hs Hp Hres. generalize two_overdue as W.
  intros W Hi Hwf Ha0 Ha1 Hd0 Hd1 Hs Hp Hres. split.
  - destruct Hs as (w' & Heq & Hctx). exists w'. split; [exact Heq|].
    split; [rewrite Hctx; reflexivity|].
    destruct (Hp (with_ticks 99999 w')) as (v' & Hv & _ & He).
    + cbn. rewrite Hctx. exact Hi.
    + cbn. rewrite Hctx. reflexivity.
    + exists v'. split; [exact Hv|exact He].
  - destruct Hres as (w' & Heq & _ & _ & _ & Hd). exists w'. split; [exact Heq|].
    split.
    + rewrite <- Hd0. apply Hd; [exact Hwf|in_table|exact Ha0].
    + rewrite <- Hd1. apply Hd; [exact Hwf|in_table|exact Ha1].
Defined.

(** C7.  When the scan stands at a slot that is active and due and has no
    callback, it logs the timeout and the fatal condition and calls
    [exit(1)]: nothing is returned to any caller, the rest of the table is
    not scanned, and the slot is not touched.  For a whole call: a channel
    that is active and due at entry, has no callback, and is not fed by a
    callback that runs earlier in the same sweep, makes [z_wdt_process] end
    in [exit(1)]; when the due channels below it all have callbacks, the
    exit is the one taken for this channel, the two log lines for it being
    the last events. *)
Theorem missing_callback_is_fatal (w : world) (id : Z) :
  wf_world w = true ->
  initialized (g_watchdog_ctx w) = true ->
  timer_running (g_watchdog_ctx w) = true ->
  0 <= id < WATCHDOG_MAX_CHANNELS ->
  active (slot w id) = true ->
  timeout_abs_ticks (slot w id) <= ticks_now w ->
  callback (slot w id) = None ->
  unfed_from_below id w = true ->
  (exists w', z_wdt_process w = Exited 1 w'
     /\ (due_below_ok id w = true ->
           (exists more, events w' = events w ++ more ++ [ev_timeout id; ev_fatal id])
           /\ slot w' id = slot w id
           /\ fired id (events w') = fired id (events w)))
  /\ (forall v ticks rest,
        active (slot v id) = true ->
        timeout_abs_ticks (slot v id) <= ticks ->
        callback (slot v id) = None ->
        process_sweep ticks (id :: rest) v
        = Exited 1 (emit (ev_fatal id)
                      (note (AccChannel id)
                         (emit (ev_timeout id) (note (AccChannel id) v))))).
Proof.
  intros Hwf Hi Hr Hid Hact Hdl Hcb Hlow.
  split; [|intros v ticks rest; apply process_sweep_fatal_step].
  pose proof (wf_world_rearm_ok w Hwf) as Hok.
  assert (Hdue : expired (ticks_now w) (slot w id) = true)
    by (apply expired_true; assumption).
  destruct (z_wdt_process_spec w Hi Hr) as (w' & Heq & _ & Ht & He).
  destruct (sw_exited (sweep_pure (ticks_now w) (seqZ 0 id) (table w) (events w))) eqn:Epre.
  - rewrite (sweep_pure_prefix_exit _ _ _ _ Hid Epre) in Heq.
    exists w'. split; [exact Heq|].
    intros Hall. exfalso.
    rewrite sweep_pure_no_exit in Epre;
      [discriminate|exact Hok|apply due_below_ok_callbacks; exact Hall].
  - destruct (sweep_pure_fatal (ticks_now w) id (table w) (events w) Hok Hid Hdue Hcb)
      as (Hex & Hchs & Hevs & Hs & Hf).
    + apply unfed_from_below_spec. exact Hlow.
    + exact Epre.
    + rewrite Hex in Heq. exists w'. split; [exact Heq|].
      intros _. rewrite Ht, He. split; [|split; assumption].
      destruct (sweep_pure_evs_extends (ticks_now w) (seqZ 0 id) (table w) (events w))
        as (more & Hmore).
      exists more. rewrite Hevs, Hmore, <- app_assoc. reflexivity.
Qed.

Lemma missing_callback_is_fatal_witness :
  exists w', z_wdt_process orphan_second = Exited 1 w'
    /\ (exists more, events w' = events orphan_second ++ more ++ [ev_timeout 1; ev_fatal 1])
    /\ slot w' 1 = slot orphan_second 1.
Proof.
  destruct (missing_callback_is_fatal orphan_second 1) as ((w' & Heq & Hrest) & _);
    [run|run|run|in_table|run|run_le|run|run|].
  destruct Hrest as (Hev & Hs & _); [run|].
  exists w'. split; [exact Heq|]. split; assumption.
Defined.

(** C8 (the failing path).  [z_wdt_init] on an uninitialized context whose
    OS layer cannot start the timer thread returns the error value -1, and
    yet leaves the context changed: the table wiped, [initialized] and
    [timer_running] set.  A second [z_wdt_init] then reports success
    without starting anything. *)
Theorem failed_init_changes_context (w : world) :
  initialized (g_watchdog_ctx w) = false ->
  thread_create_ok w = false ->
  exists w', z_wdt_init w = Returned (-1) w'
    /\ initialized (g_watchdog_ctx w') = true
    /\ timer_running (g_watchdog_ctx w') = true
    /\ table w' = channels zero_context
    /\ g_watchdog_ctx w' <> g_watchdog_ctx w
    /\ z_wdt_init w'
       = Returned 0 (emit (EvLog "WARN" "Watchdog already initialized" []) w').
Proof.
  intros Hi Hc. destruct (z_wdt_init_no_thread w Hi Hc) as (w' & Heq & Hctx).
  assert (Hi' : initialized (g_watchdog_ctx w') = true) by (rewrite Hctx; reflexivity).
  exists w'. split; [exact Heq|]. split; [exact Hi'|].
  split; [rewrite Hctx; reflexivity|]. split; [rewrite Hctx; reflexivity|].
  split; [congruence|]. apply z_wdt_init_again. exact Hi'.
Qed.

Lemma failed_init_changes_context_witness :
  exists w', z_wdt_init boot_no_thread = Returned (-1) w'
    /\ initialized (g_watchdog_ctx boot_no_thread) = false
    /\ initialized (g_watchdog_ctx w') = true.
Proof.
  destruct (failed_init_changes_context boot_no_thread) as (w' & Heq & Hi & _);
    [run|run|].
  exists w'. split; [exact Heq|]. split; [run|exact Hi].
Defined.

(** C9 (the failing path).  [z_wdt_feed], called on an initialized context
    with a valid id by a thread that does not hold the mutex, reads
    [channels[id]] and, when the channel is active, writes its deadline and
    rescans the table, all without the mutex: every access it makes is
    stamped "not held", and there is at least one. *)
Theorem feed_runs_without_the_mutex (w : world) (id : Z) :
  initialized (g_watchdog_ctx w) = true ->
  0 <= id < WATCHDOG_MAX_CHANNELS ->
  watchdog_mutex w = false ->
  exists r w' more,
    z_wdt_feed id w = Returned r w'
    /\ accesses w' = accesses w ++ (AccChannel id, false) :: more
    /\ Forall (fun a => a.2 = false) more
    /\ (active (slot w id) = true -> r = 0 /\ (2 <= length more)%nat)
    /\ watchdog_mutex w' = false.
Proof.
  intros Hi Hid Hm.
  unfold z_wdt_feed, bind, get_initialized, chan_get, chan_set, watchdog_get_ticks, ret.
  rewrite Hi. cbn.
  replace (id <? 0) with false by lia.
  replace (id >=? WATCHDOG_MAX_CHANNELS) with false by lia. cbn.
  destruct (active (slot w id)) eqn:Ea; cbn.
  - match goal with
    | |- context [watchdog_schedule_next_timeout ?x] => set (w2 := x)
    end.
    destruct (watchdog_schedule_next_timeout_quiet w2) as (w3 & Heq & Hf & _).
    destruct (fr_acc _ _ Hf) as (acc & Hacc & Htag).
    rewrite Heq. exists 0, w3. eexists. split; [reflexivity|].
    rewrite Hacc, (fr_mutex _ _ Hf). subst w2. cbn in *. rewrite Hm in *.
    rewrite <- !app_assoc. cbn.
    split; [reflexivity|]. split; [|split; [|reflexivity]].
    + repeat (apply Forall_cons; split; [reflexivity|]). exact Htag.
    + intros _. split; [reflexivity|]. cbn. lia.
  - exists (-1), (note (AccChannel id) w), []. cbn. rewrite Hm.
    split; [reflexivity|]. split; [reflexivity|]. split; [constructor|].
    split; [discriminate|reflexivity].
Qed.

Lemma feed_runs_without_the_mutex_witness :
  exists w' more,
    z_wdt_feed 0 two_overdue = Returned 0 w'
    /\ accesses w' = accesses two_overdue ++ (AccChannel 0, false) :: more
    /\ Forall (fun a => a.2 = false) more.
Proof.
  assert (Ha : active (slot two_overdue 0) = true) by run.
  destruct (feed_runs_without_the_mutex two_overdue 0) as (r & w' & more & Heq & Hacc & Hall & Hr & _);
    [run|in_table|run|].
  destruct (Hr Ha) as [-> _].
  exists w', more. split; [exact Heq|]. split; assumption.
Defined.




(** * Further properties of the code

    Properties of the functions around those of the claims: what a sweep
    does to the table as a whole, cleanup and initialization, the lock
    discipline, the scheduling hint, and the timer thread of
    [watchdog_os.c] running its rounds.  Each numbered theorem is followed
    by a run that instantiates it. *)

(** ** The sweep and the registrations *)

Lemma same_registration_refl c : same_registration c c.
Proof. repeat split; auto. Qed.

Lemma same_registration_trans c1 c2 c3 :
  same_registration c1 c2 -> same_registration c2 c3 -> same_registration c1 c3.
Proof.
  intros (P1 & C1 & U1 & A1) (P2 & C2 & U2 & A2).
  repeat split; [congruence|congruence|congruence|auto].
Qed.

Lemma chan_at_upd_cases id f chs j :
  chan_at (chan_upd id f chs) j = chan_at chs j
  \/ (j = id /\ chan_at (chan_upd id f chs) j = f (chan_at chs j)).
Proof.
  destruct (decide (id = j)) as [->|Hne]; [|left; apply chan_at_upd_ne; exact Hne].
  destruct (decide (j < 0)) as [Hneg|Hpos].
  { left. unfold chan_upd. rewrite (proj2 (Z.ltb_lt j 0) Hneg). reflexivity. }
  destruct (decide (Z.to_nat j < length chs)%nat) as [Hin|Hout].
  - right. split; [reflexivity|]. apply chan_at_upd_eq; [lia|exact Hin].
  - left. apply chan_at_upd_out. exact Hout.
Qed.

Lemma calls_chs_registration now calls chs j :
  same_registration (chan_at chs j) (chan_at (calls_chs now calls chs) j).
Proof.
  rewrite chan_at_calls_chs.
  destruct (feeds j calls && feedable chs j); repeat split; auto.
Qed.

Lemma fire_registration now id calls chs j :
  same_registration (chan_at chs j)
    (chan_at (chan_upd id (set_active false) (calls_chs now calls chs)) j).
Proof.
  eapply same_registration_trans; [apply (calls_chs_registration now calls)|].
  destruct (chan_at_upd_cases id (set_active false) (calls_chs now calls chs) j)
    as [->|[_ ->]]; [apply same_registration_refl|].
  repeat split; simpl; auto. discriminate.
Qed.

Lemma sweep_pure_registration now ids : forall chs evs j,
  same_registration (chan_at chs j) (chan_at (sw_chs (sweep_pure now ids chs evs)) j).
Proof.
  induction ids as [|id ids IH]; intros chs evs j; simpl; [apply same_registration_refl|].
  destruct (expired now (chan_at chs id)); [|apply IH].
  destruct (callback (chan_at chs id)) as [f|]; [|apply same_registration_refl].
  eapply same_registration_trans; [|apply IH]. apply fire_registration.
Qed.

Lemma length_sweep_pure now ids : forall chs evs,
  length (sw_chs (sweep_pure now ids chs evs)) = length chs.
Proof.
  induction ids as [|id ids IH]; intros chs evs; simpl; [reflexivity|].
  destruct (expired now (chan_at chs id)); [|apply IH].
  destruct (callback (chan_at chs id)) as [f|]; [|reflexivity].
  rewrite IH, length_chan_upd, length_calls_chs. reflexivity.
Qed.

(** The three ways [z_wdt_process] runs: not at all, or as the scan. *)
Lemma z_wdt_process_cases w :
  (exists w', z_wdt_process w = Returned tt w'
              /\ table w' = table w /\ events w' = events w /\ frame w w')
  \/ (initialized (g_watchdog_ctx w) = true
      /\ timer_running (g_watchdog_ctx w) = true
      /\ table (final_world (z_wdt_process w))
         = sw_chs (sweep_pure (ticks_now w) channel_ids (table w) (events w))
      /\ events (final_world (z_wdt_process w))
         = sw_evs (sweep_pure (ticks_now w) channel_ids (table w) (events w))
      /\ frame w (final_world (z_wdt_process w))).
Proof.
  destruct (initialized (g_watchdog_ctx w)) eqn:Hi.
  - destruct (timer_running (g_watchdog_ctx w)) eqn:Hr.
    + right. destruct (z_wdt_process_spec w Hi Hr) as (w' & Heq & Hf & Ht & He).
      split; [reflexivity|]. split; [reflexivity|].
      rewrite Heq. destruct (sw_exited _); cbn [final_world]; auto.
    + left. exists (note AccTimerRunning w).
      split; [apply z_wdt_process_suspended; assumption|].
      split; [reflexivity|]. split; [reflexivity|apply frame_note].
  - left. exists w. split; [apply z_wdt_process_off; exact Hi|].
    split; [reflexivity|]. split; [reflexivity|apply frame_refl].
Qed.

Lemma sweep_pure_not_due now k ids : forall chs evs,
  rearm_ok now chs ->
  expired now (chan_at chs k) = false ->
  expired now (chan_at (sw_chs (sweep_pure now ids chs evs)) k) = false
  /\ active (chan_at (sw_chs (sweep_pure now ids chs evs)) k) = active (chan_at chs k)
  /\ fired k (sw_evs (sweep_pure now ids chs evs)) = fired k evs.
Proof.
  induction ids as [|id ids IH]; intros chs evs Hok Hk; simpl; [auto|].
  destruct (expired now (chan_at chs id)) eqn:Hid; [|apply IH; assumption].
  assert (Hne : id <> k) by (intros ->; congruence).
  destruct (callback (chan_at chs id)) as [f|] eqn:Hcb.
  - set (calls := f id (user_data (chan_at chs id))).
    set (chs1 := chan_upd id (set_active false) (calls_chs now calls chs)).
    assert (H1 : expired now (chan_at chs1 k) = false
                 /\ active (chan_at chs1 k) = active (chan_at chs k)).
    { subst chs1. rewrite chan_at_upd_ne by exact Hne. rewrite chan_at_calls_chs.
      destruct (feeds k calls && feedable chs k) eqn:Hfed; [|auto].
      apply andb_prop in Hfed as [_ Hfb]. unfold feedable in Hfb.
      apply andb_prop in Hfb as [_ Hact].
      split; [|reflexivity]. apply expired_false. simpl. apply Hok. exact Hact. }
    destruct H1 as [Hex1 Hact1].
    destruct (IH chs1 (evs ++ [ev_timeout id; EvCallback id (user_data (chan_at chs id))]))
      as (He & Ha & Hf); [apply fire_rearm_ok; exact Hok|exact Hex1|].
    fold calls. fold chs1.
    split; [exact He|]. split; [congruence|].
    rewrite Hf, fired_app. simpl.
    destruct (id =? k) eqn:E; [lia|]. apply app_nil_r.
  - simpl. split; [exact Hk|]. split; [reflexivity|].
    rewrite fired_app. unfold ev_timeout, ev_fatal. simpl. apply app_nil_r.
Qed.

Lemma sweep_pure_none_left_due now ids : forall chs evs,
  rearm_ok now chs ->
  sw_exited (sweep_pure now ids chs evs) = false ->
  forall j, j ∈ ids -> expired now (chan_at (sw_chs (sweep_pure now ids chs evs)) j) = false.
Proof.
  induction ids as [|id ids IH]; intros chs evs Hok Hex j Hj; [by apply elem_of_nil in Hj|].
  simpl in Hex |- *.
  destruct (expired now (chan_at chs id)) eqn:Hid.
  - destruct (callback (chan_at chs id)) as [f|] eqn:Hcb; [|discriminate].
    set (calls := f id (user_data (chan_at chs id))) in *.
    set (chs1 := chan_upd id (set_active false) (calls_chs now calls chs)) in *.
    set (evs1 := evs ++ _) in *.
    assert (Hok1 : rearm_ok now chs1) by (apply fire_rearm_ok; exact Hok).
    destruct (decide (j = id)) as [->|Hne].
    + assert (Hin1 : active (chan_at chs1 id) = false).
      { unfold expired in Hid. apply andb_prop in Hid as [Hact _].
        apply chan_at_active_range in Hact as [H0 Hlen].
        subst chs1. rewrite chan_at_upd_eq; [reflexivity|exact H0|].
        rewrite length_calls_chs. exact Hlen. }
      destruct (sweep_pure_inactive now id ids chs1 evs1 Hin1) as [-> _].
      unfold expired. rewrite Hin1. reflexivity.
    + apply IH; [exact Hok1|exact Hex|].
      apply elem_of_cons in Hj as [?|?]; [contradiction|assumption].
  - destruct (decide (j = id)) as [->|Hne].
    + apply (sweep_pure_not_due now id ids chs evs Hok Hid).
    + apply IH; [exact Hok|exact Hex|].
      apply elem_of_cons in Hj as [?|?]; [contradiction|assumption].
Qed.

Lemma callback_ids_app xs ys : callback_ids (xs ++ ys) = callback_ids xs ++ callback_ids ys.
Proof.
  induction xs as [|[l f a|i d] xs IH]; simpl; [reflexivity|exact IH|].
  rewrite IH. reflexivity.
Qed.

Lemma sweep_pure_order now ids : forall chs evs,
  exists more,
    sw_evs (sweep_pure now ids chs evs) = evs ++ more
    /\ sublist (callback_ids more) ids
    /\ forall i d, EvCallback i d ∈ more ->
         active (chan_at chs i) = true
         /\ d = user_data (chan_at chs i)
         /\ callback (chan_at chs i) <> None.
Proof.
  induction ids as [|id ids IH]; intros chs evs; simpl.
  { exists []. rewrite app_nil_r. split; [reflexivity|]. split; [constructor|].
    intros i d Hin. by apply elem_of_nil in Hin. }
  destruct (expired now (chan_at chs id)) eqn:Hid.
  - destruct (callback (chan_at chs id)) as [f|] eqn:Hcb.
    + set (calls := f id (user_data (chan_at chs id))).
      set (chs1 := chan_upd id (set_active false) (calls_chs now calls chs)).
      destruct (IH chs1 (evs ++ [ev_timeout id; EvCallback id (user_data (chan_at chs id))]))
        as (more & Heq & Hsub & Hargs).
      exists ([ev_timeout id; EvCallback id (user_data (chan_at chs id))] ++ more).
      split; [rewrite Heq, <- app_assoc; reflexivity|].
      split.
      * rewrite callback_ids_app. simpl. apply sublist_skip. exact Hsub.
      * intros i d Hin. apply elem_of_app in Hin as [Hin|Hin].
        -- apply elem_of_cons in Hin as [Hin|Hin]; [discriminate|].
           apply list_elem_of_singleton in Hin. injection Hin as -> ->.
           unfold expired in Hid. apply andb_prop in Hid as [Hact _].
           split; [exact Hact|]. split; [reflexivity|congruence].
        -- destruct (Hargs i d Hin) as (Ha & Hd & Hc).
           destruct (fire_registration now id calls chs i) as (_ & Hc' & Hu' & Ha').
           fold chs1 in Hc', Hu', Ha'.
           split; [auto|]. split; [congruence|congruence].
    + exists [ev_timeout id; ev_fatal id]. split; [reflexivity|].
      split; [simpl; apply sublist_nil_l|].
      intros i d Hin. apply elem_of_cons in Hin as [Hin|Hin]; [discriminate|].
      apply list_elem_of_singleton in Hin. discriminate.
  - destruct (IH chs evs) as (more & Heq & Hsub & Hargs).
    exists more. split; [exact Heq|]. split; [apply sublist_cons; exact Hsub|exact Hargs].
Qed.

Lemma sweep_pure_none_due now ids : forall chs evs,
  (forall j, j ∈ ids -> expired now (chan_at chs j) = false) ->
  sweep_pure now ids chs evs = mk_sweep false chs evs.
Proof.
  induction ids as [|id ids IH]; intros chs evs Hnone; simpl; [reflexivity|].
  rewrite (Hnone id) by apply list_elem_of_here.
  apply IH. intros j Hj. apply Hnone. apply list_elem_of_further. exact Hj.
Qed.

(** ** What a sweep does and does not do *)

(** X1.  With callbacks that call nothing of the watchdog but [z_wdt_feed],
    [z_wdt_process] writes nothing into a slot but [active = false] and,
    through these feeds, a deadline: whichever channels the callbacks feed
    and however the call ends, in return or in [exit], every slot keeps its
    period, its callback and its user data, no slot comes into use, and the
    table keeps its length; the two flags of the context and the mutex are
    as before. *)
Theorem sweep_keeps_registrations (w : world) (j : Z) :
  same_registration (slot w j) (slot (final_world (z_wdt_process w)) j)
  /\ length (table (final_world (z_wdt_process w))) = length (table w)
  /\ initialized (g_watchdog_ctx (final_world (z_wdt_process w)))
     = initialized (g_watchdog_ctx w)
  /\ timer_running (g_watchdog_ctx (final_world (z_wdt_process w)))
     = timer_running (g_watchdog_ctx w)
  /\ watchdog_mutex (final_world (z_wdt_process w)) = watchdog_mutex w.
Proof.
  destruct (z_wdt_process_cases w) as [(w' & Heq & Ht & _ & Hf)|(_ & _ & Ht & _ & Hf)].
  - rewrite Heq. cbn [final_world]. rewrite Ht.
    split; [apply same_registration_refl|]. split; [reflexivity|].
    destruct Hf. auto.
  - rewrite Ht. split; [apply sweep_pure_registration|].
    split; [apply length_sweep_pure|]. destruct Hf. auto.
Qed.

(** X2.  No false alarm within one sweep: in a well-formed world, and with
    callbacks that call nothing of the watchdog but [z_wdt_feed], a channel
    that is not due when [z_wdt_process] is called (not in use, or with its
    deadline still ahead) is not fired by that call, whichever channels the
    callbacks of the due channels feed; it stays in use if it was, and is
    still not due afterwards. *)
Theorem sweep_fires_only_due_channels (w : world) (k : Z) :
  wf_world w = true ->
  due w k = false ->
  fired k (events (final_world (z_wdt_process w))) = fired k (events w)
  /\ active (slot (final_world (z_wdt_process w)) k) = active (slot w k)
  /\ due (final_world (z_wdt_process w)) k = false.
Proof.
  intros Hwf Hk. unfold due in *.
  destruct (z_wdt_process_cases w) as [(w' & Heq & Ht & He & Hf)|(_ & _ & Ht & He & Hf)].
  - rewrite Heq. cbn [final_world]. rewrite Ht, He, (fr_ticks _ _ Hf). auto.
  - rewrite (fr_ticks _ _ Hf), Ht, He.
    destruct (sweep_pure_not_due (ticks_now w) k channel_ids (table w) (events w))
      as (H1 & H2 & H3); [apply wf_world_rearm_ok; exact Hwf|exact Hk|]. auto.
Qed.

(** At 1200 channel 0 of [two_overdue] is due and channel 1, with its
    deadline at 1500, is not. *)
Lemma sweep_fires_only_due_channels_witness :
  fired 1 (events (final_world (z_wdt_process (with_ticks 1200 two_overdue))))
  = fired 1 (events (with_ticks 1200 two_overdue))
  /\ active (slot (final_world (z_wdt_process (with_ticks 1200 two_overdue))) 1)
     = active (slot (with_ticks 1200 two_overdue) 1)
  /\ due (final_world (z_wdt_process (with_ticks 1200 two_overdue))) 1 = false.
Proof. apply (sweep_fires_only_due_channels (with_ticks 1200 two_overdue) 1); run. Defined.

(** X3.  When [z_wdt_process] returns from a sweep, no channel is left due:
    every slot is then either not in use or has its deadline ahead of the
    time of the sweep.  This covers the channels that were due at entry
    (fired and deactivated, or re-armed by the callback of a channel scanned
    earlier) and those a callback fed. *)
Theorem sweep_leaves_no_channel_due (w w' : world) (j : Z) :
  wf_world w = true ->
  initialized (g_watchdog_ctx w) = true ->
  timer_running (g_watchdog_ctx w) = true ->
  z_wdt_process w = Returned tt w' ->
  due w' j = false.
Proof.
  intros Hwf Hi Hr Heq. unfold due.
  destruct (z_wdt_process_returned w w' Hi Hr Heq) as (Hex & Ht & He).
  destruct (z_wdt_process_spec w Hi Hr) as (w2 & Heq2 & Hf & _).
  rewrite Hex, Heq in Heq2. injection Heq2 as ->.
  rewrite (fr_ticks _ _ Hf), Ht.
  destruct (decide (j ∈ channel_ids)) as [Hin|Hout].
  - apply sweep_pure_none_left_due; [apply wf_world_rearm_ok; exact Hwf|exact Hex|exact Hin].
  - unfold expired.
    destruct (active (chan_at _ j)) eqn:Hact; [|reflexivity].
    exfalso. apply Hout. apply chan_at_active_range in Hact as [H0 Hlen].
    rewrite length_sweep_pure, (wf_world_length w Hwf) in Hlen.
    unfold channel_ids. apply elem_of_seqZ. lia.
Qed.

(** In [rescuer] channel 1 is due at entry and fed by the callback of
    channel 0: it ends in use, and not due. *)
Lemma sweep_leaves_no_channel_due_witness :
  active (slot (final_world (z_wdt_process rescuer)) 1) = true
  /\ due (final_world (z_wdt_process rescuer)) 1 = false.
Proof.
  split; [run|].
  apply (sweep_leaves_no_channel_due rescuer (final_world (z_wdt_process rescuer)) 1); run.
Defined.

(** X4.  The callbacks invoked by one call of [z_wdt_process], in the order
    of invocation, belong to channels of increasing index: the invoked ids
    form a sublist of [0; 1; ...; 15], so no channel is invoked twice in a
    sweep.  Each invocation is for a channel that was in use at entry, with
    a callback, and passes the user data registered for it. *)
Theorem sweep_invokes_in_index_order (w : world) :
  exists more,
    events (final_world (z_wdt_process w)) = events w ++ more
    /\ sublist (callback_ids more) channel_ids
    /\ forall i d, EvCallback i d ∈ more ->
         active (slot w i) = true
         /\ d = user_data (slot w i)
         /\ callback (slot w i) <> None.
Proof.
  destruct (z_wdt_process_cases w) as [(w' & Heq & Ht & He & Hf)|(_ & _ & Ht & He & Hf)].
  - exists []. rewrite Heq. cbn [final_world]. rewrite He, app_nil_r.
    split; [reflexivity|]. split; [apply sublist_nil_l|].
    intros i d Hin. by apply elem_of_nil in Hin.
  - rewrite He. apply sweep_pure_order.
Qed.

(** ** Cleanup and initialization *)

Lemma z_wdt_cleanup_uninit w :
  initialized (g_watchdog_ctx w) = false -> z_wdt_cleanup w = Returned tt w.
Proof.
  intros Hi. unfold z_wdt_cleanup, bind, get_initialized. rewrite Hi. reflexivity.
Qed.

Lemma z_wdt_cleanup_init w :
  initialized (g_watchdog_ctx w) = true ->
  watchdog_mutex w = false ->
  z_wdt_cleanup w
  = Returned tt
      (emit (EvLog "INFO" "Watchdog cleaned up" [])
         (with_ctx (set_initialized false) (with_timer_thread false w))).
Proof.
  intros Hi Hm. unfold z_wdt_cleanup, bind, get_initialized, watchdog_os_cleanup,
    pthread_join_timer_thread, put_initialized, watchdog_log, ret.
  rewrite Hi. destruct w as [c t m th ok ev ac]. cbn in Hm. subst m.
  destruct th; reflexivity.
Qed.

Lemma timer_thread_func_stopped lates w :
  timer_thread_running w = false -> timer_thread_func lates w = Returned tt w.
Proof.
  intros Hs. destruct lates as [|late rest]; [reflexivity|].
  simpl. unfold bind. rewrite Hs. reflexivity.
Qed.

(** X5.  [z_wdt_cleanup], called on an initialized context by a thread
    that does not hold the mutex, on a system that started the timer
    thread, returns after clearing [initialized] and stopping the timer
    thread; it logs one line and leaves the table, [timer_running] and the
    mutex as they were.  From then on a second [z_wdt_cleanup],
    [z_wdt_suspend], [z_wdt_resume] and [z_wdt_process] do nothing,
    [z_wdt_add], [z_wdt_delete] and [z_wdt_feed] return -1 without touching
    the context, and the timer thread leaves its loop without another
    round, at whatever time.  (A caller that holds the mutex may wait in
    [pthread_join] for ever: the timer thread it waits for can be waiting
    for that mutex.) *)
Theorem cleanup_shuts_the_watchdog_down (w : world) :
  initialized (g_watchdog_ctx w) = true ->
  watchdog_mutex w = false ->
  thread_create_ok w = true ->
  exists w1,
    z_wdt_cleanup w = Returned tt w1
    /\ initialized (g_watchdog_ctx w1) = false
    /\ timer_thread_running w1 = false
    /\ table w1 = table w
    /\ timer_running (g_watchdog_ctx w1) = timer_running (g_watchdog_ctx w)
    /\ watchdog_mutex w1 = watchdog_mutex w
    /\ events w1 = events w ++ [EvLog "INFO" "Watchdog cleaned up" []]
    /\ z_wdt_cleanup w1 = Returned tt w1
    /\ (forall period cb data,
          exists w', z_wdt_add period cb data w1 = Returned (-1) w'
                     /\ g_watchdog_ctx w' = g_watchdog_ctx w1)
    /\ (forall id,
          exists w', z_wdt_delete id w1 = Returned (-1) w'
                     /\ g_watchdog_ctx w' = g_watchdog_ctx w1)
    /\ (forall id, z_wdt_feed id w1 = Returned (-1) w1)
    /\ z_wdt_suspend w1 = Returned tt w1
    /\ z_wdt_resume w1 = Returned tt w1
    /\ (forall t, z_wdt_process (with_ticks t w1) = Returned tt (with_ticks t w1))
    /\ (forall t lates,
          timer_thread_func lates (with_ticks t w1) = Returned tt (with_ticks t w1)).
Proof.
  intros Hi Hm _. eexists. split; [apply z_wdt_cleanup_init; assumption|].
  set (w1 := emit _ _).
  assert (Hu : initialized (g_watchdog_ctx w1) = false) by reflexivity.
  do 6 (split; [reflexivity|]).
  split; [apply z_wdt_cleanup_uninit; exact Hu|].
  split; [|split; [|split; [|split; [|split; [|split]]]]].
  - intros. eexists. split; [apply z_wdt_add_uninit; exact Hu|reflexivity].
  - intros. eexists. split; [apply z_wdt_delete_uninit; exact Hu|reflexivity].
  - intros. apply z_wdt_feed_uninit. exact Hu.
  - apply z_wdt_suspend_uninit. exact Hu.
  - apply z_wdt_resume_uninit. exact Hu.
  - intros t. apply z_wdt_process_off. exact Hu.
  - intros t lates. apply timer_thread_func_stopped. reflexivity.
Qed.

(** After [z_wdt_cleanup] channel 1 of [two_overdue] is still in the table,
    overdue, and nothing can reach it. *)
Lemma cleanup_shuts_the_watchdog_down_witness :
  exists w1,
    z_wdt_cleanup two_overdue = Returned tt w1
    /\ active (slot w1 1) = true
    /\ z_wdt_feed 1 w1 = Returned (-1) w1
    /\ z_wdt_process (with_ticks 9000 w1) = Returned tt (with_ticks 9000 w1).
Proof.
  destruct (cleanup_shuts_the_watchdog_down two_overdue)
    as (w1 & Heq & _ & _ & Ht & _ & _ & _ & _ & _ & _ & Hfeed & _ & _ & Hproc & _);
    [run|run|run|].
  exists w1. split; [exact Heq|]. split; [rewrite Ht; run|].
  split; [apply Hfeed|apply Hproc].
Defined.

Lemma watchdog_os_init_ok v :
  thread_create_ok v = true -> watchdog_os_init v = Returned 0 (with_timer_thread true v).
Proof.
  intros Hv. unfold watchdog_os_init, bind, ret. cbn. rewrite Hv. reflexivity.
Qed.

Lemma events_note a w : events (note a w) = events w.
Proof. reflexivity. Qed.
Lemma events_with_ctx f w : events (with_ctx f w) = events w.
Proof. reflexivity. Qed.
Lemma events_with_timer_thread b w : events (with_timer_thread b w) = events w.
Proof. reflexivity. Qed.
Lemma events_emit e w : events (emit e w) = events w ++ [e].
Proof. reflexivity. Qed.

Lemma note_all_mutex l w : watchdog_mutex (note_all l w) = watchdog_mutex w.
Proof.
  revert w. induction l as [|a l IH]; intros w; [reflexivity|].
  change (note_all (a :: l) w) with (note_all l (note a w)). rewrite IH. reflexivity.
Qed.

Lemma chan_at_zero_context j : chan_at (channels zero_context) j = zero_channel.
Proof.
  unfold chan_at, zero_context. cbn [channels].
  destruct (j <? 0); [reflexivity|].
  destruct (replicate _ _ !! Z.to_nat j) as [c|] eqn:E; [|reflexivity].
  apply lookup_replicate in E as [-> _]. reflexivity.
Qed.

Lemma z_wdt_init_fresh w :
  initialized (g_watchdog_ctx w) = false ->
  thread_create_ok w = true ->
  exists w',
    z_wdt_init w = Returned 0 w'
    /\ g_watchdog_ctx w'
       = set_timer_running true
           (set_initialized true
              (set_next_timeout_ticks INT64_MAX
                 (set_next_timeout_channel (-1) zero_context)))
    /\ (forall j, slot w' j = zero_channel)
    /\ timer_thread_running w' = true
    /\ events w' = events w ++ [EvLog "INFO" "Watchdog initialized successfully" []]
    /\ watchdog_mutex w' = watchdog_mutex w.
Proof.
  intros Hi Hok.
  pose proof (note_all_mutex (AccTimerRunning :: (AccChannel <$> channel_ids))
                (with_ctx (fun _ => zero_context) w)) as Hmx.
  destruct (note_all_fields (AccTimerRunning :: (AccChannel <$> channel_ids))
              (with_ctx (fun _ => zero_context) w)) as (Hctx & Hok' & Hev & _).
  rewrite ctx_with_ctx in Hctx. rewrite thread_create_ok_with_ctx in Hok'.
  rewrite events_with_ctx in Hev.
  unfold z_wdt_init. step. rewrite Hi. cbv iota.
  step. step. step. step. step.
  erewrite bind_returned;
    [|apply watchdog_os_init_ok;
      rewrite thread_create_ok_note, !thread_create_ok_with_ctx, Hok'; exact Hok].
  eexists. split; [reflexivity|].
  assert (Hc : forall e a f1 f2 f3 f4 v,
             g_watchdog_ctx (emit e (with_timer_thread true
               (note a (with_ctx f1 (with_ctx f2 (with_ctx f3 (with_ctx f4 v)))))))
             = f1 (f2 (f3 (f4 (g_watchdog_ctx v))))) by reflexivity.
  split; [rewrite Hc, Hctx; reflexivity|].
  split; [intros j; rewrite Hc, Hctx; apply chan_at_zero_context|].
  split; [reflexivity|].
  split; [rewrite events_emit, events_with_timer_thread, events_note, !events_with_ctx, Hev;
          reflexivity|].
  assert (Hm : forall e a f1 f2 f3 f4 v,
             watchdog_mutex (emit e (with_timer_thread true
               (note a (with_ctx f1 (with_ctx f2 (with_ctx f3 (with_ctx f4 v)))))))
             = watchdog_mutex v) by reflexivity.
  rewrite Hm, Hmx. reflexivity.
Qed.

(** X6.  [z_wdt_init] on an uninitialized context, when the timer thread
    can be started, returns 0 and leaves a table of 16 unused all-zero
    slots, whatever the storage held (channels left behind by
    [z_wdt_cleanup] are gone), with monitoring on, the hint at
    [(-1, INT64_MAX)] and the timer thread running; any [z_wdt_feed] or
    [z_wdt_delete] right after it returns -1. *)
Theorem init_starts_from_an_empty_table (w : world) :
  initialized (g_watchdog_ctx w) = false ->
  thread_create_ok w = true ->
  exists w',
    z_wdt_init w = Returned 0 w'
    /\ (forall j, slot w' j = zero_channel)
    /\ length (table w') = Z.to_nat WATCHDOG_MAX_CHANNELS
    /\ initialized (g_watchdog_ctx w') = true
    /\ timer_running (g_watchdog_ctx w') = true
    /\ next_timeout_channel (g_watchdog_ctx w') = -1
    /\ next_timeout_ticks (g_watchdog_ctx w') = INT64_MAX
    /\ timer_thread_running w' = true
    /\ watchdog_mutex w' = watchdog_mutex w
    /\ events w' = events w ++ [EvLog "INFO" "Watchdog initialized successfully" []]
    /\ (forall id, exists w'', z_wdt_feed id w' = Returned (-1) w'')
    /\ (forall id, watchdog_mutex w = false ->
                   exists w'', z_wdt_delete id w' = Returned (-1) w'').
Proof.
  intros Hi Hok.
  destruct (z_wdt_init_fresh w Hi Hok) as (w' & Heq & Hc & Hz & Hth & Hev & Hm).
  assert (Hi' : initialized (g_watchdog_ctx w') = true) by (rewrite Hc; reflexivity).
  exists w'. split; [exact Heq|]. split; [exact Hz|].
  split; [rewrite Hc; reflexivity|]. split; [exact Hi'|].
  split; [rewrite Hc; reflexivity|]. split; [rewrite Hc; reflexivity|].
  split; [rewrite Hc; reflexivity|]. split; [exact Hth|]. split; [exact Hm|].
  split; [exact Hev|]. split.
  - intros id. destruct (z_wdt_feed_spec w' id Hi') as (w'' & Heq'' & _).
    exists w''. rewrite Heq''. unfold feedable. rewrite Hz. cbn [active zero_channel].
    rewrite andb_false_r. reflexivity.
  - intros id Hmf. destruct (in_range id) eqn:Hr.
    + eexists. apply z_wdt_delete_inactive; [exact Hi'|exact Hr|congruence|].
      rewrite Hz. reflexivity.
    + eexists. apply z_wdt_delete_bad_id; assumption.
Qed.

(** The channels [z_wdt_cleanup] leaves in the table are gone after the next
    [z_wdt_init]. *)
Lemma init_starts_from_an_empty_table_witness :
  active (slot (after z_wdt_cleanup two_overdue) 0) = true
  /\ exists w',
       z_wdt_init (after z_wdt_cleanup two_overdue) = Returned 0 w'
       /\ slot w' 0 = zero_channel
       /\ timer_running (g_watchdog_ctx w') = true.
Proof.
  split; [run|].
  destruct (init_starts_from_an_empty_table (after z_wdt_cleanup two_overdue))
    as (w' & Heq & Hz & _ & _ & Hr & _); [run|run|].
  exists w'. split; [exact Heq|]. split; [apply Hz|exact Hr].
Defined.

(** X7.  [z_wdt_init] always returns, 0 or -1, and leaves the context
    marked initialized; a second [z_wdt_init] therefore returns 0 and only
    logs a warning, also after a first one that failed. *)
Theorem second_init_is_harmless (w : world) :
  exists r w1,
    z_wdt_init w = Returned r w1
    /\ (r = 0 \/ r = -1)
    /\ initialized (g_watchdog_ctx w1) = true
    /\ z_wdt_init w1
       = Returned 0 (emit (EvLog "WARN" "Watchdog already initialized" []) w1).
Proof.
  destruct (initialized (g_watchdog_ctx w)) eqn:Hi.
  - eexists 0, _. split; [apply z_wdt_init_again; exact Hi|].
    split; [left; reflexivity|]. split; [exact Hi|].
    apply z_wdt_init_again. exact Hi.
  - destruct (thread_create_ok w) eqn:Hok.
    + destruct (z_wdt_init_fresh w Hi Hok) as (w' & Heq & Hc & _).
      exists 0, w'. split; [exact Heq|]. split; [left; reflexivity|].
      assert (Hi' : initialized (g_watchdog_ctx w') = true) by (rewrite Hc; reflexivity).
      split; [exact Hi'|]. apply z_wdt_init_again. exact Hi'.
    + destruct (z_wdt_init_no_thread w Hi Hok) as (w' & Heq & Hc).
      exists (-1), w'. split; [exact Heq|]. split; [right; reflexivity|].
      assert (Hi' : initialized (g_watchdog_ctx w') = true) by (rewrite Hc; reflexivity).
      split; [exact Hi'|]. apply z_wdt_init_again. exact Hi'.
Qed.

(** ** Lock discipline *)

Lemma z_wdt_add_mutex w period cb data :
  watchdog_mutex w = false ->
  exists r w', z_wdt_add period cb data w = Returned r w' /\ watchdog_mutex w' = false.
Proof.
  intros Hm.
  destruct (initialized (g_watchdog_ctx w)) eqn:Hi.
  - destruct (decide (period = 0)) as [->|Hp].
    + eexists _, _. split; [apply z_wdt_add_zero_period; exact Hi|exact Hm].
    + destruct (lowest_free (table w) WATCHDOG_MAX_CHANNELS)
        as [Hall|(id & Hid & Hf & Hlow)]; [unfold WATCHDOG_MAX_CHANNELS; lia| |].
      * destruct (z_wdt_add_full w period cb data Hi Hp Hm) as (w' & Heq & Hrest).
        { intros j Hj. apply elem_of_seqZ in Hj. apply Hall. lia. }
        exists (-1), w'. split; [exact Heq|]. apply Hrest.
      * assert (Hr : in_range id = true) by (unfold in_range; lia).
        destruct (z_wdt_add_free w period cb data id Hi Hp Hm Hr Hlow Hf)
          as (w' & Heq & Hrest).
        exists id, w'. split; [exact Heq|]. apply Hrest.
  - eexists _, _. split; [apply z_wdt_add_uninit; exact Hi|exact Hm].
Qed.

Lemma z_wdt_delete_mutex w id :
  watchdog_mutex w = false ->
  exists r w', z_wdt_delete id w = Returned r w' /\ watchdog_mutex w' = false.
Proof.
  intros Hm.
  destruct (initialized (g_watchdog_ctx w)) eqn:Hi.
  - destruct (in_range id) eqn:Hr.
    + destruct (active (slot w id)) eqn:Ha.
      * destruct (z_wdt_delete_active w id Hi Hr Hm Ha) as (w' & Heq & Hrest).
        exists 0, w'. split; [exact Heq|]. apply Hrest.
      * eexists _, _. split; [apply z_wdt_delete_inactive; assumption|reflexivity].
    + eexists _, _. split; [apply z_wdt_delete_bad_id; assumption|exact Hm].
  - eexists _, _. split; [apply z_wdt_delete_uninit; exact Hi|exact Hm].
Qed.

Lemma z_wdt_feed_frame w id :
  exists r w', z_wdt_feed id w = Returned r w' /\ frame w w' /\ events w' = events w.
Proof.
  destruct (initialized (g_watchdog_ctx w)) eqn:Hi.
  - destruct (z_wdt_feed_spec w id Hi) as (w' & Heq & Hf & He & _).
    eexists _, w'. split; [exact Heq|]. split; assumption.
  - exists (-1), w. split; [apply z_wdt_feed_uninit; exact Hi|].
    split; [apply frame_refl|reflexivity].
Qed.

(** X8.  Called with the mutex free, [z_wdt_add], [z_wdt_delete],
    [z_wdt_suspend] and [z_wdt_resume] return on every one of their paths,
    the early returns of the error cases and the [return] inside the scan
    of [z_wdt_add] included, and with the mutex free again: every
    [watchdog_mutex_lock] they make is followed by a
    [watchdog_mutex_unlock] before they return. *)
Theorem every_lock_is_released (w : world) :
  watchdog_mutex w = false ->
  (forall period cb data,
     exists r w', z_wdt_add period cb data w = Returned r w' /\ watchdog_mutex w' = false)
  /\ (forall id,
        exists r w', z_wdt_delete id w = Returned r w' /\ watchdog_mutex w' = false)
  /\ (exists w', z_wdt_suspend w = Returned tt w' /\ watchdog_mutex w' = false)
  /\ (exists w', z_wdt_resume w = Returned tt w' /\ watchdog_mutex w' = false).
Proof.
  intros Hm. split; [|split; [|split]].
  - intros. apply z_wdt_add_mutex. exact Hm.
  - intros. apply z_wdt_delete_mutex. exact Hm.
  - destruct (initialized (g_watchdog_ctx w)) eqn:Hi.
    + eexists. split; [apply z_wdt_suspend_init; assumption|reflexivity].
    + eexists. split; [apply z_wdt_suspend_uninit; exact Hi|exact Hm].
  - destruct (initialized (g_watchdog_ctx w)) eqn:Hi.
    + destruct (z_wdt_resume_init w Hi Hm) as (w' & Heq & Hrest).
      exists w'. split; [exact Heq|]. apply Hrest.
    + eexists. split; [apply z_wdt_resume_uninit; exact Hi|exact Hm].
Qed.

Lemma every_lock_is_released_witness :
  exists r w', z_wdt_add 500 None 0 two_overdue = Returned r w' /\ watchdog_mutex w' = false.
Proof.
  destruct (every_lock_is_released two_overdue) as (Hadd & _); [run|].
  apply Hadd.
Defined.

(** X9.  With the mutex already held by the calling thread (the situation
    of a callback, which the timer thread runs under the mutex),
    [z_wdt_add] with a non-zero period, [z_wdt_delete] with an id in range,
    [z_wdt_suspend], [z_wdt_resume] and a round of the timer thread never
    return and change nothing: they wait for the mutex their own thread
    holds, [pthread_mutex_lock] on the default mutex of [watchdog_os.c]
    being non-recursive.  [z_wdt_feed] returns, with the mutex still
    held. *)
Theorem relocking_never_returns (w : world) :
  watchdog_mutex w = true ->
  initialized (g_watchdog_ctx w) = true ->
  (forall period cb data, period <> 0 -> z_wdt_add period cb data w = Deadlocked w)
  /\ (forall id, in_range id = true -> z_wdt_delete id w = Deadlocked w)
  /\ z_wdt_suspend w = Deadlocked w
  /\ z_wdt_resume w = Deadlocked w
  /\ timer_thread_round w = Deadlocked w
  /\ (forall id, exists r w', z_wdt_feed id w = Returned r w' /\ watchdog_mutex w' = true).
Proof.
  intros Hm Hi. split; [|split; [|split; [|split; [|split]]]].
  - intros period cb data Hp.
    unfold z_wdt_add, bind, get_initialized, watchdog_mutex_lock. rewrite Hi. cbn.
    destruct (period =? 0) eqn:E; [lia|]. rewrite Hm. reflexivity.
  - intros id Hr. unfold in_range in Hr.
    unfold z_wdt_delete, bind, get_initialized, watchdog_mutex_lock. rewrite Hi. cbn.
    replace (id <? 0) with false by lia.
    replace (id >=? WATCHDOG_MAX_CHANNELS) with false by lia.
    cbn. rewrite Hm. reflexivity.
  - unfold z_wdt_suspend, bind, get_initialized, watchdog_mutex_lock.
    rewrite Hi. cbn. rewrite Hm. reflexivity.
  - unfold z_wdt_resume, bind, get_initialized, watchdog_mutex_lock.
    rewrite Hi. cbn. rewrite Hm. reflexivity.
  - unfold timer_thread_round, bind, watchdog_mutex_lock. rewrite Hm. reflexivity.
  - intros id. destruct (z_wdt_feed_frame w id) as (r & w' & Heq & Hf & _).
    exists r, w'. split; [exact Heq|]. rewrite (fr_mutex _ _ Hf). exact Hm.
Qed.

Lemma relocking_never_returns_witness :
  z_wdt_delete 0 (with_mutex true two_overdue) = Deadlocked (with_mutex true two_overdue).
Proof.
  destruct (relocking_never_returns (with_mutex true two_overdue)) as (_ & Hdel & _);
    [run|run|].
  apply Hdel. run.
Defined.

(** ** Operations on one channel and the other channels *)

(** X10.  [z_wdt_feed] and [z_wdt_delete] touch no slot but their own:
    every other slot is after the call what it was before, whether the call
    succeeds or fails. *)
Theorem feed_and_delete_are_local (w : world) (id j : Z) :
  j <> id ->
  slot (final_world (z_wdt_feed id w)) j = slot w j
  /\ (watchdog_mutex w = false -> slot (final_world (z_wdt_delete id w)) j = slot w j).
Proof.
  intros Hne. split.
  - destruct (initialized (g_watchdog_ctx w)) eqn:Hi.
    + destruct (z_wdt_feed_spec w id Hi) as (w' & Heq & _ & _ & Ht).
      rewrite Heq. cbn [final_world]. rewrite Ht, chan_at_feed_chs.
      destruct (id =? j) eqn:E; [lia|reflexivity].
    + rewrite (z_wdt_feed_uninit w id Hi). reflexivity.
  - intros Hm.
    destruct (initialized (g_watchdog_ctx w)) eqn:Hi.
    + destruct (in_range id) eqn:Hr.
      * destruct (active (slot w id)) eqn:Ha.
        -- destruct (z_wdt_delete_active w id Hi Hr Hm Ha) as (w' & Heq & Ht & _).
           rewrite Heq. cbn [final_world]. rewrite Ht. apply chan_at_upd_ne. lia.
        -- rewrite (z_wdt_delete_inactive w id Hi Hr Hm Ha). reflexivity.
      * rewrite (z_wdt_delete_bad_id w id Hi Hr). reflexivity.
    + rewrite (z_wdt_delete_uninit w id Hi). reflexivity.
Qed.

Lemma feed_and_delete_are_local_witness :
  slot (final_world (z_wdt_feed 0 two_overdue)) 1 = slot two_overdue 1.
Proof.
  destruct (feed_and_delete_are_local two_overdue 0 1) as [Hfeed _]; [lia|].
  exact Hfeed.
Defined.

(** ** Reuse of a slot *)

(** X11.  A slot freed by [z_wdt_delete] is handed out again: the next
    [z_wdt_add] with a non-zero period succeeds with an id not above the
    deleted one, exactly the deleted one when all slots below it are in
    use, and the slot of the new channel holds the new period, the deadline
    [now + period], the new user data and callback, and nothing of the
    deleted channel. *)
Theorem deleted_slot_is_reused (w : world) (id period : Z)
  (cb : option watchdog_callback_t) (data : Z) :
  initialized (g_watchdog_ctx w) = true ->
  watchdog_mutex w = false ->
  in_range id = true ->
  active (slot w id) = true ->
  period <> 0 ->
  exists w1 r w2,
    z_wdt_delete id w = Returned 0 w1
    /\ z_wdt_add period cb data w1 = Returned r w2
    /\ 0 <= r <= id
    /\ slot w2 r = mk_channel period (i64_add (ticks_now w) period) data cb true
    /\ ((forall j, 0 <= j < id -> active (slot w j) = true) -> r = id).
Proof.
  intros Hi Hm Hr Ha Hp.
  destruct (z_wdt_delete_active w id Hi Hr Hm Ha)
    as (w1 & Heq1 & Ht1 & _ & Hi1 & _ & Hm1 & Hk1 & _).
  assert (Hid : 0 <= id < WATCHDOG_MAX_CHANNELS) by (unfold in_range in Hr; lia).
  assert (Hslot1 : forall j, slot w1 j = if j =? id
                     then mk_channel 0 (timeout_abs_ticks (slot w id)) 0 None false
                     else slot w j).
  { intros j. rewrite Ht1. apply chan_at_deleted. exact Ha. }
  destruct (lowest_free (table w1) (id + 1)) as [Hall|(r & Hrr & Hf & Hlow)]; [lia| |].
  { specialize (Hall id ltac:(lia)). rewrite Hslot1, Z.eqb_refl in Hall. discriminate. }
  assert (Hr' : in_range r = true) by (unfold in_range; lia).
  destruct (z_wdt_add_free w1 period cb data r Hi1 Hp Hm1 Hr' Hlow Hf)
    as (w2 & Heq2 & Ht2 & _).
  exists w1, r, w2. split; [exact Heq1|]. split; [exact Heq2|]. split; [lia|].
  split.
  - rewrite Ht2, chan_at_added, Z.eqb_refl, Hk1; [reflexivity|exact Hr'|].
    rewrite Ht1, length_chan_upd.
    apply chan_at_active_range in Ha as [_ Hlen]. lia.
  - intros Hbelow. destruct (decide (r = id)) as [->|Hne]; [reflexivity|].
    exfalso. rewrite Hslot1 in Hf. destruct (r =? id) eqn:E; [lia|].
    rewrite Hbelow in Hf by lia. discriminate.
Qed.

Lemma deleted_slot_is_reused_witness :
  exists w1 r w2,
    z_wdt_delete 0 two_overdue = Returned 0 w1
    /\ z_wdt_add 700 None 9 w1 = Returned r w2
    /\ 0 <= r <= 0
    /\ slot w2 r = mk_channel 700 (i64_add (ticks_now two_overdue) 700) 9 None true.
Proof.
  destruct (deleted_slot_is_reused two_overdue 0 700 None 9)
    as (w1 & r & w2 & H1 & H2 & H3 & H4 & _); [run|run|run|run|lia|].
  exists w1, r, w2. split; [exact H1|]. split; [exact H2|]. split; [exact H3|exact H4].
Defined.

(** ** The timer thread and a slot not in use *)

Lemma timer_thread_round_inactive w k :
  active (slot w k) = false ->
  slot (final_world (timer_thread_round w)) k = slot w k
  /\ fired k (events (final_world (timer_thread_round w))) = fired k (events w).
Proof.
  intros Hin. unfold timer_thread_round, bind, watchdog_mutex_lock, watchdog_mutex_unlock.
  destruct (watchdog_mutex w); [split; reflexivity|].
  destruct (z_wdt_process_inactive (with_mutex true w) k Hin) as [Hs Hf].
  destruct (z_wdt_process (with_mutex true w)) as [[] w1|s w1|w1]; split; assumption.
Qed.

(** One turn of the loop of the timer thread. *)
Lemma timer_thread_func_cons late rest w :
  timer_thread_func (late :: rest) w
  = if timer_thread_running w then
      match timer_thread_round w with
      | Returned _ w1 => timer_thread_func rest (with_ticks (ticks_now w1 + 100 + late) w1)
      | Exited s w1 => Exited s w1
      | Deadlocked w1 => Deadlocked w1
      end
    else Returned tt w.
Proof.
  simpl. unfold bind, usleep. destruct (timer_thread_running w); [|reflexivity].
  destruct (timer_thread_round w); reflexivity.
Qed.

Lemma timer_thread_func_inactive k lates : forall w,
  active (slot w k) = false ->
  slot (final_world (timer_thread_func lates w)) k = slot w k
  /\ fired k (events (final_world (timer_thread_func lates w))) = fired k (events w).
Proof.
  induction lates as [|late rest IH]; intros w Hin; [split; reflexivity|].
  rewrite timer_thread_func_cons.
  destruct (timer_thread_running w); [|split; reflexivity].
  destruct (timer_thread_round_inactive w k Hin) as [Hs Hf].
  destruct (timer_thread_round w) as [[] w1|s w1|w1]; [|split; assumption|split; assumption].
  cbn [final_world] in Hs, Hf.
  destruct (IH (with_ticks (ticks_now w1 + 100 + late) w1)) as [Hs2 Hf2].
  { cbn. rewrite Hs. exact Hin. }
  cbn in Hs2, Hf2. split; [rewrite Hs2; exact Hs|rewrite Hf2; exact Hf].
Qed.

(** X12.  [z_wdt_delete] cancels a pending expiry: after a successful
    delete the timer thread, however long it runs and whatever the time,
    never invokes the callback of the deleted channel, even if the deadline
    had already passed, and the slot stays out of use. *)
Theorem delete_cancels_a_pending_expiry (w : world) (id : Z) :
  initialized (g_watchdog_ctx w) = true ->
  watchdog_mutex w = false ->
  in_range id = true ->
  active (slot w id) = true ->
  exists w1,
    z_wdt_delete id w = Returned 0 w1
    /\ forall t lates,
         fired id (events (final_world (timer_thread_func lates (with_ticks t w1))))
         = fired id (events w)
         /\ active (slot (final_world (timer_thread_func lates (with_ticks t w1))) id)
            = false.
Proof.
  intros Hi Hm Hr Ha.
  destruct (z_wdt_delete_active w id Hi Hr Hm Ha) as (w1 & Heq1 & Ht1 & He1 & _).
  exists w1. split; [exact Heq1|]. intros t lates.
  assert (Hin : active (slot (with_ticks t w1) id) = false).
  { cbn. rewrite Ht1, chan_at_deleted, Z.eqb_refl by exact Ha. reflexivity. }
  destruct (timer_thread_func_inactive id lates _ Hin) as [Hs Hf].
  split; [|rewrite Hs; exact Hin].
  rewrite Hf. cbn. rewrite He1, fired_app. simpl. apply app_nil_r.
Qed.

(** Channel 1 of [two_overdue] is deleted when it is already due. *)
Lemma delete_cancels_a_pending_expiry_witness :
  due two_overdue 1 = true
  /\ exists w1,
       z_wdt_delete 1 two_overdue = Returned 0 w1
       /\ fired 1 (events (final_world (timer_thread_func [0; 0; 0] (with_ticks 2000 w1))))
          = fired 1 (events two_overdue).
Proof.
  split; [run|].
  destruct (delete_cancels_a_pending_expiry two_overdue 1) as (w1 & Heq & Hnever);
    [run|run|run|run|].
  exists w1. split; [exact Heq|]. apply Hnever.
Defined.

(** ** The timed tests of [watchdog_test.c], run on the model *)

Example test_timeout_functionality_passes :
  exists w,
    (test_basic_functionality ;; test_timeout_functionality) boot
    = Returned ([0; 0; -1], [100]) w.
Proof. eexists. run. Qed.

Example test_suspend_resume_passes :
  exists w,
    (test_basic_functionality ;; test_suspend_resume) boot
    = Returned ([0; 0; 0; -1], [], [100]) w.
Proof. eexists. run. Qed.

(** ** Resume, then a sweep *)

(** X13.  [z_wdt_resume] gives every channel in use a full period from the
    time of the call: a sweep at any time [t] before [now + period] of every
    such channel returns without firing or changing anything, however long
    the deadlines had passed before the resume. *)
Theorem resume_gives_a_full_period (w : world) (t : Z) :
  wf_world w = true ->
  initialized (g_watchdog_ctx w) = true ->
  watchdog_mutex w = false ->
  within_periods t w = true ->
  exists w1 w2,
    z_wdt_resume w = Returned tt w1
    /\ timer_running (g_watchdog_ctx w1) = true
    /\ z_wdt_process (with_ticks t w1) = Returned tt w2
    /\ table w2 = table w1
    /\ events w2 = events w1.
Proof.
  intros Hwf Hi Hm Hin.
  destruct (z_wdt_resume_init w Hi Hm) as (w1 & Heq & Ht & _ & Hi1 & Hr1 & _ & Hk1).
  set (v := with_ticks t w1).
  destruct (z_wdt_process_spec v Hi1 Hr1) as (w2 & Heq2 & _ & Ht2 & He2).
  assert (Hnone : sweep_pure (ticks_now v) channel_ids (table v) (events v)
                  = mk_sweep false (table v) (events v)).
  { apply sweep_pure_none_due. intros j Hj. cbn. rewrite Ht, chan_at_calls_chs.
    rewrite feeds_channel_ids. unfold feedable.
    assert (Hrange : in_range j = true).
    { apply elem_of_seqZ in Hj. unfold in_range. lia. }
    rewrite Hrange. unfold in_range in Hrange. rewrite Hrange. cbn [andb].
    destruct (active (slot w j)) eqn:Hact.
    - apply expired_false. simpl. rewrite (wf_world_deadline w j Hwf Hact).
      unfold within_periods in Hin. rewrite forallb_forall in Hin.
      specialize (Hin j). rewrite <- list_elem_of_In in Hin. specialize (Hin Hj).
      rewrite Hact in Hin. cbn in Hin. lia.
    - unfold expired. rewrite Hact. reflexivity. }
  rewrite Hnone in Heq2, Ht2, He2. cbn [sw_exited sw_chs sw_evs] in Heq2, Ht2, He2.
  exists w1, w2. split; [exact Heq|]. split; [exact Hr1|]. split; [exact Heq2|].
  split; [exact Ht2|exact He2].
Qed.

(** Both channels of [two_overdue] have been overdue for 3 s at the resume
    at 5000; a sweep 900 ms later fires nothing. *)
Lemma resume_gives_a_full_period_witness :
  exists w1 w2,
    z_wdt_resume (with_ticks 5000 (after z_wdt_suspend two_overdue)) = Returned tt w1
    /\ timer_running (g_watchdog_ctx w1) = true
    /\ z_wdt_process (with_ticks 5900 w1) = Returned tt w2
    /\ table w2 = table w1
    /\ events w2 = events w1.
Proof.
  apply (resume_gives_a_full_period (with_ticks 5000 (after z_wdt_suspend two_overdue)) 5900);
    run.
Defined.

(** ** The timer thread and an unfed channel *)

Lemma timer_thread_round_spec w :
  watchdog_mutex w = false ->
  initialized (g_watchdog_ctx w) = true ->
  timer_running (g_watchdog_ctx w) = true ->
  exists w1,
    timer_thread_round w
    = (if sw_exited (sweep_pure (ticks_now w) channel_ids (table w) (events w))
       then Exited 1 w1 else Returned tt w1)
    /\ table w1 = sw_chs (sweep_pure (ticks_now w) channel_ids (table w) (events w))
    /\ events w1 = sw_evs (sweep_pure (ticks_now w) channel_ids (table w) (events w))
    /\ ticks_now w1 = ticks_now w
    /\ initialized (g_watchdog_ctx w1) = true
    /\ timer_running (g_watchdog_ctx w1) = true
    /\ timer_thread_running w1 = timer_thread_running w
    /\ (sw_exited (sweep_pure (ticks_now w) channel_ids (table w) (events w)) = false ->
        watchdog_mutex w1 = false).
Proof.
  intros Hm Hi Hr.
  unfold timer_thread_round, bind, watchdog_mutex_lock, watchdog_mutex_unlock.
  rewrite Hm.
  destruct (z_wdt_process_spec (with_mutex true w) Hi Hr) as (w1 & Heq & Hf & Ht & He).
  change (ticks_now (with_mutex true w)) with (ticks_now w) in Heq, Ht, He.
  change (g_watchdog_ctx (with_mutex true w)) with (g_watchdog_ctx w) in Heq, Ht, He.
  change (events (with_mutex true w)) with (events w) in Heq, Ht, He.
  rewrite Heq. destruct Hf as [Hft _ Hfth _ Hfi Hfr _ _].
  destruct (sw_exited _).
  - exists w1. split; [reflexivity|].
    split; [exact Ht|]. split; [exact He|]. split; [exact Hft|].
    split; [rewrite Hfi; exact Hi|]. split; [rewrite Hfr; exact Hr|].
    split; [exact Hfth|]. intros [=].
  - exists (with_mutex false w1). split; [reflexivity|].
    split; [exact Ht|]. split; [exact He|]. split; [exact Hft|].
    split; [cbn; rewrite Hfi; exact Hi|]. split; [cbn; rewrite Hfr; exact Hr|].
    split; [exact Hfth|]. reflexivity.
Qed.

Lemma left_alone_spec k w :
  left_alone k w = true ->
  forall j, j ∈ channel_ids -> active (slot w j) = true ->
    callback (slot w j) <> None
    /\ (j <> k -> forall g, callback (slot w j) = Some g ->
                  feeds k (g j (user_data (slot w j))) = false).
Proof.
  intros H j Hj Hact. unfold left_alone in H. rewrite forallb_forall in H.
  specialize (H j). rewrite <- list_elem_of_In in H. specialize (H Hj).
  rewrite Hact in H. cbn in H. apply andb_prop in H as [Hcb Hsp].
  unfold has_callback in Hcb. unfold spares in Hsp.
  destruct (callback (slot w j)) as [g|]; [|discriminate].
  split; [discriminate|]. intros Hne g' [= <-].
  destruct (j =? k) eqn:E; [lia|]. cbn in Hsp.
  destruct (feeds k _); [discriminate|reflexivity].
Qed.

Lemma left_alone_kept k w w' :
  (forall j, same_registration (slot w j) (slot w' j)) ->
  left_alone k w = true -> left_alone k w' = true.
Proof.
  intros Hreg H. unfold left_alone in *. rewrite forallb_forall in *.
  intros j Hj. specialize (H j Hj). destruct (Hreg j) as (_ & Hc & Hu & Ha).
  destruct (active (slot w' j)) eqn:Hact'; [|reflexivity].
  rewrite (Ha eq_refl) in H. cbn in H |- *.
  unfold has_callback, spares in *. rewrite Hc, Hu. exact H.
Qed.

Lemma expired_active now c : expired now c = true -> active c = true.
Proof. unfold expired. intros H. apply andb_prop in H as [H _]. exact H. Qed.

Lemma steady_round k w t :
  steady k w -> clock_ok (ticks_now w) = true ->
  exists w1,
    timer_thread_round w = Returned tt w1
    /\ steady k (with_ticks t w1)
    /\ ticks_now w1 = ticks_now w
    /\ table w1 = sw_chs (sweep_pure (ticks_now w) channel_ids (table w) (events w))
    /\ events w1 = sw_evs (sweep_pure (ticks_now w) channel_ids (table w) (events w)).
Proof.
  intros (Hwt & Hi & Hr & Hth & Hm & Hla) Hck.
  assert (Hwf : wf_world w = true) by (apply wf_world_iff; split; assumption).
  pose proof (wf_world_rearm_ok w Hwf) as Hok.
  destruct (timer_thread_round_spec w Hm Hi Hr)
    as (w1 & Heq & Ht & He & Hk & Hi1 & Hr1 & Hth1 & Hm1).
  assert (Hex : sw_exited (sweep_pure (ticks_now w) channel_ids (table w) (events w)) = false).
  { apply sweep_pure_no_exit; [exact Hok|]. intros j Hj Hdue.
    apply (left_alone_spec k w Hla j Hj). apply (expired_active _ _ Hdue). }
  rewrite Hex in Heq. exists w1. split; [exact Heq|].
  split; [|split; [exact Hk|split; assumption]].
  split; [cbn; rewrite Ht; apply wf_table_sweep_pure; exact Hwt|].
  split; [exact Hi1|]. split; [exact Hr1|]. split; [cbn; congruence|].
  split; [apply Hm1; exact Hex|].
  apply (left_alone_kept k w); [|exact Hla].
  intros j. cbn. rewrite Ht. apply sweep_pure_registration.
Qed.

Lemma forallb_cons_true {A} (f : A -> bool) x xs :
  forallb f (x :: xs) = true -> f x = true /\ forallb f xs = true.
Proof. simpl. intros H. apply andb_prop in H. exact H. Qed.

Lemma timer_thread_func_returns k lates : forall w,
  steady k w ->
  forallb clock_ok (round_times (ticks_now w) lates) = true ->
  exists w', timer_thread_func lates w = Returned tt w'.
Proof.
  induction lates as [|late rest IH]; intros w Hst Hck; [eexists; reflexivity|].
  simpl round_times in Hck. apply forallb_cons_true in Hck as [Hnow Hrest].
  rewrite timer_thread_func_cons.
  pose proof Hst as (_ & _ & _ & Hth & _). rewrite Hth.
  destruct (steady_round k w (ticks_now w + 100 + late) Hst Hnow)
    as (w1 & Heq & Hst1 & Hk1 & _).
  rewrite Heq, Hk1. apply IH; [exact Hst1|exact Hrest].
Qed.

(** X14.  The timer thread fires an unfed channel once, and on time.
    Channel [k] is in use with a callback, every channel in use has a
    callback, the callbacks call nothing of the watchdog but [z_wdt_feed]
    and none but [k]'s own feeds [k]; no other thread acts, and the thread
    runs its rounds at the clock values [round_times], 100 ms plus the
    lateness of each sleep apart.  Then the thread returns from these
    rounds, and the callback of [k] has been invoked, once and with the
    registered user data, exactly if one of the rounds ran at or after the
    deadline; the slot is out of use exactly in that case.  As this holds
    for every number of rounds, the invocation is in the first round at or
    after the deadline. *)
Theorem timer_thread_fires_once_on_time (w : world) (k : Z) (f : watchdog_callback_t)
  (lates : list Z) :
  wf_world w = true ->
  initialized (g_watchdog_ctx w) = true ->
  timer_running (g_watchdog_ctx w) = true ->
  timer_thread_running w = true ->
  watchdog_mutex w = false ->
  active (slot w k) = true ->
  callback (slot w k) = Some f ->
  left_alone k w = true ->
  forallb clock_ok (round_times (ticks_now w) lates) = true ->
  exists w',
    timer_thread_func lates w = Returned tt w'
    /\ fired k (events w')
       = fired k (events w)
         ++ (if existsb (Z.leb (timeout_abs_ticks (slot w k))) (round_times (ticks_now w) lates)
             then [user_data (slot w k)] else [])
    /\ active (slot w' k)
       = negb (existsb (Z.leb (timeout_abs_ticks (slot w k))) (round_times (ticks_now w) lates)).
Proof.
  intros Hwf Hi Hr Hth Hm Hact Hcb Hla Hck.
  assert (Hst : steady k w).
  { apply wf_world_iff in Hwf as [Hwt _]. unfold steady. auto 10. }
  clear Hwf Hi Hr Hth Hm Hla.
  revert w Hst Hact Hcb Hck.
  induction lates as [|late rest IH]; intros w Hst Hact Hcb Hck.
  { exists w. split; [reflexivity|]. simpl. rewrite app_nil_r. split; [reflexivity|exact Hact]. }
  simpl round_times in Hck |- *. apply forallb_cons_true in Hck as [Hnow Hrest].
  rewrite timer_thread_func_cons.
  pose proof Hst as (Hwt & _ & _ & Hth & _ & Hla). rewrite Hth.
  assert (Hwf : wf_world w = true) by (apply wf_world_iff; split; assumption).
  pose proof (wf_world_rearm_ok w Hwf) as Hok.
  assert (Hk : 0 <= k < WATCHDOG_MAX_CHANNELS).
  { pose proof (chan_at_active_range _ _ Hact) as [H0 Hlen].
    rewrite (wf_world_length w Hwf) in Hlen. lia. }
  destruct (steady_round k w (ticks_now w + 100 + late) Hst Hnow)
    as (w1 & Heq & Hst1 & Hk1 & Ht1 & He1).
  rewrite Heq, Hk1. set (v := with_ticks (ticks_now w + 100 + late) w1) in *.
  assert (Hothers : forall (ids : list Z) j g, (forall i, i ∈ ids -> i ∈ channel_ids /\ i <> k) ->
            j ∈ ids -> expired (ticks_now w) (slot w j) = true ->
            callback (slot w j) = Some g ->
            feeds k (g j (user_data (slot w j))) = false).
  { intros ids j g Hids Hj Hdue Hg. destruct (Hids j Hj) as [Hjc Hne].
    apply (left_alone_spec k w Hla j Hjc (expired_active _ _ Hdue)); assumption. }
  simpl existsb.
  destruct (timeout_abs_ticks (slot w k) <=? ticks_now w) eqn:Hdue; cbn [orb negb].
  - (* the round at [ticks_now w] fires channel [k] *)
    assert (Hexp : expired (ticks_now w) (slot w k) = true)
      by (apply expired_true; [exact Hact|lia]).
    destruct (sweep_pure_fires (ticks_now w) k f (table w) (events w) Hok Hk Hexp Hcb)
      as [Hs Hf].
    + intros j g Hj. apply (Hothers (seqZ 0 k)); [|exact Hj].
      intros i Hi. apply elem_of_seqZ in Hi. split; [|lia].
      unfold channel_ids. apply elem_of_seqZ. lia.
    + apply sweep_pure_no_exit; [exact Hok|]. intros j Hj Hd.
      apply (left_alone_spec k w Hla j); [|apply (expired_active _ _ Hd)].
      apply elem_of_seqZ in Hj. unfold channel_ids. apply elem_of_seqZ. lia.
    + assert (Hin : active (slot v k) = false).
      { subst v. cbn. rewrite Ht1, Hs. reflexivity. }
      destruct (timer_thread_func_returns k rest v Hst1 Hrest) as (w' & Heq').
      destruct (timer_thread_func_inactive k rest v Hin) as [Hs' Hf'].
      rewrite Heq' in Hs', Hf'. cbn [final_world] in Hs', Hf'.
      exists w'. split; [exact Heq'|]. split.
      * rewrite Hf'. subst v. cbn. rewrite He1. exact Hf.
      * rewrite Hs'. exact Hin.
  - (* channel [k] is not due yet *)
    assert (Hexp : expired (ticks_now w) (slot w k) = false)
      by (apply expired_false; lia).
    destruct (sweep_pure_live (ticks_now w) k channel_ids (table w) (events w) Hok)
      as (Hs & Hf & _).
    + intros _. exact Hexp.
    + intros j g Hj Hd Hg.
      apply (left_alone_spec k w Hla j Hj (expired_active _ _ Hd)); [|exact Hg].
      intros ->. congruence.
    + assert (Hsv : slot v k = slot w k) by (subst v; cbn; rewrite Ht1; exact Hs).
      destruct (IH v Hst1) as (w' & Heq' & Hf' & Ha').
      * rewrite Hsv. exact Hact.
      * rewrite Hsv. exact Hcb.
      * exact Hrest.
      * exists w'. split; [exact Heq'|].
        rewrite Hsv in Hf', Ha'.
        split; [|exact Ha'].
        rewrite Hf'. subst v. cbn [events with_ticks ticks_now]. rewrite He1, Hf. reflexivity.
Qed.

(** Five rounds from 800 on, 100 ms apart, over [two_overdue]: channel 0,
    of period 1000 and added at 0, is fired in the round at 1000; the
    callback of channel 1 feeds channel 1 only. *)
Lemma timer_thread_fires_once_on_time_witness :
  exists w',
    timer_thread_func (replicate 5 0) (with_ticks 800 two_overdue) = Returned tt w'
    /\ fired 0 (events w') = [5]
    /\ active (slot w' 0) = false.
Proof.
  destruct (timer_thread_fires_once_on_time (with_ticks 800 two_overdue) 0 cb_mark
              (replicate 5 0))
    as (w' & Heq & Hf & Ha); [run|run|run|run|run|run|run|run|run|].
  exists w'. split; [exact Heq|]. split; [exact Hf|exact Ha].
Defined.

(** ** The scheduling hint, computed and kept *)

Lemma seqZ_snoc (n : nat) : seqZ 0 (Z.of_nat (S n)) = seqZ 0 (Z.of_nat n) ++ [Z.of_nat n].
Proof.
  replace (Z.of_nat (S n)) with (Z.of_nat n + 1) by lia.
  rewrite seqZ_app by lia. f_equal.
Qed.

Lemma next_step_earliest chs (n : nat) :
  earliest_below chs (Z.of_nat n)
    (fold_left (next_step chs) (seqZ 0 (Z.of_nat n)) (-1, INT64_MAX)).
Proof.
  induction n as [|n IH].
  - left. split; [reflexivity|]. intros j Hj. lia.
  - rewrite seqZ_snoc, fold_left_app. simpl fold_left.
    set (s := fold_left (next_step chs) (seqZ 0 (Z.of_nat n)) (-1, INT64_MAX)) in *.
    set (m := Z.of_nat n) in *.
    unfold next_step.
    destruct (active (chan_at chs m)) eqn:Hact; cbn [andb].
    + destruct (timeout_abs_ticks (chan_at chs m) <? snd s) eqn:Hlt.
      * right. cbn [fst snd]. split; [lia|]. split; [exact Hact|]. split; [reflexivity|].
        destruct IH as [[-> Hnone]|(Hr & Ha & Hs & Hm & Hall)].
        -- cbn [snd] in Hlt. split; [lia|]. intros j Hj Hja.
           destruct (decide (j = m)) as [->|Hne]; [lia|].
           specialize (Hnone j ltac:(lia) Hja). lia.
        -- split; [lia|]. intros j Hj Hja.
           destruct (decide (j = m)) as [->|Hne]; [lia|].
           destruct (Hall j ltac:(lia) Hja). lia.
      * destruct IH as [[-> Hnone]|(Hr & Ha & Hs & Hm & Hall)].
        -- left. split; [reflexivity|]. cbn [snd] in Hlt. intros j Hj Hja.
           destruct (decide (j = m)) as [->|Hne]; [lia|].
           apply Hnone; [lia|exact Hja].
        -- right. split; [lia|]. split; [exact Ha|]. split; [exact Hs|]. split; [exact Hm|].
           intros j Hj Hja.
           destruct (decide (j = m)) as [->|Hne]; [lia|].
           apply Hall; [lia|exact Hja].
    + destruct IH as [[-> Hnone]|(Hr & Ha & Hs & Hm & Hall)].
      * left. split; [reflexivity|]. intros j Hj Hja.
        destruct (decide (j = m)) as [->|Hne]; [congruence|].
        apply Hnone; [lia|exact Hja].
      * right. split; [lia|]. split; [exact Ha|]. split; [exact Hs|]. split; [exact Hm|].
        intros j Hj Hja.
        destruct (decide (j = m)) as [->|Hne]; [congruence|].
        apply Hall; [lia|exact Hja].
Qed.

Lemma get_next_loop ids : forall w s,
  exists w',
    for_each ids
      (fun id '(next_channel, next_timeout) =>
         ch <- chan_get id ;;
         if active ch && (timeout_abs_ticks ch <? next_timeout)
         then ret (id, timeout_abs_ticks ch)
         else ret (next_channel, next_timeout)) s w
    = Returned (fold_left (next_step (table w)) ids s) w'
    /\ g_watchdog_ctx w' = g_watchdog_ctx w.
Proof.
  induction ids as [|id ids IH]; intros w s.
  - exists w. split; reflexivity.
  - destruct s as [nc nt].
    destruct (IH (note (AccChannel id) w) (next_step (table w) (nc, nt) id))
      as (w' & Heq & Hc).
    exists w'. split; [|exact Hc].
    change (table (note (AccChannel id) w)) with (table w) in Heq.
    simpl fold_left. rewrite <- Heq.
    simpl for_each. unfold bind at 1. unfold bind at 1. unfold chan_get at 1.
    unfold next_step. cbn [snd].
    destruct (active (slot w id) && (timeout_abs_ticks (slot w id) <? nt)); reflexivity.
Qed.

Lemma watchdog_get_next_timeout_channel_spec w :
  exists w',
    watchdog_get_next_timeout_channel w
    = Returned (fst (fold_left (next_step (table w)) channel_ids (-1, INT64_MAX))) w'
    /\ g_watchdog_ctx w' = g_watchdog_ctx w.
Proof.
  unfold watchdog_get_next_timeout_channel.
  destruct (get_next_loop channel_ids w (-1, INT64_MAX)) as (w' & Heq & Hc).
  exists w'. split; [|exact Hc]. rewrite (bind_returned _ _ _ _ _ Heq). reflexivity.
Qed.

Lemma chan_at_active_in_table chs j :
  length chs = Z.to_nat WATCHDOG_MAX_CHANNELS ->
  active (chan_at chs j) = true -> 0 <= j < WATCHDOG_MAX_CHANNELS.
Proof.
  intros Hlen Hact. apply chan_at_active_range in Hact as [H0 Hl]. lia.
Qed.

(** X15.  [watchdog_get_next_timeout_channel] changes nothing in the
    context and returns the channel in use with the earliest deadline, the
    lowest index among those with that deadline; it returns -1 exactly when
    no channel in use has a deadline below [INT64_MAX]. *)
Theorem next_timeout_channel_is_the_earliest (w : world) :
  exists r w',
    watchdog_get_next_timeout_channel w = Returned r w'
    /\ g_watchdog_ctx w' = g_watchdog_ctx w
    /\ ((r = -1
         /\ forall j, 0 <= j < WATCHDOG_MAX_CHANNELS -> active (slot w j) = true ->
                      INT64_MAX <= timeout_abs_ticks (slot w j))
        \/ (0 <= r < WATCHDOG_MAX_CHANNELS
            /\ active (slot w r) = true
            /\ timeout_abs_ticks (slot w r) < INT64_MAX
            /\ forall j, 0 <= j < WATCHDOG_MAX_CHANNELS -> active (slot w j) = true ->
                  timeout_abs_ticks (slot w r) <= timeout_abs_ticks (slot w j)
                  /\ (timeout_abs_ticks (slot w j) = timeout_abs_ticks (slot w r) -> r <= j))).
Proof.
  destruct (watchdog_get_next_timeout_channel_spec w) as (w' & Heq & Hc).
  eexists _, w'. split; [exact Heq|]. split; [exact Hc|].
  pose proof (next_step_earliest (table w) (Z.to_nat WATCHDOG_MAX_CHANNELS)) as H.
  change (Z.of_nat (Z.to_nat WATCHDOG_MAX_CHANNELS)) with WATCHDOG_MAX_CHANNELS in H.
  fold channel_ids in H.
  destruct H as [[-> Hnone]|(Hr & Ha & Hs & Hm & Hall)].
  - left. split; [reflexivity|exact Hnone].
  - right. split; [exact Hr|]. split; [exact Ha|]. rewrite <- Hs.
    split; [exact Hm|exact Hall].
Qed.

Lemma hint_ok_none c :
  next_timeout_channel c = -1 -> next_timeout_ticks c = INT64_MAX ->
  (forall j, 0 <= j < WATCHDOG_MAX_CHANNELS -> active (chan_at (channels c) j) = true ->
             INT64_MAX <= timeout_abs_ticks (chan_at (channels c) j)) ->
  hint_ok c = true.
Proof.
  intros Hr Ht Hnone. unfold hint_ok. rewrite Hr, Ht. cbn [Z.ltb Z.compare Z.eqb Pos.eqb].
  rewrite Z.eqb_refl. cbn [andb]. apply forallb_forall. intros j Hj.
  apply list_elem_of_In, elem_of_seqZ in Hj.
  destruct (active (chan_at (channels c) j)) eqn:Hact; [|reflexivity].
  specialize (Hnone j ltac:(lia) Hact). cbn. lia.
Qed.

Lemma hint_ok_some c :
  0 <= next_timeout_channel c < WATCHDOG_MAX_CHANNELS ->
  active (chan_at (channels c) (next_timeout_channel c)) = true ->
  next_timeout_ticks c = timeout_abs_ticks (chan_at (channels c) (next_timeout_channel c)) ->
  next_timeout_ticks c < INT64_MAX ->
  (forall j, 0 <= j < WATCHDOG_MAX_CHANNELS -> active (chan_at (channels c) j) = true ->
             next_timeout_ticks c <= timeout_abs_ticks (chan_at (channels c) j)
             /\ (timeout_abs_ticks (chan_at (channels c) j) = next_timeout_ticks c ->
                 next_timeout_channel c <= j)) ->
  hint_ok c = true.
Proof.
  intros Hr Ha Ht Hm Hall. unfold hint_ok.
  replace (next_timeout_channel c <? 0) with false by lia.
  replace (next_timeout_channel c <? WATCHDOG_MAX_CHANNELS) with true by lia.
  rewrite Ha. rewrite <- Ht. rewrite Z.eqb_refl.
  replace (next_timeout_ticks c <? INT64_MAX) with true by lia.
  cbn [andb]. apply forallb_forall. intros j Hj.
  apply list_elem_of_In, elem_of_seqZ in Hj.
  destruct (active (chan_at (channels c) j)) eqn:Hact; [|reflexivity].
  destruct (Hall j ltac:(lia) Hact) as [Hle Htie]. cbn [negb orb].
  destruct (next_timeout_ticks c <? timeout_abs_ticks (chan_at (channels c) j)) eqn:Hlt;
    [reflexivity|].
  cbn [orb]. apply andb_true_intro. split; [lia|]. apply Z.leb_le. apply Htie. lia.
Qed.

Lemma watchdog_schedule_next_timeout_hint w :
  exists w', watchdog_schedule_next_timeout w = Returned tt w' /\ quiet w w'
             /\ hint_ok (g_watchdog_ctx w') = true.
Proof.
  destruct (watchdog_schedule_next_timeout_quiet w) as (w' & Heq & Hq).
  exists w'. split; [exact Heq|]. split; [exact Hq|].
  revert Heq. unfold watchdog_schedule_next_timeout.
  destruct (watchdog_get_next_timeout_channel_spec w) as (w1 & Heq1 & Hc1).
  rewrite (bind_returned _ _ _ _ _ Heq1).
  pose proof (next_step_earliest (table w) (Z.to_nat WATCHDOG_MAX_CHANNELS)) as H.
  change (Z.of_nat (Z.to_nat WATCHDOG_MAX_CHANNELS)) with WATCHDOG_MAX_CHANNELS in H.
  fold channel_ids in H.
  set (s := fold_left (next_step (table w)) channel_ids (-1, INT64_MAX)) in *.
  destruct H as [[Hs Hnone]|(Hr & Ha & Hs & Hm & Hall)].
  - rewrite Hs. cbn [fst]. intros [= <-]. apply hint_ok_none; [reflexivity|reflexivity|].
    cbn. rewrite Hc1. exact Hnone.
  - replace (0 <=? fst s) with true by lia. intros [= <-].
    apply hint_ok_some; cbn; rewrite ?Hc1;
      [exact Hr|exact Ha|reflexivity|rewrite <- Hs; exact Hm|rewrite <- Hs; exact Hall].
Qed.

Lemma z_wdt_feed_hint w i :
  initialized (g_watchdog_ctx w) = true ->
  feedable (table w) i = true ->
  exists w', z_wdt_feed i w = Returned 0 w' /\ hint_ok (g_watchdog_ctx w') = true.
Proof.
  intros Hinit Hfeed. unfold feedable in Hfeed.
  apply andb_prop in Hfeed as [Hrange Hact]. apply andb_prop in Hrange as [Hlo Hhi].
  unfold z_wdt_feed, bind, get_initialized, chan_get, chan_set, watchdog_get_ticks, ret.
  rewrite Hinit. cbn.
  replace (i <? 0) with false by lia.
  replace (i >=? WATCHDOG_MAX_CHANNELS) with false by lia.
  cbn. rewrite Hact. cbn.
  match goal with
  | |- context [watchdog_schedule_next_timeout ?x] => set (w2 := x)
  end.
  destruct (watchdog_schedule_next_timeout_hint w2) as (w3 & Heq & _ & Hh).
  exists w3. rewrite Heq. split; [reflexivity|exact Hh].
Qed.

Lemma z_wdt_delete_hint w id :
  initialized (g_watchdog_ctx w) = true -> in_range id = true ->
  watchdog_mutex w = false -> active (slot w id) = true ->
  exists w', z_wdt_delete id w = Returned 0 w' /\ hint_ok (g_watchdog_ctx w') = true.
Proof.
  intros H Hr Hm Ha.
  unfold z_wdt_delete, bind, get_initialized, watchdog_mutex_lock, chan_get, chan_set.
  rewrite H. cbn.
  replace ((id <? 0) || (id >=? WATCHDOG_MAX_CHANNELS)) with false
    by (unfold in_range in Hr; lia).
  rewrite Hm. cbn. rewrite Ha.
  match goal with
  | |- context [watchdog_schedule_next_timeout ?x] => set (w2 := x)
  end.
  destruct (watchdog_schedule_next_timeout_hint w2) as (w3 & Heq & _ & Hh).
  rewrite Heq. eexists. split; [reflexivity|exact Hh].
Qed.

Lemma z_wdt_resume_hint w :
  initialized (g_watchdog_ctx w) = true -> watchdog_mutex w = false ->
  exists w', z_wdt_resume w = Returned tt w' /\ hint_ok (g_watchdog_ctx w') = true.
Proof.
  intros H Hm.
  unfold z_wdt_resume. unfold bind at 1. unfold get_initialized. rewrite H. cbn [negb].
  unfold bind at 1. unfold watchdog_mutex_lock. rewrite Hm.
  unfold bind at 1. unfold watchdog_get_ticks at 1.
  destruct (resume_loop_spec (ticks_now w) channel_ids (with_mutex true w))
    as (w1 & Heq & _).
  { intros j Hj. apply elem_of_seqZ in Hj. unfold in_range. lia. }
  unfold bind at 1. cbn [ticks_now with_mutex]. rewrite Heq.
  unfold bind at 1. unfold put_timer_running at 1.
  unfold bind at 1.
  set (w2 := note AccTimerRunning _).
  destruct (watchdog_schedule_next_timeout_hint w2) as (w3 & Heq3 & _ & Hh).
  rewrite Heq3. eexists. split; [reflexivity|exact Hh].
Qed.

Lemma add_at_hint period cb data id w :
  initialized (g_watchdog_ctx w) = true ->
  active (slot w id) = false ->
  in_range id = true ->
  (Z.to_nat id < length (table w))%nat ->
  exists w', add_at period cb data id w = Returned (Some id) w'
             /\ hint_ok (g_watchdog_ctx w') = true.
Proof.
  intros H Ha Hr Hlen. unfold add_at. unfold bind at 1. unfold chan_get at 1. rewrite Ha.
  cbn [negb]. unfold bind at 1 2 3 4 5. unfold chan_set. unfold bind at 1.
  set (w1 := note (AccChannel id) _).
  destruct (z_wdt_feed_hint w1 id) as (w2 & Heq & Hh); [exact H| |].
  { unfold feedable. unfold in_range in Hr. rewrite Hr. cbn [andb].
    subst w1. cbn. rewrite !chan_upd_upd. rewrite chan_at_upd_eq; [reflexivity|lia|exact Hlen]. }
  rewrite Heq. eexists. split; [reflexivity|exact Hh].
Qed.

Lemma z_wdt_add_hint w period cb data id :
  initialized (g_watchdog_ctx w) = true -> period <> 0 -> watchdog_mutex w = false ->
  in_range id = true ->
  (Z.to_nat id < length (table w))%nat ->
  (forall j, 0 <= j < id -> active (slot w j) = true) ->
  active (slot w id) = false ->
  exists w', z_wdt_add period cb data w = Returned id w'
             /\ hint_ok (g_watchdog_ctx w') = true.
Proof.
  intros H Hp Hm Hr Hlen Hlow Ha.
  assert (Hid : 0 <= id < WATCHDOG_MAX_CHANNELS) by (unfold in_range in Hr; lia).
  unfold z_wdt_add. unfold bind at 1. unfold get_initialized. rewrite H. cbn [negb].
  replace (period =? 0) with false by lia.
  unfold bind at 1. unfold watchdog_mutex_lock. rewrite Hm.
  rewrite (channel_ids_split id Hid).
  destruct (add_scan_skip period cb data (seqZ 0 id)
              (id :: seqZ (id + 1) (WATCHDOG_MAX_CHANNELS - id - 1)) (with_mutex true w))
    as (w1 & Heq & Hf & Hc & He).
  { intros j Hj. apply elem_of_seqZ in Hj. apply Hlow. lia. }
  unfold bind at 1. rewrite Heq. simpl for_return. unfold bind at 1.
  destruct (add_at_hint period cb data id w1) as (w2 & Heq2 & Hh).
  { rewrite Hc. exact H. }
  { rewrite Hc. exact Ha. }
  { exact Hr. }
  { rewrite Hc. exact Hlen. }
  rewrite Heq2. exists w2. split; [reflexivity|exact Hh].
Qed.

Lemma z_wdt_process_hint w w' :
  initialized (g_watchdog_ctx w) = true ->
  timer_running (g_watchdog_ctx w) = true ->
  z_wdt_process w = Returned tt w' ->
  hint_ok (g_watchdog_ctx w') = true.
Proof.
  intros Hi Hr.
  unfold z_wdt_process, bind, get_initialized, get_timer_running, watchdog_get_ticks.
  rewrite Hi. cbn. rewrite Hr. cbn.
  destruct (process_sweep _ channel_ids _) as [[] w1|s w1|w1]; [|discriminate|discriminate].
  destruct (watchdog_schedule_next_timeout_hint w1) as (w2 & Heq2 & _ & Hh).
  rewrite Heq2. intros [= <-]. exact Hh.
Qed.

Lemma hint_ok_fresh :
  hint_ok (set_timer_running true
             (set_initialized true
                (set_next_timeout_ticks INT64_MAX
                   (set_next_timeout_channel (-1) zero_context)))) = true.
Proof. vm_compute. reflexivity. Qed.

Lemma z_wdt_init_hint w :
  initialized (g_watchdog_ctx w) = false ->
  hint_ok (g_watchdog_ctx (final_world (z_wdt_init w))) = true.
Proof.
  intros Hi. destruct (thread_create_ok w) eqn:Hok.
  - destruct (z_wdt_init_fresh w Hi Hok) as (w' & Heq & Hc & _).
    rewrite Heq. cbn [final_world]. rewrite Hc. apply hint_ok_fresh.
  - destruct (z_wdt_init_no_thread w Hi Hok) as (w' & Heq & Hc).
    rewrite Heq. cbn [final_world]. rewrite Hc. apply hint_ok_fresh.
Qed.

(** X16.  The scheduling hint is an invariant of the context.
    [z_wdt_init] on an uninitialized context establishes [hint_ok]: the
    fields [next_timeout_channel] and [next_timeout_ticks] name the channel
    in use with the earliest deadline, or are [(-1, INT64_MAX)].  Every
    operation called with the mutex free keeps it: init, feed, delete, add,
    suspend, resume and cleanup on every path, and [z_wdt_process] whenever
    it returns. *)
Theorem scheduling_hint_invariant (w : world) :
  wf_world w = true ->
  watchdog_mutex w = false ->
  (initialized (g_watchdog_ctx w) = false ->
   hint_ok (g_watchdog_ctx (final_world (z_wdt_init w))) = true)
  /\ (hint_ok (g_watchdog_ctx w) = true ->
      hint_ok (g_watchdog_ctx (final_world (z_wdt_init w))) = true
      /\ (forall id, hint_ok (g_watchdog_ctx (final_world (z_wdt_feed id w))) = true)
      /\ (forall id, hint_ok (g_watchdog_ctx (final_world (z_wdt_delete id w))) = true)
      /\ (forall period cb data,
            hint_ok (g_watchdog_ctx (final_world (z_wdt_add period cb data w))) = true)
      /\ hint_ok (g_watchdog_ctx (final_world (z_wdt_suspend w))) = true
      /\ hint_ok (g_watchdog_ctx (final_world (z_wdt_resume w))) = true
      /\ hint_ok (g_watchdog_ctx (final_world (z_wdt_cleanup w))) = true
      /\ (forall w', z_wdt_process w = Returned tt w' ->
                     hint_ok (g_watchdog_ctx w') = true)).
Proof.
  intros Hwf Hm. split; [apply z_wdt_init_hint|]. intros Hh.
  destruct (initialized (g_watchdog_ctx w)) eqn:Hi.
  - split; [rewrite (z_wdt_init_again w Hi); exact Hh|].
    split; [|split; [|split; [|split; [|split; [|split]]]]].
    + intros id. destruct (feedable (table w) id) eqn:Hf.
      * destruct (z_wdt_feed_hint w id Hi Hf) as (w' & -> & Hh'). exact Hh'.
      * destruct (z_wdt_feed_error w id Hi Hf) as [-> | ->]; exact Hh.
    + intros id. destruct (in_range id) eqn:Hr.
      * destruct (active (slot w id)) eqn:Ha.
        -- destruct (z_wdt_delete_hint w id Hi Hr Hm Ha) as (w' & -> & Hh'). exact Hh'.
        -- rewrite (z_wdt_delete_inactive w id Hi Hr Hm Ha). exact Hh.
      * rewrite (z_wdt_delete_bad_id w id Hi Hr). exact Hh.
    + intros period cb data. destruct (decide (period = 0)) as [->|Hp].
      { rewrite (z_wdt_add_zero_period w cb data Hi). exact Hh. }
      destruct (lowest_free (table w) WATCHDOG_MAX_CHANNELS)
        as [Hall|(id & Hid & Hf & Hlow)]; [unfold WATCHDOG_MAX_CHANNELS; lia| |].
      * destruct (z_wdt_add_full w period cb data Hi Hp Hm) as (w' & -> & Hc & _).
        { intros j Hj. apply elem_of_seqZ in Hj. apply Hall. lia. }
        cbn [final_world]. rewrite Hc. exact Hh.
      * assert (Hr : in_range id = true) by (unfold in_range; lia).
        destruct (z_wdt_add_hint w period cb data id Hi Hp Hm Hr) as (w' & -> & Hh');
          [rewrite (wf_world_length w Hwf); lia|exact Hlow|exact Hf|exact Hh'].
    + rewrite (z_wdt_suspend_init w Hi Hm). exact Hh.
    + destruct (z_wdt_resume_hint w Hi Hm) as (w' & -> & Hh'). exact Hh'.
    + rewrite (z_wdt_cleanup_init w Hi Hm). exact Hh.
    + intros w' Heq. destruct (timer_running (g_watchdog_ctx w)) eqn:Hr.
      * apply (z_wdt_process_hint w w' Hi Hr Heq).
      * rewrite (z_wdt_process_suspended w Hi Hr) in Heq. injection Heq as <-. exact Hh.
  - split; [apply z_wdt_init_hint; exact Hi|].
    split; [|split; [|split; [|split; [|split; [|split]]]]].
    + intros id. rewrite (z_wdt_feed_uninit w id Hi). exact Hh.
    + intros id. rewrite (z_wdt_delete_uninit w id Hi). exact Hh.
    + intros period cb data. rewrite (z_wdt_add_uninit w period cb data Hi). exact Hh.
    + rewrite (z_wdt_suspend_uninit w Hi). exact Hh.
    + rewrite (z_wdt_resume_uninit w Hi). exact Hh.
    + rewrite (z_wdt_cleanup_uninit w Hi). exact Hh.
    + intros w' Heq. rewrite (z_wdt_process_off w Hi) in Heq. injection Heq as <-. exact Hh.
Qed.

Lemma scheduling_hint_invariant_witness :
  hint_ok (g_watchdog_ctx (final_world (z_wdt_delete 0 two_overdue))) = true.
Proof.
  destruct (scheduling_hint_invariant two_overdue) as (_ & Hkept); [run|run|].
  destruct Hkept as (_ & _ & Hdel & _); [run|]. apply Hdel.
Defined.

(** ** A channel fed in time *)

Lemma z_wdt_process_not_due w k :
  wf_world w = true ->
  due w k = false ->
  fired k (events (final_world (z_wdt_process w))) = fired k (events w)
  /\ active (slot (final_world (z_wdt_process w)) k) = active (slot w k)
  /\ reload_period (slot (final_world (z_wdt_process w)) k) = reload_period (slot w k).
Proof.
  intros Hwf Hk. unfold due in *.
  destruct (z_wdt_process_cases w) as [(w' & Heq & Ht & He & Hf)|(_ & _ & Ht & He & Hf)].
  - rewrite Heq. cbn [final_world]. rewrite Ht, He. auto.
  - rewrite Ht, He.
    destruct (sweep_pure_not_due (ticks_now w) k channel_ids (table w) (events w))
      as (H1 & H2 & H3); [apply wf_world_rearm_ok; exact Hwf|exact Hk|].
    split; [exact H3|]. split; [exact H2|]. apply sweep_pure_registration.
Qed.

Lemma timer_thread_round_not_due w k :
  wf_world w = true ->
  watchdog_mutex w = false ->
  due w k = false ->
  fired k (events (final_world (timer_thread_round w))) = fired k (events w)
  /\ slot_kept k w (final_world (timer_thread_round w))
  /\ forall w', timer_thread_round w = Returned tt w' ->
        wf_table (table w') /\ watchdog_mutex w' = false
        /\ initialized (g_watchdog_ctx w') = initialized (g_watchdog_ctx w).
Proof.
  intros Hwf Hm Hk.
  unfold timer_thread_round, bind, watchdog_mutex_lock, watchdog_mutex_unlock. rewrite Hm.
  set (w0 := with_mutex true w).
  assert (Hwf0 : wf_world w0 = true) by exact Hwf.
  destruct (z_wdt_process_not_due w0 k Hwf0 Hk) as (Hf & Ha & Hp).
  pose proof (wf_world_kept w0 Hwf0) as (_ & _ & _ & _ & _ & Hwfp).
  destruct (z_wdt_process_cases w0) as [(w1 & Heq & _ & _ & Hfr)|(_ & _ & _ & _ & Hfr)].
  - rewrite Heq in *. cbn [final_world] in *.
    split; [exact Hf|]. split; [split; assumption|].
    intros w' [= <-]. split; [|split; [reflexivity|exact (fr_init _ _ Hfr)]].
    apply wf_world_iff in Hwfp as [Hwt _]. exact Hwt.
  - destruct (z_wdt_process w0) as [[] w1|s w1|w1]; cbn [final_world] in *.
    + split; [exact Hf|]. split; [split; assumption|].
      intros w' [= <-]. split; [|split; [reflexivity|exact (fr_init _ _ Hfr)]].
      apply wf_world_iff in Hwfp as [Hwt _]. exact Hwt.
    + split; [exact Hf|]. split; [split; assumption|]. intros w' [=].
    + split; [exact Hf|]. split; [split; assumption|]. intros w' [=].
Qed.

Lemma fed_and_swept_cons k tf ts rest w :
  fed_and_swept k ((tf, ts) :: rest) w
  = match z_wdt_feed k (with_ticks tf w) with
    | Returned _ w2 =>
        match timer_thread_round (with_ticks ts w2) with
        | Returned _ w4 => fed_and_swept k rest w4
        | Exited s x => Exited s x
        | Deadlocked x => Deadlocked x
        end
    | Exited s x => Exited s x
    | Deadlocked x => Deadlocked x
    end.
Proof.
  unfold fed_and_swept. simpl for_each. unfold bind.
  destruct (z_wdt_feed k (with_ticks tf w)); [|reflexivity|reflexivity].
  destruct (timer_thread_round _) as [[] ?| |]; reflexivity.
Qed.

(** X17.  A channel that is fed in time is never reported.  A task feeds
    channel [k] and the timer thread runs a round after each feed, less
    than the period of the channel after it, the callbacks calling nothing
    of the watchdog but [z_wdt_feed]: then no round invokes the callback of
    [k], whichever channels are due in these rounds and whichever channels
    their callbacks feed, and the channel is still in use when the run
    returns. *)
Theorem fed_channel_never_fires (w : world) (k : Z) (turns : list (Z * Z)) :
  wf_world w = true ->
  initialized (g_watchdog_ctx w) = true ->
  watchdog_mutex w = false ->
  active (slot w k) = true ->
  fed_in_time (reload_period (slot w k)) turns = true ->
  fired k (events (final_world (fed_and_swept k turns w))) = fired k (events w)
  /\ forall w', fed_and_swept k turns w = Returned tt w' -> active (slot w' k) = true.
Proof.
  intros Hwf Hi Hm Hact Hin.
  apply wf_world_iff in Hwf as [Hwt _].
  remember (reload_period (slot w k)) as P eqn:HP. symmetry in HP.
  revert w Hwt Hi Hm Hact HP.
  induction turns as [|[tf ts] rest IH]; intros w Hwt Hi Hm Hact HP.
  { split; [reflexivity|]. intros w' [= <-]. exact Hact. }
  unfold fed_in_time in Hin. apply forallb_cons_true in Hin as [Hturn Hrest].
  fold (fed_in_time P rest) in Hrest.
  apply andb_prop in Hturn as [Hclk Hlt]. apply andb_prop in Hclk as [Hcf Hcs].
  specialize (IH Hrest).
  rewrite fed_and_swept_cons.
  set (w1 := with_ticks tf w).
  assert (Hwf1 : wf_world w1 = true) by (apply wf_world_iff; split; assumption).
  destruct (z_wdt_feed_spec w1 k Hi) as (w2 & Heq2 & Hf2 & He2 & Ht2).
  rewrite Heq2.
  assert (Hrange : 0 <= k < WATCHDOG_MAX_CHANNELS).
  { apply (chan_at_active_in_table (table w)); [apply Hwt|exact Hact]. }
  assert (Hslot2 : slot w2 k = set_timeout_abs_ticks (tf + P) (slot w k)).
  { rewrite Ht2, chan_at_feed_chs, Z.eqb_refl. unfold feedable.
    replace (0 <=? k) with true by lia.
    replace (k <? WATCHDOG_MAX_CHANNELS) with true by lia.
    change (chan_at (table w1) k) with (slot w k). rewrite Hact. cbn [andb].
    pose proof (wf_world_deadline w1 k Hwf1 Hact) as Hd.
    change (slot w1 k) with (slot w k) in Hd. change (ticks_now w1) with tf in Hd |- *.
    rewrite Hd, HP. reflexivity. }
  set (w3 := with_ticks ts w2).
  assert (Hwf3 : wf_world w3 = true).
  { apply wf_world_iff. split; [|exact Hcs]. subst w3. cbn. rewrite Ht2.
    apply wf_table_feed_chs. exact Hwt. }
  assert (Hm3 : watchdog_mutex w3 = false) by (subst w3; cbn; rewrite (fr_mutex _ _ Hf2); exact Hm).
  assert (Hdue3 : due w3 k = false).
  { unfold due. subst w3. cbn. rewrite Hslot2. apply expired_false. simpl. lia. }
  destruct (timer_thread_round_not_due w3 k Hwf3 Hm3 Hdue3) as (Hfired & [Ha Hp] & Hret).
  assert (Hfired' : fired k (events (final_world (timer_thread_round w3))) = fired k (events w)).
  { rewrite Hfired. subst w3. cbn. rewrite He2. reflexivity. }
  destruct (timer_thread_round w3) as [[] w4|s w4|w4] eqn:Hround; cbn [final_world] in *.
  - destruct (Hret w4 eq_refl) as (Hwt4 & Hm4 & Hi4).
    destruct (IH w4) as [IHf IHa].
    + exact Hwt4.
    + rewrite Hi4. subst w3. cbn. rewrite (fr_init _ _ Hf2). exact Hi.
    + exact Hm4.
    + rewrite Ha. subst w3. cbn. rewrite Hslot2. exact Hact.
    + rewrite Hp. subst w3. cbn. rewrite Hslot2. exact HP.
    + split; [rewrite IHf; exact Hfired'|exact IHa].
  - split; [exact Hfired'|]. intros w' [=].
  - split; [exact Hfired'|]. intros w' [=].
Qed.

(** Channel 1 of [rescuer], of period 1000, is fed at 1500 and at 2400, a
    round following each feed by 100 ms; channel 0, which nobody feeds, is
    fired in the first of these rounds and its callback feeds channel 1. *)
Lemma fed_channel_never_fires_witness :
  fired 0 (events (final_world (fed_and_swept 1 [(1500, 1600); (2400, 2500)] rescuer)))
  = [7]
  /\ fired 1 (events (final_world (fed_and_swept 1 [(1500, 1600); (2400, 2500)] rescuer)))
     = fired 1 (events rescuer).
Proof.
  split; [run|].
  destruct (fed_channel_never_fires rescuer 1 [(1500, 1600); (2400, 2500)])
    as [Hf _]; [run|run|run|run|run|].
  exact Hf.
Defined.

(** ** Ids in order *)

Lemma add_all_dense reqs : forall w n,
  initialized (g_watchdog_ctx w) = true ->
  watchdog_mutex w = false ->
  length (table w) = Z.to_nat WATCHDOG_MAX_CHANNELS ->
  0 <= n -> n + Z.of_nat (length reqs) <= WATCHDOG_MAX_CHANNELS ->
  (forall j, 0 <= j < n -> active (slot w j) = true) ->
  (forall j, n <= j < WATCHDOG_MAX_CHANNELS -> active (slot w j) = false) ->
  periods_nonzero reqs = true ->
  exists w',
    add_all reqs w = Returned (seqZ n (Z.of_nat (length reqs))) w'
    /\ initialized (g_watchdog_ctx w') = true
    /\ watchdog_mutex w' = false
    /\ length (table w') = Z.to_nat WATCHDOG_MAX_CHANNELS
    /\ (forall j, 0 <= j < n + Z.of_nat (length reqs) -> active (slot w' j) = true)
    /\ (forall j, n + Z.of_nat (length reqs) <= j < WATCHDOG_MAX_CHANNELS ->
                  active (slot w' j) = false).
Proof.
  induction reqs as [|[[period cb] data] rest IH]; intros w n Hi Hm Hlen Hn Hfit Hlow Hhigh Hp.
  { exists w. cbn [length Z.of_nat]. rewrite Z.add_0_r. repeat split; assumption. }
  unfold periods_nonzero in Hp. apply forallb_cons_true in Hp as [Hp0 Hprest].
  fold (periods_nonzero rest) in Hprest.
  cbn [length] in Hfit |- *. rewrite Nat2Z.inj_succ in Hfit |- *.
  assert (Hr : in_range n = true) by (unfold in_range; lia).
  destruct (z_wdt_add_free w period cb data n Hi ltac:(lia) Hm Hr Hlow)
    as (w1 & Heq & Ht & _ & Hi1 & _ & Hm1 & _); [apply Hhigh; lia|].
  assert (Hslot : forall j, slot w1 j
                    = if j =? n
                      then mk_channel period (i64_add (ticks_now w) period) data cb true
                      else slot w j).
  { intros j. rewrite Ht. apply chan_at_added; [exact Hr|]. rewrite Hlen.
    unfold WATCHDOG_MAX_CHANNELS in *. lia. }
  destruct (IH w1 (n + 1)) as (w2 & Heq2 & Hi2 & Hm2 & Hlen2 & Hlow2 & Hhigh2);
    [exact Hi1|exact Hm1| |lia|lia| | |exact Hprest|].
  - rewrite Ht, length_feed_chs, length_chan_upd. exact Hlen.
  - intros j Hj. rewrite Hslot. destruct (j =? n) eqn:E; [reflexivity|]. apply Hlow. lia.
  - intros j Hj. rewrite Hslot. destruct (j =? n) eqn:E; [lia|]. apply Hhigh. lia.
  - exists w2. split.
    + simpl add_all. rewrite (bind_returned _ _ _ _ _ Heq).
      rewrite (bind_returned _ _ _ _ _ Heq2).
      rewrite (seqZ_cons n) by lia.
      replace (Z.succ n) with (n + 1) by lia.
      replace (Z.pred (Z.succ (Z.of_nat (length rest)))) with (Z.of_nat (length rest)) by lia.
      reflexivity.
    + split; [exact Hi2|]. split; [exact Hm2|]. split; [exact Hlen2|].
      split; [intros j Hj; apply Hlow2; lia|intros j Hj; apply Hhigh2; lia].
Qed.

(** X18.  Right after [z_wdt_init] the ids are handed out in order:
    [n <= 16] calls of [z_wdt_add] with non-zero periods return
    0, 1, ..., n - 1, exactly these slots are then in use, and after 16 of
    them any further [z_wdt_add] returns -1. *)
Theorem ids_are_handed_out_in_order (w : world)
  (reqs : list (Z * option watchdog_callback_t * Z)) :
  initialized (g_watchdog_ctx w) = false ->
  thread_create_ok w = true ->
  watchdog_mutex w = false ->
  periods_nonzero reqs = true ->
  (length reqs <= Z.to_nat WATCHDOG_MAX_CHANNELS)%nat ->
  exists w',
    (z_wdt_init ;; add_all reqs) w = Returned (seqZ 0 (Z.of_nat (length reqs))) w'
    /\ (forall j, active (slot w' j) = true <-> 0 <= j < Z.of_nat (length reqs))
    /\ (length reqs = Z.to_nat WATCHDOG_MAX_CHANNELS ->
        forall period cb data,
          exists w'', z_wdt_add period cb data w' = Returned (-1) w'').
Proof.
  intros Hi Hok Hm Hp Hfit.
  destruct (z_wdt_init_fresh w Hi Hok) as (w0 & Heq0 & Hc0 & Hz0 & _ & _ & Hm0).
  assert (Hi0 : initialized (g_watchdog_ctx w0) = true) by (rewrite Hc0; reflexivity).
  assert (Hlen0 : length (table w0) = Z.to_nat WATCHDOG_MAX_CHANNELS)
    by (rewrite Hc0; reflexivity).
  destruct (add_all_dense reqs w0 0 Hi0) as (w' & Heq & Hi' & Hm' & Hlen' & Hlow & Hhigh);
    [congruence|exact Hlen0|lia|unfold WATCHDOG_MAX_CHANNELS in *; lia|intros; lia|
     intros j _; rewrite Hz0; reflexivity|exact Hp|].
  rewrite Z.add_0_l in Hlow, Hhigh.
  exists w'. split; [rewrite (bind_returned _ _ _ _ _ Heq0); exact Heq|]. split.
  - intros j. split; [|apply Hlow].
    intros Hact. pose proof (chan_at_active_in_table _ j Hlen' Hact) as Hj.
    destruct (decide (j < Z.of_nat (length reqs))) as [Hlt|Hge]; [lia|].
    rewrite Hhigh in Hact by lia. discriminate.
  - intros Hfull period cb data. destruct (decide (period = 0)) as [->|Hne].
    + eexists. apply z_wdt_add_zero_period. exact Hi'.
    + destruct (z_wdt_add_full w' period cb data Hi' Hne Hm') as (w'' & Heq'' & _).
      * intros j Hj. apply elem_of_seqZ in Hj. apply Hlow. lia.
      * exists w''. exact Heq''.
Qed.

Lemma ids_are_handed_out_in_order_witness :
  exists w', (z_wdt_init ;; add_all three_requests) boot = Returned [0; 1; 2] w'.
Proof.
  destruct (ids_are_handed_out_in_order boot three_requests) as (w' & Heq & _);
    [run|run|run|run|vm_compute; lia|].
  exists w'. exact Heq.
Defined.
